(** * West Virginia election aggregation: a shallow embedding of
    [Scripts/build_wv_aggregation_json.py] and the properties of its
    normalisation, deduplication, aggregation and classification code.

    Conventions of the embedding.
    - A Python [str] is a [string] of code points below 128.  Characters
      outside ASCII are treated as caseless, non-blank, non-word characters.
    - A Python [int] is a [Z]; a Python [float] is a binary64 value of
      [SpecFloat.spec_float] (precision 53, maximal exponent 1024).
    - A Python [dict] is an association list in insertion order; [sorted] is a
      stable insertion sort.
    - An exception is a value [Err e] of the type [result]; code that does not
      catch it passes it on. *)

From Stdlib Require Import ZArith List String Ascii Bool Lia Arith Permutation.
From Stdlib Require Import SpecFloat.
Import ListNotations.
Local Open Scope string_scope.
Local Open Scope Z_scope.

(* ================================================================== *)
(** * Python string builtins *)
(* ================================================================== *)

Module PyStr.

Definition code (c : ascii) : nat := nat_of_ascii c.

Definition in_range (lo hi : nat) (c : ascii) : bool :=
  (Nat.leb lo (code c) && Nat.leb (code c) hi)%bool.

(** [str.isspace] on one character, also the class [\s] of [re]:
    tab, newline, vertical tab, form feed, carriage return, the four
    separators 0x1c..0x1f and the space. *)
Definition is_space (c : ascii) : bool :=
  (in_range 9 13 c || in_range 28 32 c)%bool.

Definition is_lower (c : ascii) : bool := in_range 97 122 c.
Definition is_upper (c : ascii) : bool := in_range 65 90 c.
Definition is_alpha (c : ascii) : bool := (is_lower c || is_upper c)%bool.
Definition is_digit (c : ascii) : bool := in_range 48 57 c.

(** The class [\w] of [re]. *)
Definition is_word (c : ascii) : bool :=
  (is_alpha c || is_digit c || Ascii.eqb c "_")%bool.

Definition to_lower (c : ascii) : ascii :=
  if is_upper c then ascii_of_nat (code c + 32) else c.

Definition to_upper (c : ascii) : ascii :=
  if is_lower c then ascii_of_nat (code c - 32) else c.

Fixpoint map_chars (f : ascii -> ascii) (s : string) : string :=
  match s with
  | EmptyString => EmptyString
  | String c r => String (f c) (map_chars f r)
  end.

(** [str.lower] and [str.upper]. *)
Definition lower : string -> string := map_chars to_lower.
Definition upper : string -> string := map_chars to_upper.

Fixpoint lstrip (s : string) : string :=
  match s with
  | EmptyString => EmptyString
  | String c r => if is_space c then lstrip r else s
  end.

Fixpoint rstrip (s : string) : string :=
  match s with
  | EmptyString => EmptyString
  | String c r =>
      match rstrip r with
      | EmptyString => if is_space c then EmptyString else String c EmptyString
      | r' => String c r'
      end
  end.

(** [str.strip()]. *)
Definition strip (s : string) : string := rstrip (lstrip s).

(** The blanks that [float] skips around a number: tab, newline, vertical
    tab, form feed, carriage return and the space, without the four
    separators that [str.strip] also removes. *)
Definition is_c_space (c : ascii) : bool :=
  (in_range 9 13 c || Ascii.eqb c " ")%bool.

Fixpoint lstrip_with (p : ascii -> bool) (s : string) : string :=
  match s with
  | EmptyString => EmptyString
  | String c r => if p c then lstrip_with p r else s
  end.

Fixpoint rstrip_with (p : ascii -> bool) (s : string) : string :=
  match s with
  | EmptyString => EmptyString
  | String c r =>
      match rstrip_with p r with
      | EmptyString => if p c then EmptyString else String c EmptyString
      | r' => String c r'
      end
  end.

Definition strip_with (p : ascii -> bool) (s : string) : string :=
  rstrip_with p (lstrip_with p s).

(** [str.title()]: a letter is upper-cased when the character before it is
    not a letter, and lower-cased otherwise. *)
Fixpoint title_from (prev_cased : bool) (s : string) : string :=
  match s with
  | EmptyString => EmptyString
  | String c r =>
      if is_alpha c
      then String (if prev_cased then to_lower c else to_upper c) (title_from true r)
      else String c (title_from false r)
  end.

Definition title : string -> string := title_from false.

Fixpoint existsb_chars (p : ascii -> bool) (s : string) : bool :=
  match s with
  | EmptyString => false
  | String c r => (p c || existsb_chars p r)%bool
  end.

(** [str.isupper()]: some cased character, and no lower-case one. *)
Definition isupper (s : string) : bool :=
  (existsb_chars is_alpha s && negb (existsb_chars is_lower s))%bool.

(** [s.replace(old, new)] for a one-character [old]. *)
Fixpoint replace_char (old : ascii) (new : string) (s : string) : string :=
  match s with
  | EmptyString => EmptyString
  | String c r =>
      if Ascii.eqb c old then new ++ replace_char old new r
      else String c (replace_char old new r)
  end.

(** [s.replace(old, new)] for a non-empty [old]: leftmost occurrences,
    not overlapping. *)
Fixpoint replace_from (fuel : nat) (old new s : string) : string :=
  match fuel with
  | O => s
  | S fuel' =>
      match s with
      | EmptyString => EmptyString
      | String c r =>
          if prefix old s
          then new ++ replace_from fuel' old new
                        (substring (String.length old) (String.length s) s)
          else String c (replace_from fuel' old new r)
      end
  end.

Definition replace (old new s : string) : string :=
  replace_from (String.length s) old new s.

(** Truth value of a string: [not s] holds of the empty string only. *)
Definition nonempty (s : string) : bool :=
  match s with EmptyString => false | _ => true end.

Fixpoint rev_string (acc : string) (s : string) : string :=
  match s with
  | EmptyString => acc
  | String c r => rev_string (String c acc) r
  end.

End PyStr.
Import PyStr.

(* ================================================================== *)
(** * The fragment of Python's [re] the script uses *)
(* ================================================================== *)

Module Re.

(** Patterns.  [Chr p] is a literal or a class, given by its predicate;
    [Grp] is a capturing group; [WordB] is [\b]; [Bol] is [^] and [Eol] is
    [$] (without MULTILINE, [$] also matches before a final newline). *)
Inductive regex : Type :=
| Eps
| Chr (p : ascii -> bool)
| Seq (r1 r2 : regex)
| Alt (r1 r2 : regex)
| Star (r : regex)
| Grp (r : regex)
| WordB
| Bol
| Eol.

Definition Plus (r : regex) : regex := Seq r (Star r).
Definition Opt (r : regex) : regex := Alt r Eps.

(** A literal character, and one matched under IGNORECASE. *)
Definition lit (c : ascii) : regex := Chr (Ascii.eqb c).
Definition lit_i (c : ascii) : regex :=
  Chr (fun x => Ascii.eqb (to_lower x) (to_lower c)).

Fixpoint seq_of (mk : ascii -> regex) (s : string) : regex :=
  match s with
  | EmptyString => Eps
  | String c EmptyString => mk c
  | String c r => Seq (mk c) (seq_of mk r)
  end.

(** A literal string, and one matched under IGNORECASE. *)
Definition str : string -> regex := seq_of lit.
Definition str_i : string -> regex := seq_of lit_i.

(** The state of a match attempt: the character before the cursor, the text
    consumed since the attempt began (most recent first), the text still to
    read, and the groups closed so far (in the order they closed). *)
Record mstate : Type := MState {
  m_prev : option ascii;
  m_taken : string;
  m_rest : string;
  m_groups : list string
}.

Definition word_opt (c : option ascii) : bool :=
  match c with Some x => is_word x | None => false end.

Definition next_char (s : string) : option ascii :=
  match s with EmptyString => None | String c _ => Some c end.

Definition at_word_boundary (st : mstate) : bool :=
  xorb (word_opt (m_prev st)) (word_opt (next_char (m_rest st))).

Definition at_end (st : mstate) : bool :=
  match m_rest st with
  | EmptyString => true
  | String c EmptyString => Ascii.eqb c "010"
  | _ => false
  end.

Definition at_start (st : mstate) : bool :=
  match m_prev st, m_taken st with
  | None, EmptyString => true
  | _, _ => false
  end.

Definition close_group (st0 st1 : mstate) : mstate :=
  let n := (String.length (m_taken st1) - String.length (m_taken st0))%nat in
  MState (m_prev st1) (m_taken st1) (m_rest st1)
         (m_groups st1 ++ [rev_string "" (substring 0 n (m_taken st1))]).

(** Backtracking matcher in continuation-passing style: alternatives are
    tried left to right and repetitions are greedy, as in [re].  A repetition
    stops at an iteration that consumes nothing, so its number of iterations
    is bounded by the length of the remaining text. *)
Fixpoint run {A : Type} (r : regex) (st : mstate) (k : mstate -> option A)
  {struct r} : option A :=
  match r with
  | Eps => k st
  | Chr p =>
      match m_rest st with
      | String c rest =>
          if p c
          then k (MState (Some c) (String c (m_taken st)) rest (m_groups st))
          else None
      | EmptyString => None
      end
  | Seq r1 r2 => run r1 st (fun st' => run r2 st' k)
  | Alt r1 r2 =>
      match run r1 st k with
      | Some a => Some a
      | None => run r2 st k
      end
  | Star r1 =>
      let body := @run A r1 in
      (fix loop (n : nat) (st : mstate) {struct n} : option A :=
         match n with
         | O => k st
         | S n' =>
             match body st (fun st' =>
                     if Nat.ltb (String.length (m_rest st'))
                                (String.length (m_rest st))
                     then loop n' st' else None) with
             | Some a => Some a
             | None => k st
             end
         end) (String.length (m_rest st)) st
  | Grp r1 => run r1 st (fun st' => k (close_group st st'))
  | WordB => if at_word_boundary st then k st else None
  | Bol => if at_start st then k st else None
  | Eol => if at_end st then k st else None
  end.

(** One match attempt at the cursor: the final state of the first successful
    path. *)
Definition match_here (r : regex) (prev : option ascii) (s : string)
  : option mstate :=
  run r (MState prev "" s []) Some.

Definition matched (st : mstate) : string := rev_string "" (m_taken st).

Definition group (st : mstate) (i : nat) : string :=
  match i with
  | O => matched st
  | S j => nth j (m_groups st) ""
  end.

(** [re.match]: an attempt at the start of the string only. *)
Definition re_match (r : regex) (s : string) : option mstate :=
  match_here r None s.

(** [re.search]: the leftmost position with a successful attempt. *)
Fixpoint search_from (r : regex) (prev : option ascii) (s : string)
  : option mstate :=
  match match_here r prev s with
  | Some st => Some st
  | None =>
      match s with
      | EmptyString => None
      | String c rest => search_from r (Some c) rest
      end
  end.

Definition re_search (r : regex) (s : string) : option mstate :=
  search_from r None s.

(** [re.sub] with a replacement function, for patterns that match no empty
    string (all patterns of the script): matches are taken left to right and
    do not overlap; text between them is copied. *)
Fixpoint sub_from (fuel : nat) (r : regex) (repl : mstate -> string)
  (prev : option ascii) (s : string) : string :=
  match fuel with
  | O => s
  | S fuel' =>
      match match_here r prev s, s with
      | Some st, String c rest =>
          match m_taken st with
          | EmptyString => String c (sub_from fuel' r repl (Some c) rest)
          | _ => repl st ++ sub_from fuel' r repl (m_prev st) (m_rest st)
          end
      | None, String c rest => String c (sub_from fuel' r repl (Some c) rest)
      | _, EmptyString => EmptyString
      end
  end.

Definition re_sub (r : regex) (repl : mstate -> string) (s : string) : string :=
  sub_from (String.length s) r repl None s.

End Re.
Import Re.

(* ================================================================== *)
(** * Python dictionaries, sets and [sorted] *)
(* ================================================================== *)

Module PyDict.

(** A dictionary with string keys, in insertion order. *)
Definition dict (V : Type) : Type := list (string * V).

Fixpoint get {V : Type} (k : string) (d : dict V) : option V :=
  match d with
  | [] => None
  | (k', v) :: d' => if String.eqb k k' then Some v else get k d'
  end.

(** [d[k] = v]: an existing key keeps its position. *)
Fixpoint set {V : Type} (k : string) (v : V) (d : dict V) : dict V :=
  match d with
  | [] => [(k, v)]
  | (k', v') :: d' =>
      if String.eqb k k' then (k', v) :: d' else (k', v') :: set k v d'
  end.

Definition mem {V : Type} (k : string) (d : dict V) : bool :=
  match get k d with Some _ => true | None => false end.

(** [d.get(k, default)]. *)
Definition get_default {V : Type} (k : string) (default : V) (d : dict V) : V :=
  match get k d with Some v => v | None => default end.

(** [d.setdefault(k, v)], for its effect on [d]. *)
Definition setdefault {V : Type} (k : string) (v : V) (d : dict V) : dict V :=
  if mem k d then d else set k v d.

Definition keys {V : Type} (d : dict V) : list string := map fst d.

(** [sorted]: a stable insertion sort.  The elements are inserted from the
    last to the first, each before the elements that are not smaller than
    it, so equal elements keep their order. *)
Fixpoint insert_sorted {A : Type} (lt : A -> A -> bool) (x : A) (xs : list A)
  : list A :=
  match xs with
  | [] => [x]
  | y :: ys => if lt y x then y :: insert_sorted lt x ys else x :: y :: ys
  end.

Definition sort_with {A : Type} (lt : A -> A -> bool) (xs : list A) : list A :=
  fold_right (insert_sorted lt) [] xs.

(** [sorted(xs, key=f)] for a string key, and [sorted(xs)] on strings. *)
Definition sorted_by {A : Type} (f : A -> string) : list A -> list A :=
  sort_with (fun x y => String.ltb (f x) (f y)).

Definition sorted : list string -> list string := sorted_by (fun x => x).

End PyDict.

Module D := PyDict.
Abbreviation dict := PyDict.dict.

(* ================================================================== *)
(** * Text normaliser *)
(* ================================================================== *)

Definition OFFICE_MAP : dict (string * string) :=
  [ ("PRESIDENT", ("president", "President of the United States"));
    ("U.S. PRESIDENT", ("president", "President of the United States"));
    ("US PRESIDENT", ("president", "President of the United States"));
    ("PRESIDENT OF THE UNITED STATES",
       ("president", "President of the United States"));
    ("U.S. SENATE", ("us_senate", "United States Senator"));
    ("US SENATE", ("us_senate", "United States Senator"));
    ("SENATE", ("us_senate", "United States Senator"));
    ("GOVERNOR", ("governor", "Governor"));
    ("SECRETARY OF STATE", ("secretary_of_state", "Secretary of State"));
    ("ATTORNEY GENERAL", ("attorney_general", "Attorney General"));
    ("AUDITOR", ("auditor", "Auditor"));
    ("STATE AUDITOR", ("auditor", "Auditor"));
    ("AUDITOR OF STATE", ("auditor", "Auditor"));
    ("TREASURER", ("state_treasurer", "State Treasurer"));
    ("STATE TREASURER", ("state_treasurer", "State Treasurer"));
    ("COMMISSIONER OF AGRICULTURE",
       ("commissioner_of_agriculture", "Commissioner of Agriculture"));
    ("COMMISIONER OF AGRICULTURE",
       ("commissioner_of_agriculture", "Commissioner of Agriculture")) ].

Definition PARTY_MAP : dict string :=
  [ ("D", "DEM"); ("DEM", "DEM"); ("DEMOCRAT", "DEM"); ("DEMOCRATIC", "DEM");
    ("R", "REP"); ("REP", "REP"); ("REPUBLICAN", "REP");
    ("LBN", "LIB"); ("LIB", "LIB"); ("LIBERTARIAN", "LIB");
    ("MTN", "MTN"); ("MOUNTAIN", "MTN");
    ("CST", "CST"); ("CONSTITUTION", "CST");
    ("IND", "IND"); ("INDEPENDENT", "IND");
    ("NON", "NPA"); ("NPA", "NPA"); ("NO AFFILIATION", "NPA") ].

Definition COUNTY_ALIASES : dict string :=
  [ ("glimer", "gilmer");
    ("pocohontas", "pocahontas");
    ("pocohantas", "pocahontas") ].

(** Every run of blanks becomes one space: [re.sub] of the pattern \s+. *)
Definition collapse_ws (s : string) : string :=
  re_sub (Plus (Chr is_space)) (fun _ => " ") s.

(** Strip, lower-case, then delete every character outside a-z. *)
Definition county_norm_token (v : string) : string :=
  re_sub (Chr (fun c => negb (is_lower c))) (fun _ => "") (lower (strip v)).

Definition normalize_text (v : string) : string :=
  upper (collapse_ws (strip v)).

Definition normalize_office (v : string) : string :=
  replace "  " " " (normalize_text v).

Definition normalize_party (v : string) : string :=
  let p := normalize_text v in
  if nonempty p then D.get_default p p PARTY_MAP else "".

(** The pattern [\s+COUNTY$] under IGNORECASE. *)
Definition county_suffix_re : regex :=
  Seq (Plus (Chr is_space)) (Seq (str_i "COUNTY") Eol).

Definition normalize_county_name (v : string) : string :=
  let c := collapse_ws (strip v) in
  re_sub county_suffix_re (fun _ => "") c.

(** The pattern [\bMc([a-z])] and its replacement. *)
Definition mc_re : regex :=
  Seq WordB (Seq (str "Mc") (Grp (Chr is_lower))).

Definition mc_repl (m : mstate) : string := "Mc" ++ upper (group m 1).

Definition display_county_name (v : string) : string :=
  let c := normalize_county_name v in
  if negb (nonempty c) then c
  else if isupper c then re_sub mc_re mc_repl (title c)
  else c.

Definition county_key (v : string) : string :=
  normalize_text (normalize_county_name v).

(** The pattern of [infer_county_from_filename]: two underscores, a group of
    lower-case words joined by single underscores, the text __precinct, an
    optional run of dots followed by csv, and the end of the name. *)
Definition precinct_file_re : regex :=
  Seq (str "__")
   (Seq (Grp (Seq (Plus (Chr is_lower))
                  (Star (Seq (lit "_") (Plus (Chr is_lower))))))
    (Seq (str "__precinct")
     (Seq (Opt (Seq (Plus (lit ".")) (str "csv"))) Eol))).

(** [path] is [path.name]. *)
Definition infer_county_from_filename (name : string) : string :=
  match re_search precinct_file_re (lower name) with
  | None => ""
  | Some m => display_county_name (replace_char "_" " " (group m 1))
  end.

(** [load_county_lookup], from the name of each feature of the reference
    (the first non-empty of its NAME20, COUNTYNAME, NAME and County
    properties, or the empty string). *)
Definition load_county_lookup (feature_names : list string) : dict string :=
  fold_left
    (fun lookup name =>
       let name := display_county_name name in
       if negb (nonempty name) then lookup
       else D.set (county_norm_token name) name lookup)
    feature_names [].

Definition canonicalize_county_name (raw : string) (county_lookup : dict string)
  : string :=
  let c := normalize_county_name raw in
  if negb (nonempty c) then ""
  else
    match county_lookup with
    | [] => display_county_name c
    | _ =>
        let token := county_norm_token c in
        let token := D.get_default token token COUNTY_ALIASES in
        D.get_default token "" county_lookup
    end.

(** The patterns of [normalize_candidate_name]. *)
Definition o_apostrophe_re : regex :=
  Seq WordB (Seq (Grp (str "O'")) (Grp (Chr is_lower))).

Definition roman_re : regex :=
  Seq WordB
   (Seq (Grp (Alt (str "Ii") (Alt (str "Iii") (Alt (str "Iv") (Alt (str "V")
         (Alt (str "Vi") (Alt (str "Vii") (Alt (str "Viii")
         (Alt (str "Ix") (str "X"))))))))))
        WordB).

Definition jr_re : regex :=
  Seq WordB (Seq (str_i "Jr") (Seq (Opt (lit ".")) WordB)).

Definition sr_re : regex :=
  Seq WordB (Seq (str_i "Sr") (Seq (Opt (lit ".")) WordB)).

Definition normalize_candidate_name (raw : string) : string :=
  let s := collapse_ws (strip raw) in
  if negb (nonempty s) then ""
  else
    let t := title (lower s) in
    let t := re_sub mc_re mc_repl t in
    let t := re_sub o_apostrophe_re
               (fun m => group m 1 ++ upper (group m 2)) t in
    let t := re_sub roman_re (fun m => upper (group m 0)) t in
    let t := re_sub jr_re (fun _ => "Jr.") t in
    let t := re_sub sr_re (fun _ => "Sr.") t in
    t.

(* ================================================================== *)
(** * Exceptions *)
(* ================================================================== *)

Inductive exn : Type :=
| ValueError
| OverflowError
| FileNotFoundError.

Inductive result (A : Type) : Type :=
| Ok (a : A)
| Err (e : exn).

Arguments Ok {A} a.
Arguments Err {A} e.

Definition bind {A B : Type} (r : result A) (f : A -> result B) : result B :=
  match r with
  | Ok a => f a
  | Err e => Err e
  end.

Notation "x <- r ;; k" := (bind r (fun x => k))
  (at level 61, r at next level, right associativity).

(* ================================================================== *)
(** * Python floats: [float(str)], [round], true division *)
(* ================================================================== *)

Module PyFloat.

Definition prec : Z := 53.
Definition emax : Z := 1024.

(** binary64 values. *)
Definition float : Type := spec_float.

(** The binary64 value nearest to the fraction [p / q] (ties to even), with
    the given sign: the quotient is taken with enough bits and rounded once,
    with the position of the remainder. *)
Definition of_ratio (neg : bool) (p q : positive) : float :=
  let '(mz, ez, lz) := SFdiv_core_binary prec emax (Zpos p) 0 (Zpos q) 0 in
  binary_round_aux prec emax neg mz ez lz.

(** The binary64 value nearest to [m * 10 ^ e].  A value at or above
    [10 ^ 400] is infinite and one below [10 ^ (-400)] is zero, whatever its
    digits; the two tests only spare the power of ten. *)
Definition of_decimal (neg : bool) (m : Z) (e : Z) : float :=
  match m with
  | Zpos p =>
      if 400 <? e then S754_infinity neg
      else if e + (Z.log2 m / 3 + 1) <? -400 then S754_zero neg
      else if 0 <=? e then of_ratio neg (p * Z.to_pos (10 ^ e)) 1
      else of_ratio neg p (Z.to_pos (10 ^ (- e)))
  | _ => S754_zero neg
  end.

(** Rounding of the fraction [p / q], [q > 0], to an integer, ties to even. *)
Definition round_half_even (p q : Z) : Z :=
  let d := p / q in
  let r := p mod q in
  match 2 * r ?= q with
  | Lt => d
  | Gt => d + 1
  | Eq => if Z.even d then d else d + 1
  end.

Definition signed (neg : bool) (z : Z) : Z := if neg then - z else z.

(** [int(round(x))]: [round] of one argument gives an [int]; it raises
    [ValueError] on a NaN and [OverflowError] on an infinity. *)
Definition round_to_int (x : float) : result Z :=
  match x with
  | S754_nan => Err ValueError
  | S754_infinity _ => Err OverflowError
  | S754_zero _ => Ok 0
  | S754_finite s m e =>
      Ok (signed s (if 0 <=? e then Zpos m * 2 ^ e
                    else round_half_even (Zpos m) (2 ^ (- e))))
  end.

(** [round(x, 2)]: the exact value of [x] is rounded to two decimals, ties to
    even, and the decimal read back as a float; NaN, infinities and zeros
    round to themselves. *)
Definition round2 (x : float) : float :=
  match x with
  | S754_finite s m e =>
      let n := if 0 <=? e then Zpos m * 2 ^ e * 100
               else round_half_even (Zpos m * 100) (2 ^ (- e)) in
      match n with
      | Zpos p => of_ratio s p 100
      | _ => S754_zero s
      end
  | _ => x
  end.

(** [a / b] on integers with [b] not zero: the quotient correctly rounded.
    Python raises [OverflowError] when the quotient is beyond the range of
    floats, which takes sums of votes above [10 ^ 308]; here the quotient
    is then an infinity. *)
Definition truediv (a b : Z) : float :=
  let neg := xorb (a <? 0) (b <? 0) in
  match Z.abs a, Z.abs b with
  | Zpos p, Zpos q => of_ratio neg p q
  | _, _ => S754_zero neg
  end.

Definition mul : float -> float -> float := SFmul prec emax.
Definition abs : float -> float := SFabs.
Definition ltb : float -> float -> bool := SFltb.
Definition leb : float -> float -> bool := SFleb.

(** *** Reading a float from a string *)

Definition digit_val (c : ascii) : Z := Z.of_nat (code c - 48).

(** The leading decimal digits of [s]: their value after [acc], how many
    they are, and the rest of [s]. *)
Fixpoint read_digits (acc : Z) (n : nat) (s : string) : Z * nat * string :=
  match s with
  | String c r =>
      if is_digit c then read_digits (10 * acc + digit_val c) (S n) r
      else (acc, n, s)
  | EmptyString => (acc, n, s)
  end.

(** An underscore is allowed between two digits only; they are removed. *)
Fixpoint drop_underscores (prev : option ascii) (s : string) : option string :=
  match s with
  | EmptyString =>
      match prev with
      | Some "_"%char => None
      | _ => Some EmptyString
      end
  | String c r =>
      if Ascii.eqb c "_"
      then match prev with
           | Some p => if is_digit p then drop_underscores (Some c) r else None
           | None => None
           end
      else
        let bad := match prev with
                   | Some "_"%char => negb (is_digit c)
                   | _ => false
                   end in
        if bad then None
        else match drop_underscores (Some c) r with
             | Some r' => Some (String c r')
             | None => None
             end
  end.

Definition read_sign (s : string) : bool * string :=
  match s with
  | String "-" r => (true, r)
  | String "+" r => (false, r)
  | _ => (false, s)
  end.

(** The exponent part: [e] or [E], an optional sign and at least one digit,
    up to the end of the string; no exponent part is exponent zero. *)
Definition read_exponent (s : string) : option Z :=
  match s with
  | EmptyString => Some 0
  | String c r =>
      if Ascii.eqb (to_lower c) "e"
      then let '(neg, r1) := read_sign r in
           match read_digits 0 0 r1 with
           | (_, O, _) => None
           | (v, _, EmptyString) => Some (signed neg v)
           | _ => None
           end
      else None
  end.

(** The digits of a number: an integer part, an optional point and
    fraction, with a digit somewhere, then the exponent part. *)
Definition read_number (neg : bool) (s : string) : option float :=
  let '(ip, ni, r1) := read_digits 0 0 s in
  let '(m, nf, r2) :=
    match r1 with
    | String "." r => read_digits ip 0 r
    | _ => (ip, O, r1)
    end in
  match (ni + nf)%nat with
  | O => None
  | _ =>
      match read_exponent r2 with
      | Some e => Some (of_decimal neg m (e - Z.of_nat nf))
      | None => None
      end
  end.

(** [float(s)] for a string: [None] stands for [ValueError]. *)
Definition of_string (s : string) : option float :=
  match drop_underscores None (strip_with is_c_space s) with
  | None => None
  | Some t =>
      let '(neg, body) := read_sign t in
      let w := lower body in
      if (String.eqb w "inf" || String.eqb w "infinity")%bool
      then Some (S754_infinity neg)
      else if String.eqb w "nan" then Some S754_nan
      else read_number neg body
  end.

(** A float literal of the source. *)
Definition literal (s : string) : float :=
  match of_string s with
  | Some x => x
  | None => S754_nan
  end.

End PyFloat.

(* ================================================================== *)
(** * Vote parsing *)
(* ================================================================== *)

Definition to_int (v : string) : result Z :=
  let v := strip v in
  if negb (nonempty v) then Ok 0
  else
    let v := replace_char "," "" v in
    if (String.eqb v "-" || String.eqb v "--")%bool then Ok 0
    else
      match PyFloat.of_string v with
      | None => Err ValueError
      | Some x => PyFloat.round_to_int x
      end.

(** A row of [csv.DictReader]: column name to field; a missing field
    ([None]) is the empty string, which the code does not tell apart. *)
Definition row : Type := dict string.

(** [row.get(k) or ""]. *)
Definition field (k : string) (r : row) : string := D.get_default k "" r.

Definition lowered (r : row) : dict string :=
  fold_left (fun d kv => D.set (lower (strip (fst kv))) (snd kv) d) r [].

Definition extract_votes (r : row) : result Z :=
  let l := lowered r in
  match D.get "votes" l with
  | Some v => to_int v
  | None =>
      match D.get "total votes" l with
      | Some v => to_int v
      | None =>
          match D.get "total_votes" l with
          | Some v => to_int v
          | None => Ok 0
          end
      end
  end.

(* ================================================================== *)
(** * Competitiveness classifier *)
(* ================================================================== *)

Record Competitiveness : Type := {
  category : string;
  party : string;
  code : string;
  color : string
}.

Definition zero : PyFloat.float := S754_zero false.

Definition compute_competitiveness (margin_pct : PyFloat.float) : Competitiveness :=
  let abs_margin := PyFloat.abs margin_pct in
  let dem := PyFloat.ltb zero margin_pct in
  let rep := PyFloat.ltb margin_pct zero in
  let winner_party :=
    if dem then "Democratic" else if rep then "Republican" else "Tie" in
  let code_prefix := if dem then "D" else if rep then "R" else "T" in
  let tier (label tier_code dem_color rep_color : string) :=
    {| category := if negb (String.eqb winner_party "Tie")
                   then label ++ " " ++ winner_party else "Tossup";
       party := if negb (String.eqb winner_party "Tie")
                then winner_party else "Tossup";
       code := if negb (String.eqb code_prefix "T")
               then code_prefix ++ "_" ++ tier_code else "T_TOSSUP";
       color := if dem then dem_color else if rep then rep_color else "#f7f7f7" |} in
  if PyFloat.leb (PyFloat.literal "40") abs_margin
  then tier "Annihilation" "ANNIHILATION" "#08306b" "#67000d"
  else if PyFloat.leb (PyFloat.literal "30") abs_margin
  then tier "Dominant" "DOMINANT" "#08519c" "#a50f15"
  else if PyFloat.leb (PyFloat.literal "20") abs_margin
  then tier "Stronghold" "STRONGHOLD" "#3182bd" "#cb181d"
  else if PyFloat.leb (PyFloat.literal "10") abs_margin
  then tier "Safe" "SAFE" "#6baed6" "#ef3b2c"
  else if PyFloat.ltb (PyFloat.literal "5.5") abs_margin
  then tier "Likely" "LIKELY" "#9ecae1" "#fb6a4a"
  else if PyFloat.ltb (PyFloat.literal "0.99") abs_margin
  then tier "Lean" "LEAN" "#c6dbef" "#fcae91"
  else if PyFloat.leb (PyFloat.literal "0.5") abs_margin
  then tier "Tilt" "TILT" "#e1f5fe" "#fee8c8"
  else
    {| category := "Tossup";
       party := if negb (String.eqb winner_party "Tie")
                then winner_party else "Tossup";
       code := "T_TOSSUP";
       color := "#f7f7f7" |}.

(* ================================================================== *)
(** * The run: ingestion, deduplication, aggregation *)
(* ================================================================== *)

(** One input path with what the run reads of it: its name, the name of its
    parent directory, whether it exists, and the rows of its CSV content. *)
Record input_file : Type := {
  path_name : string;
  path_parent_name : string;
  path_exists : bool;
  file_rows : list row
}.

Definition four_digits : regex :=
  Seq (Chr is_digit) (Seq (Chr is_digit) (Seq (Chr is_digit) (Chr is_digit))).

Definition infer_year_from_filename (f : input_file) : result string :=
  match re_match (Seq Bol (Grp four_digits)) (path_name f) with
  | Some m => Ok (group m 1)
  | None =>
      match re_match (Seq Bol (Seq four_digits Eol)) (path_parent_name f) with
      | Some _ => Ok (path_parent_name f)
      | None => Err ValueError
      end
  end.

(** An entry of a county's list: party, candidate, votes. *)
Definition entry : Type := (string * string * Z)%type.

(** A deduplication key:
    year, contest type, county key, party, candidate, votes. *)
Definition dedupe_key : Type :=
  (string * string * string * string * string * Z)%type.

Definition dedupe_key_eqb (a b : dedupe_key) : bool :=
  let '(y1, t1, k1, p1, c1, v1) := a in
  let '(y2, t2, k2, p2, c2, v2) := b in
  (String.eqb y1 y2 && String.eqb t1 t2 && String.eqb k1 k2 &&
   String.eqb p1 p2 && String.eqb c1 c2 && Z.eqb v1 v2)%bool.

(** The mutable structures of [main]. *)
Record state : Type := {
  grouped_by_year : dict (dict (dict (list entry)));
  contest_labels_by_year : dict (dict string);
  county_name_by_key : dict string;
  seen_entries : list dedupe_key
}.

Definition initial_state : state :=
  {| grouped_by_year := [];
     contest_labels_by_year := [];
     county_name_by_key := [];
     seen_entries := [] |}.

(** A row that passed the filters of the loop body. *)
Record vote_record : Type := {
  vr_county : string;
  vr_ckey : string;
  vr_contest_type : string;
  vr_contest_name : string;
  vr_party : string;
  vr_candidate : string;
  vr_votes : Z
}.

(** The first part of the loop body: the fields of the row are normalised
    and the votes parsed (which may raise), then the row is kept or skipped. *)
Definition ingest_row (county_lookup : dict string) (file_name : string)
  (r : row) : result (option vote_record) :=
  let county := strip (field "county" r) in
  let county :=
    if nonempty county then county else infer_county_from_filename file_name in
  let county := canonicalize_county_name county county_lookup in
  let office := normalize_office (field "office" r) in
  let party := normalize_party (field "party" r) in
  let candidate := normalize_candidate_name (field "candidate" r) in
  votes <- extract_votes r ;;
  if negb (nonempty county) then Ok None
  else
    match D.get office OFFICE_MAP with
    | None => Ok None
    | Some (contest_type, contest_name) =>
        if negb (nonempty candidate) then Ok None
        else
          let ckey := county_key county in
          if negb (nonempty ckey) then Ok None
          else Ok (Some {| vr_county := county;
                           vr_ckey := ckey;
                           vr_contest_type := contest_type;
                           vr_contest_name := contest_name;
                           vr_party := party;
                           vr_candidate := candidate;
                           vr_votes := votes |})
    end.

Definition key_of (year : string) (v : vote_record) : dedupe_key :=
  (year, vr_contest_type v, vr_ckey v, vr_party v, vr_candidate v, vr_votes v).

Definition seen (k : dedupe_key) (s : list dedupe_key) : bool :=
  existsb (dedupe_key_eqb k) s.

(** [d[k]] of a [defaultdict] followed by an update of the value. *)
Definition update {V : Type} (k : string) (default : V) (f : V -> V)
  (d : dict V) : dict V :=
  D.set k (f (D.get_default k default d)) d.

(** The second part of the loop body: the display name of the county is
    recorded, then the record is dropped if its key was seen, and otherwise
    its key is recorded and its entry appended to its county's list. *)
Definition accept (year : string) (st : state) (v : vote_record) : state :=
  let names :=
    D.setdefault (vr_ckey v) (display_county_name (vr_county v))
                 (county_name_by_key st) in
  if seen (key_of year v) (seen_entries st)
  then {| grouped_by_year := grouped_by_year st;
          contest_labels_by_year := contest_labels_by_year st;
          county_name_by_key := names;
          seen_entries := seen_entries st |}
  else {| grouped_by_year :=
            update year []
              (update (vr_contest_type v) []
                 (update (vr_ckey v) []
                    (fun l => (l ++ [(vr_party v, vr_candidate v, vr_votes v)])%list)))
              (grouped_by_year st);
          contest_labels_by_year :=
            update year [] (D.set (vr_contest_type v) (vr_contest_name v))
              (contest_labels_by_year st);
          county_name_by_key := names;
          seen_entries := key_of year v :: seen_entries st |}.

Definition process_row (county_lookup : dict string) (year file_name : string)
  (st : state) (r : row) : result state :=
  v <- ingest_row county_lookup file_name r ;;
  Ok (match v with
      | Some v => accept year st v
      | None => st
      end).

(** A loop whose body may raise: the first exception ends it. *)
Fixpoint for_each {A S : Type} (body : S -> A -> result S) (xs : list A)
  (s : S) : result S :=
  match xs with
  | [] => Ok s
  | x :: xs' => s' <- body s x ;; for_each body xs' s'
  end.

Definition process_file (county_lookup : dict string) (st : state)
  (f : input_file) : result state :=
  if negb (path_exists f) then Err FileNotFoundError
  else
    year <- infer_year_from_filename f ;;
    for_each (process_row county_lookup year (path_name f)) (file_rows f) st.

Definition ingest (county_lookup : dict string) (input_paths : list input_file)
  : result state :=
  for_each (process_file county_lookup) input_paths initial_state.

(** *** Aggregation *)

Record CountyContestResult : Type := {
  county : string;
  contest : string;
  year : string;
  dem_candidate : string;
  rep_candidate : string;
  dem_votes : Z;
  rep_votes : Z;
  other_votes : Z;
  total_votes : Z;
  two_party_total : Z;
  margin : Z;
  margin_pct : PyFloat.float;
  winner : string;
  competitiveness : Competitiveness;
  all_parties : dict Z
}.

(** The value stored under a contest type: the one-entry dictionary from the
    contest key to the contest name and the county results. *)
Record ContestYearBlock : Type := {
  contest_key : string;
  contest_name : string;
  results : dict CountyContestResult
}.

Record Metadata : Type := {
  title_ : string;
  years : list Z;
  contests : list string;
  counties_count : nat
}.

Record Output : Type := {
  metadata : Metadata;
  results_by_year : dict (dict ContestYearBlock)
}.

Definition sum (l : list Z) : Z := fold_left Z.add l 0.

(** [max(entries, key=lambda x: x[1])[0]]: the first entry with the
    greatest votes. *)
Fixpoint max_by_votes (best : string * Z) (l : list (string * Z)) : string * Z :=
  match l with
  | [] => best
  | x :: l' => max_by_votes (if snd best <? snd x then x else best) l'
  end.

Definition pick_top_candidate (entries : list (string * Z)) : string :=
  match entries with
  | [] => ""
  | x :: l => fst (max_by_votes x l)
  end.

Definition entries_of_party (p : string) (entries : list entry)
  : list (string * Z) :=
  map (fun e => (snd (fst e), snd e))
      (filter (fun e => String.eqb (fst (fst e)) p) entries).

Definition party_totals_of (entries : list entry) : dict Z :=
  fold_left
    (fun totals e =>
       let p := fst (fst e) in
       update (if nonempty p then p else "NONPARTISAN") 0
              (fun t => t + snd e) totals)
    entries [].

(** The body of the loop over the counties of a contest. *)
Definition county_result (contest_name year county : string)
  (entries : list entry) : CountyContestResult :=
  let dem_entries := entries_of_party "DEM" entries in
  let rep_entries := entries_of_party "REP" entries in
  let dem_votes := sum (map snd dem_entries) in
  let rep_votes := sum (map snd rep_entries) in
  let total_votes := sum (map snd entries) in
  let two_party_total := dem_votes + rep_votes in
  let other_votes := Z.max 0 (total_votes - two_party_total) in
  let margin := dem_votes - rep_votes in
  let margin_pct :=
    if negb (two_party_total =? 0)
    then PyFloat.round2
           (PyFloat.mul (PyFloat.truediv margin two_party_total)
                        (PyFloat.literal "100.0"))
    else PyFloat.literal "0.0" in
  let winner :=
    if rep_votes <? dem_votes then "DEM"
    else if dem_votes <? rep_votes then "REP"
    else "TIE" in
  {| county := county;
     contest := contest_name;
     year := year;
     dem_candidate := pick_top_candidate dem_entries;
     rep_candidate := pick_top_candidate rep_entries;
     dem_votes := dem_votes;
     rep_votes := rep_votes;
     other_votes := other_votes;
     total_votes := total_votes;
     two_party_total := two_party_total;
     margin := margin;
     margin_pct := margin_pct;
     winner := winner;
     competitiveness := compute_competitiveness margin_pct;
     all_parties := D.sorted_by fst (party_totals_of entries) |}.

(** The loop over the counties of a contest, in the order of their display
    names. *)
Definition county_results_of (names : dict string) (contest_name year : string)
  (county_rows : dict (list entry)) : dict CountyContestResult :=
  fold_left
    (fun county_results ckey =>
       let entries := D.get_default ckey [] county_rows in
       let county := D.get_default ckey (title ckey) names in
       D.set county (county_result contest_name year county entries)
             county_results)
    (D.sorted_by (fun x => D.get_default x x names) (D.keys county_rows))
    [].

(** The loop over the contests of a year: a contest with fewer counties than
    the minimum is skipped. *)
Definition results_for_year_of (min_counties_per_contest : Z) (st : state)
  (year : string) (year_grouped : dict (dict (list entry)))
  : dict ContestYearBlock :=
  fold_left
    (fun results_for_year item =>
       let contest_type := fst item in
       let county_rows := snd item in
       if Z.of_nat (List.length county_rows) <? min_counties_per_contest
       then results_for_year
       else
         let contest_name :=
           D.get_default contest_type ""
             (D.get_default year [] (contest_labels_by_year st)) in
         D.set contest_type
           {| contest_key := contest_type ++ "_" ++ year;
              contest_name := contest_name;
              results := county_results_of (county_name_by_key st)
                           contest_name year county_rows |}
           results_for_year)
    (D.sorted_by fst year_grouped)
    [].

Definition is_empty {A : Type} (l : list A) : bool :=
  match l with [] => true | _ => false end.

(** The loop over the years. *)
Definition results_by_year_of (min_counties_per_contest : Z) (st : state)
  : dict (dict ContestYearBlock) :=
  fold_left
    (fun results_by_year year =>
       let year_grouped := D.get_default year [] (grouped_by_year st) in
       if is_empty year_grouped then results_by_year
       else
         let results_for_year :=
           results_for_year_of min_counties_per_contest st year year_grouped in
         if is_empty results_for_year then results_by_year
         else D.set year results_for_year results_by_year)
    (D.sorted (D.keys (grouped_by_year st)))
    [].

(** [int(year)] for the digits of a year. *)
Definition int_of_year (y : string) : Z :=
  fst (fst (PyFloat.read_digits 0 0 (strip y))).

Fixpoint add_to_set (x : string) (s : list string) : list string :=
  match s with
  | [] => [x]
  | y :: s' => if String.eqb x y then s else y :: add_to_set x s'
  end.

Definition set_of (l : list string) : list string :=
  fold_left (fun s x => add_to_set x s) l [].

(** The metadata: the years and contest types that were kept, and the number
    of county keys of the kept contests.  The source collects them in the
    loops above; they are the same values. *)
Definition metadata_of (st : state) (rby : dict (dict ContestYearBlock))
  : Metadata :=
  {| title_ := "West Virginia Election Results";
     years := D.sort_with Z.ltb (map int_of_year (D.keys rby));
     contests := D.sorted (set_of (flat_map (fun yr => D.keys (snd yr)) rby));
     counties_count :=
       List.length
         (set_of
            (flat_map
               (fun yr =>
                  flat_map
                    (fun ct =>
                       D.keys (D.get_default ct []
                                 (D.get_default (fst yr) [] (grouped_by_year st))))
                    (D.keys (snd yr)))
               rby)) |}.

Definition aggregate (min_counties_per_contest : Z) (st : state) : Output :=
  let rby := results_by_year_of min_counties_per_contest st in
  {| metadata := metadata_of st rby; results_by_year := rby |}.

(** The arguments of the run that reach the core: the minimum number of
    counties of a contest, and the feature names of the county reference
    (none when the file is absent). *)
Record Args : Type := {
  min_counties_per_contest : Z;
  counties_geojson : list string
}.

Definition default_min_counties_per_contest : Z := 20.

(** [main], from the list of input paths on. *)
Definition main (args : Args) (input_paths : list input_file) : result Output :=
  let county_lookup := load_county_lookup (counties_geojson args) in
  if is_empty input_paths then Err FileNotFoundError
  else
    st <- ingest county_lookup input_paths ;;
    Ok (aggregate (min_counties_per_contest args) st).

(* ================================================================== *)
(** * Notions used in the statements *)
(* ================================================================== *)

(** The category and the code of the classification of a margin given as a
    decimal literal. *)
Definition classify (margin_pct : string) : string * string :=
  let c := compute_competitiveness (PyFloat.literal margin_pct) in
  (category c, code c).

(** The tier of a classification: its code without the party prefix. *)
Definition tier_of (c : Competitiveness) : string :=
  match code c with
  | String _ (String _ t) => t
  | t => t
  end.

Definition tier (margin_pct : PyFloat.float) : string :=
  tier_of (compute_competitiveness margin_pct).

(** [at_least c x] is the test [x >= c] and [above c x] the test [x > c] on
    floats, for a decimal literal [c]. *)
Definition at_least (c : string) (x : PyFloat.float) : Prop :=
  PyFloat.leb (PyFloat.literal c) x = true.

Definition above (c : string) (x : PyFloat.float) : Prop :=
  PyFloat.ltb (PyFloat.literal c) x = true.

(** The block of a year and contest type in the output, if any. *)
Definition block_of (out : dict (dict ContestYearBlock)) (y c : string)
  : option ContestYearBlock :=
  match D.get y out with
  | Some results_for_year => D.get c results_for_year
  | None => None
  end.

(** [r] is a county result of the output. *)
Definition in_output (r : CountyContestResult) (out : Output) : Prop :=
  exists y c b k,
    block_of (results_by_year out) y c = Some b /\ D.get k (results b) = Some r.

(** The county rows of a year and contest type in the grouping. *)
Definition group_of (st : state) (y c : string) : option (dict (list entry)) :=
  match D.get y (grouped_by_year st) with
  | Some year_grouped => D.get c year_grouped
  | None => None
  end.

(** A row with the five columns of the input files. *)
Definition mkrow (c o p n v : string) : row :=
  [("county", c); ("office", o); ("party", p); ("candidate", n); ("votes", v)].

(** A county-level file of 2020 with the given rows. *)
Definition file_2020 (rows : list row) : input_file :=
  {| path_name := "20201103__wv__general__county.csv";
     path_parent_name := "2020";
     path_exists := true;
     file_rows := rows |}.

Definition args_min (n : Z) : Args :=
  {| min_counties_per_contest := n; counties_geojson := [] |}.

(** The county results of a run, flattened. *)
Definition county_results_list (out : Output) : list CountyContestResult :=
  flat_map (fun yr => flat_map (fun cb => map snd (results (snd cb))) (snd yr))
           (results_by_year out).

(** Every value of a dictionary satisfies [P]. *)
Definition all_values {V : Type} (P : V -> Prop) (d : dict V) : Prop :=
  Forall (fun kv => P (snd kv)) d.

(** No vote field of the input files parses to a negative number. *)
Definition nonneg_inputs (input_paths : list input_file) : Prop :=
  forall f r z,
    In f input_paths -> In r (file_rows f) -> extract_votes r = Ok z -> 0 <= z.

Definition nonneg_entries (es : list entry) : Prop :=
  Forall (fun e => 0 <= snd e) es.

(** The keys of the grouping are distinct at its three levels, as those of
    Python dictionaries are. *)
Definition distinct_keys {V : Type} (d : dict V) : Prop := NoDup (D.keys d).

Definition well_formed (st : state) : Prop :=
  distinct_keys (grouped_by_year st) /\
  all_values
    (fun year_grouped =>
       distinct_keys year_grouped /\
       all_values (fun county_rows => distinct_keys county_rows) year_grouped)
    (grouped_by_year st).

(** [r] is the result computed from a list of entries that satisfies [E]. *)
Definition from_entries (E : list entry -> Prop) (r : CountyContestResult)
  : Prop :=
  exists cn y c es, r = county_result cn y c es /\ E es.

(** Every list of entries of a grouping satisfies [E]. *)
Definition all_entries (E : list entry -> Prop)
  (g : dict (dict (dict (list entry)))) : Prop :=
  all_values (all_values (all_values E)) g.

(** The record [v] of year [yr] has been through [accept]: its key is in
    the set of seen keys and its county key has a display name. *)
Definition recorded (yr : string) (st : state) (v : vote_record) : Prop :=
  seen (key_of yr v) (seen_entries st) = true /\
  D.mem (vr_ckey v) (county_name_by_key st) = true.

(** Whatever is recorded in [st] is recorded in [st']. *)
Definition extends (st st' : state) : Prop :=
  forall yr v, recorded yr st v -> recorded yr st' v.

(** The row [r] of a file of year [yr] can raise nothing and change nothing
    in [st]. *)
Definition row_done (lookup : dict string) (yr name : string) (st : state)
  (r : row) : Prop :=
  match ingest_row lookup name r with
  | Ok (Some v) => recorded yr st v
  | Ok None => True
  | Err _ => False
  end.

(** The file [f] can be read again without raising and without changing
    [st]. *)
Definition file_done (lookup : dict string) (st : state) (f : input_file)
  : Prop :=
  path_exists f = true /\
  exists yr,
    infer_year_from_filename f = Ok yr /\
    forall r, In r (file_rows f) -> row_done lookup yr (path_name f) st r.

(** The fields of a record that, with the year, make its deduplication
    key. *)
Definition identity_of (v : vote_record) : string * string * string * string * Z :=
  (vr_contest_type v, vr_ckey v, vr_party v, vr_candidate v, vr_votes v).

(** A precinct row: the five columns and the precinct. *)
Definition precinct_row (precinct c o p n v : string) : row :=
  ("precinct", precinct) :: mkrow c o p n v.

(** The file [f] with other rows. *)
Definition with_rows (f : input_file) (rows : list row) : input_file :=
  {| path_name := path_name f;
     path_parent_name := path_parent_name f;
     path_exists := path_exists f;
     file_rows := rows |}.

(** The classifications the classifier can return: seven tiers for each
    party, and the tossup, whose party field follows the sign of the
    margin. *)
Definition classification (cat pty cd col : string) : Competitiveness :=
  {| category := cat; party := pty; code := cd; color := col |}.

Definition classifications : list Competitiveness :=
  [ classification "Annihilation Democratic" "Democratic" "D_ANNIHILATION" "#08306b";
    classification "Dominant Democratic" "Democratic" "D_DOMINANT" "#08519c";
    classification "Stronghold Democratic" "Democratic" "D_STRONGHOLD" "#3182bd";
    classification "Safe Democratic" "Democratic" "D_SAFE" "#6baed6";
    classification "Likely Democratic" "Democratic" "D_LIKELY" "#9ecae1";
    classification "Lean Democratic" "Democratic" "D_LEAN" "#c6dbef";
    classification "Tilt Democratic" "Democratic" "D_TILT" "#e1f5fe";
    classification "Annihilation Republican" "Republican" "R_ANNIHILATION" "#67000d";
    classification "Dominant Republican" "Republican" "R_DOMINANT" "#a50f15";
    classification "Stronghold Republican" "Republican" "R_STRONGHOLD" "#cb181d";
    classification "Safe Republican" "Republican" "R_SAFE" "#ef3b2c";
    classification "Likely Republican" "Republican" "R_LIKELY" "#fb6a4a";
    classification "Lean Republican" "Republican" "R_LEAN" "#fcae91";
    classification "Tilt Republican" "Republican" "R_TILT" "#fee8c8";
    classification "Tossup" "Democratic" "T_TOSSUP" "#f7f7f7";
    classification "Tossup" "Republican" "T_TOSSUP" "#f7f7f7";
    classification "Tossup" "Tossup" "T_TOSSUP" "#f7f7f7" ].

(** The sign of a float, when it has one: a NaN has any sign. *)
Definition has_sign (neg : bool) (x : PyFloat.float) : Prop :=
  match x with
  | S754_zero s | S754_infinity s | S754_finite s _ _ => s = neg
  | S754_nan => True
  end.

Definition is_zero (x : PyFloat.float) : Prop :=
  match x with
  | S754_zero _ => True
  | _ => False
  end.

(** The header [k] of a column, as [extract_votes] compares it. *)
Definition header (k : string) : string := lower (strip k).

(** The field of the last column of the row whose header is [k]. *)
Definition last_field (k : string) (r : row) : option string :=
  fold_left (fun acc kv => if String.eqb k (header (fst kv)) then Some (snd kv) else acc)
            r None.

(** Every item of a dictionary satisfies [P]. *)
Definition all_items {V : Type} (P : string -> V -> Prop) (d : dict V) : Prop :=
  Forall (fun kv => P (fst kv) (snd kv)) d.

(** The entries of a year, contest type and county key in a grouping. *)
Definition entries_at (g : dict (dict (dict (list entry)))) (y c k : string)
  : option (list entry) :=
  match D.get y g with
  | Some year_grouped =>
      match D.get c year_grouped with
      | Some county_rows => D.get k county_rows
      | None => None
      end
  | None => None
  end.

(** The contest label recorded for a year and contest type. *)
Definition label_of (st : state) (y c : string) : option string :=
  D.get c (D.get_default y [] (contest_labels_by_year st)).

(** Every list of entries of the grouping is without repetition and the
    key of each of its entries is in the set of seen keys. *)
Definition deduplicated (st : state) : Prop :=
  forall y c k es,
    entries_at (grouped_by_year st) y c k = Some es ->
    NoDup es /\
    forall p n z, In (p, n, z) es -> seen (y, c, k, p, n, z) (seen_entries st) = true.

(** Every year and contest type of the grouping has its label, the name of
    the contest type in [OFFICE_MAP]. *)
Definition labelled (st : state) : Prop :=
  forall y c rows,
    group_of st y c = Some rows ->
    exists name,
      label_of st y c = Some name /\ In (c, name) (map snd OFFICE_MAP).

(** Every county key of the grouping has a display name, and its list of
    entries is not empty. *)
Definition named (st : state) : Prop :=
  forall y c k es,
    entries_at (grouped_by_year st) y c k = Some es ->
    es <> [] /\ exists name, D.get k (county_name_by_key st) = Some name.

(** The key of a party in the totals of a county: an empty party is
    counted as NONPARTISAN. *)
Definition party_key (p : string) : string :=
  if nonempty p then p else "NONPARTISAN".

(** The entries of a county counted under the key [k]. *)
Definition entries_under (k : string) (es : list entry) : list entry :=
  filter (fun e => String.eqb (party_key (fst (fst e))) k) es.

(** A file the run reads to its end: it exists, a year is inferred from its
    name or from its directory, and the votes of each of its rows parse. *)
Definition readable (f : input_file) : Prop :=
  path_exists f = true /\
  (exists y, infer_year_from_filename f = Ok y) /\
  Forall (fun r => exists n, extract_votes r = Ok n) (file_rows f).

(** The token under which [canonicalize_county_name] looks a name up. *)
Definition lookup_token (raw : string) : string :=
  let token := county_norm_token (normalize_county_name raw) in
  D.get_default token token COUNTY_ALIASES.

(** The feature names of a reference that are filed under a token. *)
Definition filed_under (names : list string) (token : string) : Prop :=
  exists n,
    In n names /\ display_county_name n <> "" /\
    token = county_norm_token (display_county_name n).

(** The characters of [s] that satisfy [p], in their order. *)
Fixpoint keep (p : ascii -> bool) (s : string) : string :=
  match s with
  | EmptyString => EmptyString
  | String c r => if p c then String c (keep p r) else keep p r
  end.

Fixpoint forallb_chars (p : ascii -> bool) (s : string) : bool :=
  match s with
  | EmptyString => true
  | String c r => (p c && forallb_chars p r)%bool
  end.

(** [str.isascii()]: every code point is below 128. *)
Definition isascii (s : string) : bool :=
  forallb_chars (fun c => Nat.ltb (PyStr.code c) 128) s.


(* ================================================================== *)
(** * Checks of the model on the scenarios of the specification *)
(* ================================================================== *)

Example scenario_dem_100_rep_50 :
  match main (args_min 1)
          [file_2020 [mkrow "Kanawha" "PRESIDENT" "DEM" "Jane Doe" "100";
                      mkrow "Kanawha" "PRESIDENT" "REP" "John Roe" "50"]] with
  | Ok out =>
      map (fun r => (dem_votes r, rep_votes r, margin r, margin_pct r,
                     winner r, category (competitiveness r),
                     code (competitiveness r)))
          (county_results_list out)
      = [(100, 50, 50, PyFloat.literal "33.33", "DEM",
          "Dominant Democratic", "D_DOMINANT")]
  | Err _ => False
  end.
Proof. vm_compute. reflexivity. Qed.

Example scenario_tie_10_10 :
  match main (args_min 1)
          [file_2020 [mkrow "Kanawha" "PRESIDENT" "DEM" "Jane Doe" "10";
                      mkrow "Kanawha" "PRESIDENT" "REP" "John Roe" "10"]] with
  | Ok out =>
      map (fun r => (winner r, margin_pct r, category (competitiveness r),
                     code (competitiveness r)))
          (county_results_list out)
      = [("TIE", PyFloat.literal "0.00", "Tossup", "T_TOSSUP")]
  | Err _ => False
  end.
Proof. vm_compute. reflexivity. Qed.

Example to_int_examples :
  map to_int ["1,234"; " 12.5 "; "13.5"; "1e3"; "-5"; "abc"; "inf"; "nan"]
  = [Ok 1234; Ok 12; Ok 14; Ok 1000; Ok (-5); Err ValueError;
     Err OverflowError; Err ValueError].
Proof. vm_compute. reflexivity. Qed.

(* ================================================================== *)
(** * C2, C3: the competitiveness classifier *)
(* ================================================================== *)

(** C2.  The classifier at the boundary values: 40 is Annihilation, 30
    Dominant, 20 Stronghold, 10 Safe, 0.99 and 0.5 Tilt (Lean begins above
    0.99: the next float after 0.99 is Lean), 0 Tossup with the code
    T_TOSSUP, and 39.99 Dominant; the same on the Republican side with the
    prefix R. *)
Theorem classifier_boundary_values :
  classify "0.9900000000000001" = ("Lean Democratic", "D_LEAN") /\
  classify "-0.9900000000000001" = ("Lean Republican", "R_LEAN") /\
  classify "40" = ("Annihilation Democratic", "D_ANNIHILATION") /\
  classify "39.99" = ("Dominant Democratic", "D_DOMINANT") /\
  classify "30" = ("Dominant Democratic", "D_DOMINANT") /\
  classify "20" = ("Stronghold Democratic", "D_STRONGHOLD") /\
  classify "10" = ("Safe Democratic", "D_SAFE") /\
  classify "0.99" = ("Tilt Democratic", "D_TILT") /\
  classify "0.5" = ("Tilt Democratic", "D_TILT") /\
  classify "0" = ("Tossup", "T_TOSSUP") /\
  classify "-40" = ("Annihilation Republican", "R_ANNIHILATION") /\
  classify "-39.99" = ("Dominant Republican", "R_DOMINANT") /\
  classify "-30" = ("Dominant Republican", "R_DOMINANT") /\
  classify "-20" = ("Stronghold Republican", "R_STRONGHOLD") /\
  classify "-10" = ("Safe Republican", "R_SAFE") /\
  classify "-0.99" = ("Tilt Republican", "R_TILT") /\
  classify "-0.5" = ("Tilt Republican", "R_TILT") /\
  classify "-0.0" = ("Tossup", "T_TOSSUP").
Proof. repeat split; vm_compute; reflexivity. Qed.

(** C3, as stated, fails: a margin of exactly 5.5 is Lean, not Likely, and a
    margin of exactly 0.99 is Tilt, not Lean, on both sides. *)
Lemma likely_and_lean_bounds_are_strict :
  classify "5.5" = ("Lean Democratic", "D_LEAN") /\
  classify "-5.5" = ("Lean Republican", "R_LEAN") /\
  classify "0.99" = ("Tilt Democratic", "D_TILT") /\
  classify "-0.99" = ("Tilt Republican", "R_TILT") /\
  fst (classify "5.5") <> "Likely Democratic" /\
  fst (classify "0.99") <> "Lean Democratic".
Proof. repeat split; vm_compute; try reflexivity; discriminate. Qed.

(** *** Order facts on binary64 values *)

Section FloatOrder.

Variables (m1 m2 : positive) (e1 e2 : Z).
Hypothesis lower : e1 < e2 \/ (e1 = e2 /\ (m1 < m2)%positive).

Let c1 : PyFloat.float := S754_finite false m1 e1.
Let c2 : PyFloat.float := S754_finite false m2 e2.

(** With [c1 < c2] two positive floats: a value that is not above [c1] is
    below [c2]. *)
Lemma compare_above (a : PyFloat.float) :
  SFcompare c1 a <> Some Lt -> SFcompare c2 a = Some Gt \/ SFcompare c2 a = None.
Proof.
  unfold c1, c2. destruct a as [s | s | | s m e]; simpl; auto.
  - destruct s; auto. intros H; exfalso; apply H; reflexivity.
  - destruct s; auto.
    destruct (Z.compare_spec e1 e) as [He | He | He];
      destruct (Z.compare_spec e2 e) as [He' | He' | He']; auto;
      try (intros H; exfalso; apply H; reflexivity);
      try (exfalso; lia).
    + (* e1 = e = e2 *)
      change (Pos.compare_cont Eq m1 m) with (Pos.compare m1 m).
      change (Pos.compare_cont Eq m2 m) with (Pos.compare m2 m).
      destruct (Pos.compare_spec m1 m) as [Hm | Hm | Hm];
        destruct (Pos.compare_spec m2 m) as [Hm' | Hm' | Hm']; auto;
        try (intros H; exfalso; apply H; reflexivity);
        exfalso; lia.
Qed.

Lemma leb_false_above (a : PyFloat.float) :
  SFcompare c1 a <> Some Lt -> PyFloat.leb c2 a = false.
Proof.
  intros H. unfold PyFloat.leb, SFleb.
  destruct (compare_above a H) as [-> | ->]; reflexivity.
Qed.

Lemma ltb_false_above (a : PyFloat.float) :
  SFcompare c1 a <> Some Lt -> PyFloat.ltb c2 a = false.
Proof.
  intros H. unfold PyFloat.ltb, SFltb.
  destruct (compare_above a H) as [-> | ->]; reflexivity.
Qed.

End FloatOrder.

Lemma leb_false_not_lt (c a : PyFloat.float) :
  PyFloat.leb c a = false -> SFcompare c a <> Some Lt.
Proof.
  unfold PyFloat.leb, SFleb. intros H E. rewrite E in H. discriminate.
Qed.

Lemma ltb_false_not_lt (c a : PyFloat.float) :
  PyFloat.ltb c a = false -> SFcompare c a <> Some Lt.
Proof.
  unfold PyFloat.ltb, SFltb. intros H E. rewrite E in H. discriminate.
Qed.

(** The thresholds of the classifier as binary64 values. *)
Lemma literal_values :
  PyFloat.literal "40" = S754_finite false 5629499534213120 (-47) /\
  PyFloat.literal "30" = S754_finite false 8444249301319680 (-48) /\
  PyFloat.literal "20" = S754_finite false 5629499534213120 (-48) /\
  PyFloat.literal "10" = S754_finite false 5629499534213120 (-49) /\
  PyFloat.literal "5.5" = S754_finite false 6192449487634432 (-50) /\
  PyFloat.literal "0.99" = S754_finite false 8917127262193582 (-53) /\
  PyFloat.literal "0.5" = S754_finite false 4503599627370496 (-53).
Proof. repeat split; vm_compute; reflexivity. Qed.

(** The tests of the classifier are nested: one that fails makes the tests
    of the higher thresholds fail. *)
Lemma thresholds_nested (a : PyFloat.float) :
  (PyFloat.leb (PyFloat.literal "30") a = false ->
   PyFloat.leb (PyFloat.literal "40") a = false) /\
  (PyFloat.leb (PyFloat.literal "20") a = false ->
   PyFloat.leb (PyFloat.literal "30") a = false) /\
  (PyFloat.leb (PyFloat.literal "10") a = false ->
   PyFloat.leb (PyFloat.literal "20") a = false) /\
  (PyFloat.ltb (PyFloat.literal "5.5") a = false ->
   PyFloat.leb (PyFloat.literal "10") a = false) /\
  (PyFloat.ltb (PyFloat.literal "0.99") a = false ->
   PyFloat.ltb (PyFloat.literal "5.5") a = false) /\
  (PyFloat.leb (PyFloat.literal "0.5") a = false ->
   PyFloat.ltb (PyFloat.literal "0.99") a = false).
Proof.
  destruct literal_values as (-> & -> & -> & -> & -> & -> & ->).
  repeat split; intros H;
    first [ apply leb_false_not_lt in H | apply ltb_false_not_lt in H ];
    first [ apply leb_false_above with (2 := H)
          | apply ltb_false_above with (2 := H) ];
    first [ left; lia | right; split; [ reflexivity | lia ] ].
Qed.

(** A margin whose absolute value passes the lowest test has a sign. *)
Lemma signed_when_at_least_half (x : PyFloat.float) :
  PyFloat.leb (PyFloat.literal "0.5") (PyFloat.abs x) = true ->
  PyFloat.ltb zero x = true \/ PyFloat.ltb x zero = true.
Proof.
  destruct literal_values as (_ & _ & _ & _ & _ & _ & ->).
  destruct x as [s | s | | s m e]; simpl; try discriminate;
    destruct s; intros _; auto.
Qed.

(** The tier is decided by the tests on the absolute margin alone. *)
Lemma tier_cases (x : PyFloat.float) :
  let a := PyFloat.abs x in
  tier x =
    if PyFloat.leb (PyFloat.literal "40") a then "ANNIHILATION"
    else if PyFloat.leb (PyFloat.literal "30") a then "DOMINANT"
    else if PyFloat.leb (PyFloat.literal "20") a then "STRONGHOLD"
    else if PyFloat.leb (PyFloat.literal "10") a then "SAFE"
    else if PyFloat.ltb (PyFloat.literal "5.5") a then "LIKELY"
    else if PyFloat.ltb (PyFloat.literal "0.99") a then "LEAN"
    else if PyFloat.leb (PyFloat.literal "0.5") a then "TILT"
    else "TOSSUP".
Proof.
  intros a.
  destruct (thresholds_nested a) as (N1 & N2 & N3 & N4 & N5 & N6).
  pose proof (signed_when_at_least_half x) as S. fold a in S.
  unfold tier, tier_of, compute_competitiveness. fold a.
  destruct (PyFloat.leb (PyFloat.literal "0.5") a) eqn:T;
    [ | rewrite (N1 (N2 (N3 (N4 (N5 (N6 eq_refl)))))),
                (N2 (N3 (N4 (N5 (N6 eq_refl))))),
                (N3 (N4 (N5 (N6 eq_refl)))), (N4 (N5 (N6 eq_refl))),
                (N5 (N6 eq_refl)), (N6 eq_refl); reflexivity ].
  destruct (PyFloat.ltb zero x) eqn:Dem;
    [ | destruct (PyFloat.ltb x zero) eqn:Rep;
        [ | destruct (S eq_refl); discriminate ] ];
    destruct (PyFloat.leb (PyFloat.literal "40") a);
    destruct (PyFloat.leb (PyFloat.literal "30") a);
    destruct (PyFloat.leb (PyFloat.literal "20") a);
    destruct (PyFloat.leb (PyFloat.literal "10") a);
    destruct (PyFloat.ltb (PyFloat.literal "5.5") a);
    destruct (PyFloat.ltb (PyFloat.literal "0.99") a);
    reflexivity.
Qed.

(** C3, amended.  The thresholds 40, 30, 20, 10 and 0.5 are inclusive at
    their lower bound and the thresholds 5.5 and 0.99 are exclusive: each
    tier is the set of margins whose absolute value passes its own test and
    fails the test of the tier above; a margin of exactly 5.5 is Lean and
    one of exactly 0.99 is Tilt, on either side of zero. *)
Theorem tier_thresholds (x : PyFloat.float) :
  let a := PyFloat.abs x in
  (tier x = "ANNIHILATION" <-> at_least "40" a) /\
  (tier x = "DOMINANT" <-> at_least "30" a /\ ~ at_least "40" a) /\
  (tier x = "STRONGHOLD" <-> at_least "20" a /\ ~ at_least "30" a) /\
  (tier x = "SAFE" <-> at_least "10" a /\ ~ at_least "20" a) /\
  (tier x = "LIKELY" <-> above "5.5" a /\ ~ at_least "10" a) /\
  (tier x = "LEAN" <-> above "0.99" a /\ ~ above "5.5" a) /\
  (tier x = "TILT" <-> at_least "0.5" a /\ ~ above "0.99" a) /\
  (tier x = "TOSSUP" <-> ~ at_least "0.5" a) /\
  classify "5.5" = ("Lean Democratic", "D_LEAN") /\
  classify "-5.5" = ("Lean Republican", "R_LEAN") /\
  classify "0.99" = ("Tilt Democratic", "D_TILT") /\
  classify "-0.99" = ("Tilt Republican", "R_TILT").
Proof.
  intros a. rewrite (tier_cases x). fold a.
  unfold at_least, above.
  destruct (thresholds_nested a) as (N1 & N2 & N3 & N4 & N5 & N6).
  destruct (PyFloat.leb (PyFloat.literal "40") a) eqn:T40;
  destruct (PyFloat.leb (PyFloat.literal "30") a) eqn:T30;
    try (specialize (N1 eq_refl); discriminate);
  destruct (PyFloat.leb (PyFloat.literal "20") a) eqn:T20;
    try (specialize (N2 eq_refl); discriminate);
  destruct (PyFloat.leb (PyFloat.literal "10") a) eqn:T10;
    try (specialize (N3 eq_refl); discriminate);
  destruct (PyFloat.ltb (PyFloat.literal "5.5") a) eqn:T55;
    try (specialize (N4 eq_refl); discriminate);
  destruct (PyFloat.ltb (PyFloat.literal "0.99") a) eqn:T99;
    try (specialize (N5 eq_refl); discriminate);
  destruct (PyFloat.leb (PyFloat.literal "0.5") a) eqn:T05;
    try (specialize (N6 eq_refl); discriminate);
  repeat match goal with
         | |- _ /\ _ => split
         | |- _ <-> _ => split; intros
         | H : _ /\ _ |- _ => destruct H
         | |- ~ _ => intro
         end;
  try reflexivity; try discriminate; try congruence;
  try (vm_compute; reflexivity).
Qed.

(* ================================================================== *)
(** * C6: vote parsing *)
(* ================================================================== *)

(** The integer chosen for [p / q] is at most one half away from it. *)
Lemma round_half_even_nearest (p q : Z) :
  0 < q -> 2 * Z.abs (p - PyFloat.round_half_even p q * q) <= q.
Proof.
  intros Hq. unfold PyFloat.round_half_even.
  pose proof (Z.div_mod p q ltac:(lia)) as Hdm.
  pose proof (Z.mod_pos_bound p q Hq) as Hb.
  destruct (Z.compare_spec (2 * (p mod q)) q) as [He | He | He];
    [ destruct (Z.even (p / q)) | | ]; nia.
Qed.

(** A loop stops with an exception when its body raises on some element,
    whatever the state. *)
Lemma for_each_raises {A S : Type} (body : S -> A -> result S) (x : A)
  (xs : list A) :
  In x xs ->
  (forall s, exists e, body s x = Err e) ->
  forall s, exists e, for_each body xs s = Err e.
Proof.
  intros Hin Hx. induction xs as [| a xs IH]; [ contradiction | ].
  intros s. simpl. destruct Hin as [-> | Hin].
  - destruct (Hx s) as [e ->]. exists e. reflexivity.
  - destruct (body s a) as [s' | e]; simpl.
    + apply IH, Hin.
    + exists e. reflexivity.
Qed.

Lemma ingest_row_raises (lookup : dict string) (name : string) (r : row)
  (e : exn) :
  extract_votes r = Err e -> ingest_row lookup name r = Err e.
Proof. intros H. unfold ingest_row. rewrite H. reflexivity. Qed.

Lemma process_file_raises (lookup : dict string) (f : input_file) (r : row)
  (e : exn) :
  In r (file_rows f) -> extract_votes r = Err e ->
  forall st, exists e', process_file lookup st f = Err e'.
Proof.
  intros Hin Hr st. unfold process_file.
  destruct (path_exists f); simpl; [ | eexists; reflexivity ].
  destruct (infer_year_from_filename f) as [y | e0]; simpl;
    [ | eexists; reflexivity ].
  apply for_each_raises with (x := r); [ exact Hin | ].
  intros s. exists e. unfold process_row.
  rewrite (ingest_row_raises _ _ _ _ Hr). reflexivity.
Qed.

(** C6.  [to_int] gives 0 on an empty field and on a lone hyphen or double
    hyphen; otherwise it removes the commas and gives the float parse of the
    field rounded to a nearest integer, and raises when the field does not
    parse.  [extract_votes] hands the result of [to_int] on, and a row whose
    votes raise makes the whole run raise: no output is produced. *)
Theorem to_int_spec (v : string) :
  let s := strip v in
  let t := replace_char "," "" s in
  (s = "" -> to_int v = Ok 0) /\
  (t = "-" \/ t = "--" -> to_int v = Ok 0) /\
  (s <> "" -> t <> "-" -> t <> "--" ->
   to_int v = match PyFloat.of_string t with
              | Some x => PyFloat.round_to_int x
              | None => Err ValueError
              end) /\
  (forall sg m e z,
     PyFloat.round_to_int (S754_finite sg m e) = Ok z ->
     exists n, z = PyFloat.signed sg n /\
       if 0 <=? e then n = Zpos m * 2 ^ e
       else 2 * Z.abs (Zpos m - n * 2 ^ (- e)) <= 2 ^ (- e)) /\
  (forall r, D.get "votes" (lowered r) = Some v -> extract_votes r = to_int v) /\
  (forall args paths f r e,
     In f paths -> In r (file_rows f) -> extract_votes r = Err e ->
     exists e', main args paths = Err e').
Proof.
  intros s t. unfold to_int. fold s. fold t.
  repeat split.
  - intros ->. reflexivity.
  - destruct s as [| c s']; [ reflexivity | ].
    cbn [nonempty negb]. intros [-> | ->]; reflexivity.
  - intros Hs Ht1 Ht2.
    destruct s as [| c s']; [ congruence | ]. cbn [nonempty negb].
    apply String.eqb_neq in Ht1, Ht2. rewrite Ht1, Ht2. reflexivity.
  - intros sg m e z H. simpl in H. injection H as <-.
    eexists; split; [ reflexivity | ].
    destruct (0 <=? e) eqn:He; [ reflexivity | ].
    apply Z.leb_gt in He.
    apply round_half_even_nearest. apply Z.pow_pos_nonneg; lia.
  - intros r H. unfold extract_votes. rewrite H. reflexivity.
  - intros args paths f r e Hf Hr He. unfold main.
    destruct paths as [| p ps]; [ contradiction | ]. cbn [is_empty].
    destruct (for_each_raises
                (process_file (load_county_lookup (counties_geojson args)))
                f (p :: ps) Hf
                (process_file_raises _ f r e Hr He) initial_state) as [e' E].
    exists e'. unfold ingest. rewrite E. reflexivity.
Qed.

(** The parts of C6 on concrete fields, and a run that a corrupt field
    aborts. *)
Lemma to_int_spec_witness :
  to_int "  " = Ok 0 /\
  to_int " - " = Ok 0 /\
  to_int "--" = Ok 0 /\
  to_int "1,234.5" = Ok 1234 /\
  to_int "12a" = Err ValueError /\
  exists e,
    main (args_min 1)
      [file_2020 [mkrow "Kanawha" "PRESIDENT" "DEM" "Jane Doe" "100";
                  mkrow "Cabell" "Sheriff" "REP" "John Roe" "12a"]]
    = Err e.
Proof.
  split; [ | split; [ | split; [ | split; [ | split ] ] ] ].
  - destruct (to_int_spec "  ") as (H & _). apply H. reflexivity.
  - destruct (to_int_spec " - ") as (_ & H & _). apply H. left. reflexivity.
  - destruct (to_int_spec "--") as (_ & H & _). apply H. right. reflexivity.
  - destruct (to_int_spec "1,234.5") as (_ & _ & H & _).
    rewrite H; [ vm_compute; reflexivity | discriminate .. ].
  - destruct (to_int_spec "12a") as (_ & _ & H & _).
    rewrite H; [ vm_compute; reflexivity | discriminate .. ].
  - destruct (to_int_spec "12a") as (_ & _ & _ & _ & _ & H).
    apply (H (args_min 1) _
             (file_2020 [mkrow "Kanawha" "PRESIDENT" "DEM" "Jane Doe" "100";
                         mkrow "Cabell" "Sheriff" "REP" "John Roe" "12a"])
             (mkrow "Cabell" "Sheriff" "REP" "John Roe" "12a") ValueError).
    + left. reflexivity.
    + right. left. reflexivity.
    + vm_compute. reflexivity.
Defined.

(* ================================================================== *)
(** * C7: county names *)
(* ================================================================== *)


(* ================================================================== *)
(** * C8: candidate names *)
(* ================================================================== *)

(** C8 does not hold of the code: the pattern for the Jr suffix matches the
    two letters without a following dot, so a name that already ends in
    Jr. gets a second dot.  One pass on John Smith Jr gives John Smith Jr.
    and a second pass adds a dot. *)
Theorem normalize_candidate_name_adds_a_dot :
  normalize_candidate_name "John Smith Jr" = "John Smith Jr." /\
  normalize_candidate_name (normalize_candidate_name "John Smith Jr")
    = "John Smith Jr.." /\
  normalize_candidate_name "JOHN SMITH SR." = "John Smith Sr..".
Proof. repeat split; vm_compute; reflexivity. Qed.

(* ================================================================== *)
(** * Facts on dictionaries and loops *)
(* ================================================================== *)

Section DictFacts.

Context {V : Type}.
Implicit Types (d : dict V) (k : string) (v : V).

Lemma get_set_same k v d : D.get k (D.set k v d) = Some v.
Proof.
  induction d as [| [k' v'] d IH]; simpl.
  - rewrite String.eqb_refl. reflexivity.
  - destruct (String.eqb k k') eqn:E; simpl; rewrite E; auto.
Qed.

Lemma get_set_other k k' v d :
  k <> k' -> D.get k (D.set k' v d) = D.get k d.
Proof.
  intros Hne. induction d as [| [k0 v0] d IH]; simpl.
  - apply String.eqb_neq in Hne. rewrite Hne. reflexivity.
  - destruct (String.eqb k' k0) eqn:E; simpl.
    + apply String.eqb_eq in E. subst k0.
      apply String.eqb_neq in Hne. rewrite Hne. reflexivity.
    + destruct (String.eqb k k0); auto.
Qed.

Lemma get_set k k' v d :
  D.get k (D.set k' v d) = if String.eqb k k' then Some v else D.get k d.
Proof.
  destruct (String.eqb_spec k k') as [-> | Hne].
  - apply get_set_same.
  - apply get_set_other, Hne.
Qed.

Lemma get_some_in_keys k v d : D.get k d = Some v -> In k (D.keys d).
Proof.
  induction d as [| [k' v'] d IH]; simpl; [ discriminate | ].
  destruct (String.eqb_spec k k') as [-> | Hne]; auto.
Qed.

Lemma in_keys_get k d : In k (D.keys d) -> exists v, D.get k d = Some v.
Proof.
  induction d as [| [k' v'] d IH]; simpl; [ contradiction | ].
  intros [-> | Hin].
  - rewrite String.eqb_refl. eauto.
  - destruct (String.eqb k k'); eauto.
Qed.

Lemma get_none_not_in_keys k d : D.get k d = None -> ~ In k (D.keys d).
Proof.
  intros H Hin. destruct (in_keys_get k d Hin) as [v Hv]. congruence.
Qed.

Lemma in_keys_set k k' v d :
  In k (D.keys (D.set k' v d)) <-> k = k' \/ In k (D.keys d).
Proof.
  induction d as [| [k0 v0] d IH]; simpl.
  - intuition.
  - destruct (String.eqb_spec k' k0) as [-> | Hne]; simpl.
    + intuition.
    + rewrite IH. intuition.
Qed.

Lemma distinct_keys_set k v d :
  distinct_keys d -> distinct_keys (D.set k v d).
Proof.
  unfold distinct_keys. induction d as [| [k0 v0] d IH]; simpl; intros H.
  - constructor; [ intros [] | constructor ].
  - inversion H as [| ? ? Hnin Hnd]; subst.
    destruct (String.eqb_spec k k0) as [-> | Hne]; simpl.
    + constructor; assumption.
    + constructor; [ | apply IH, Hnd ].
      rewrite in_keys_set. intros [-> | Hin]; [ congruence | contradiction ].
Qed.

(** In a dictionary with distinct keys, the items are the bindings. *)
Lemma in_items_get k v d :
  distinct_keys d -> (In (k, v) d <-> D.get k d = Some v).
Proof.
  unfold distinct_keys. induction d as [| [k0 v0] d IH]; simpl; intros H.
  - split; [ contradiction | discriminate ].
  - inversion H as [| ? ? Hnin Hnd]; subst.
    destruct (String.eqb_spec k k0) as [-> | Hne].
    + split.
      * intros [E | Hin]; [ congruence | ].
        exfalso. apply Hnin. apply (in_map fst) in Hin. exact Hin.
      * intros E. left. congruence.
    + rewrite <- (IH Hnd). split.
      * intros [E | Hin]; [ congruence | exact Hin ].
      * auto.
Qed.

Lemma get_some_in k v d : D.get k d = Some v -> In (k, v) d.
Proof.
  induction d as [| [k' v'] d IH]; simpl; [ discriminate | ].
  destruct (String.eqb_spec k k') as [-> | Hne]; auto.
  intros E. left. congruence.
Qed.

Lemma all_values_nil (P : V -> Prop) : all_values P [].
Proof. constructor. Qed.

Lemma all_values_in (P : V -> Prop) k v d :
  all_values P d -> In (k, v) d -> P v.
Proof.
  unfold all_values. rewrite Forall_forall. intros H Hin. apply (H (k, v) Hin).
Qed.

Lemma all_values_get (P : V -> Prop) k v d :
  all_values P d -> D.get k d = Some v -> P v.
Proof. intros H E. apply (all_values_in P k v d H), get_some_in, E. Qed.

Lemma all_values_set (P : V -> Prop) k v d :
  all_values P d -> P v -> all_values P (D.set k v d).
Proof.
  unfold all_values. intros Hd Hv.
  induction d as [| [k0 v0] d IH]; simpl.
  - constructor; [ exact Hv | constructor ].
  - inversion Hd; subst.
    destruct (String.eqb k k0); constructor; auto.
Qed.

Lemma all_values_update (P : V -> Prop) k (default : V) (f : V -> V) d :
  all_values P d -> P default -> (forall v, P v -> P (f v)) ->
  all_values P (update k default f d).
Proof.
  intros Hd Hdef Hf. apply all_values_set; [ exact Hd | ].
  apply Hf. unfold D.get_default.
  destruct (D.get k d) as [v |] eqn:E;
    [ apply (all_values_get P k v d Hd E) | exact Hdef ].
Qed.

Lemma all_values_get_default (P : V -> Prop) k (default : V) d :
  all_values P d -> P default -> P (D.get_default k default d).
Proof.
  intros Hd Hdef. unfold D.get_default.
  destruct (D.get k d) as [v |] eqn:E;
    [ apply (all_values_get P k v d Hd E) | exact Hdef ].
Qed.

Lemma all_values_impl (P Q : V -> Prop) d :
  (forall v, P v -> Q v) -> all_values P d -> all_values Q d.
Proof.
  unfold all_values. intros H. apply Forall_impl. intros kv. apply H.
Qed.

Lemma distinct_keys_update k (default : V) (f : V -> V) d :
  distinct_keys d -> distinct_keys (update k default f d).
Proof. apply distinct_keys_set. Qed.

Lemma setdefault_present k v d : D.mem k d = true -> D.setdefault k v d = d.
Proof. unfold D.setdefault. intros ->. reflexivity. Qed.

Lemma mem_setdefault k k' v d :
  D.mem k d = true -> D.mem k (D.setdefault k' v d) = true.
Proof.
  unfold D.setdefault. destruct (D.mem k' d) eqn:E; [ auto | ].
  unfold D.mem. rewrite get_set. intros H.
  destruct (String.eqb k k'); [ reflexivity | exact H ].
Qed.

Lemma mem_setdefault_same k v d : D.mem k (D.setdefault k v d) = true.
Proof.
  unfold D.setdefault. destruct (D.mem k d) eqn:E; [ exact E | ].
  unfold D.mem. rewrite get_set_same. reflexivity.
Qed.

End DictFacts.

Section LoopFacts.

Context {A S : Type}.

(** A property of the state that every step keeps holds at the end. *)
Lemma fold_left_invariant (I : S -> Prop) (step : S -> A -> S) (xs : list A) :
  (forall s x, In x xs -> I s -> I (step s x)) ->
  forall s, I s -> I (fold_left step xs s).
Proof.
  induction xs as [| x xs IH]; simpl; intros Hstep s Hs; [ exact Hs | ].
  apply IH; [ intros; apply Hstep; auto | apply Hstep; auto ].
Qed.

Lemma for_each_invariant (I : S -> Prop) (body : S -> A -> result S)
  (xs : list A) :
  (forall s x s', In x xs -> I s -> body s x = Ok s' -> I s') ->
  forall s s', I s -> for_each body xs s = Ok s' -> I s'.
Proof.
  induction xs as [| x xs IH]; simpl; intros Hstep s s' Hs H.
  - injection H as <-. exact Hs.
  - destruct (body s x) as [s1 |] eqn:E; simpl in H; [ | discriminate ].
    apply (IH (fun s x s' Hin => Hstep s x s' (or_intror Hin)) s1 s');
      [ apply (Hstep s x s1); auto | exact H ].
Qed.

Lemma for_each_app (body : S -> A -> result S) (xs ys : list A) (s : S) :
  for_each body (xs ++ ys) s = (s' <- for_each body xs s ;; for_each body ys s').
Proof.
  revert s. induction xs as [| x xs IH]; simpl; intros s; [ reflexivity | ].
  destruct (body s x) as [s1 | e]; simpl; [ apply IH | reflexivity ].
Qed.

(** A loop whose steps leave the state as it is. *)
Lemma for_each_fixed (body : S -> A -> result S) (xs : list A) (s : S) :
  (forall x, In x xs -> body s x = Ok s) -> for_each body xs s = Ok s.
Proof.
  induction xs as [| x xs IH]; simpl; intros H; [ reflexivity | ].
  rewrite (H x (or_introl eq_refl)). simpl. apply IH. auto.
Qed.

End LoopFacts.

Section SortFacts.

Context {A : Type} (lt : A -> A -> bool).

Lemma insert_sorted_perm (x : A) (xs : list A) :
  Permutation (D.insert_sorted lt x xs) (x :: xs).
Proof.
  induction xs as [| y ys IH]; simpl; [ reflexivity | ].
  destruct (lt y x); [ | reflexivity ].
  rewrite IH. apply perm_swap.
Qed.

(** [sorted] rearranges its argument. *)
Lemma sort_with_perm (xs : list A) : Permutation (D.sort_with lt xs) xs.
Proof.
  unfold D.sort_with. induction xs as [| x xs IH]; simpl; [ reflexivity | ].
  rewrite insert_sorted_perm. constructor. exact IH.
Qed.

Lemma in_sort_with (x : A) (xs : list A) :
  In x (D.sort_with lt xs) <-> In x xs.
Proof.
  split; apply Permutation_in;
    [ apply sort_with_perm | apply Permutation_sym, sort_with_perm ].
Qed.

End SortFacts.

(* ================================================================== *)
(** * Facts on sums and on the result of one county *)
(* ================================================================== *)

Lemma fold_add_shift (l : list Z) (a : Z) :
  fold_left Z.add l a = a + fold_left Z.add l 0.
Proof.
  revert a. induction l as [| x l IH]; simpl; intros a; [ lia | ].
  rewrite (IH (a + x)), (IH x). lia.
Qed.

Lemma sum_cons (x : Z) (l : list Z) : sum (x :: l) = x + sum l.
Proof. unfold sum. simpl. apply fold_add_shift. Qed.

Lemma sum_nil : sum [] = 0.
Proof. reflexivity. Qed.

Lemma entries_of_party_cons (p : string) (e : entry) (es : list entry) :
  entries_of_party p (e :: es) =
    if String.eqb (fst (fst e)) p
    then (snd (fst e), snd e) :: entries_of_party p es
    else entries_of_party p es.
Proof.
  unfold entries_of_party. simpl. destruct (String.eqb (fst (fst e)) p); reflexivity.
Qed.

(** With no negative votes, the two party sums are not negative and do not
    exceed the total. *)
Lemma party_sums_nonneg (es : list entry) :
  nonneg_entries es ->
  0 <= sum (map snd (entries_of_party "DEM" es)) /\
  0 <= sum (map snd (entries_of_party "REP" es)) /\
  sum (map snd (entries_of_party "DEM" es))
    + sum (map snd (entries_of_party "REP" es)) <= sum (map snd es).
Proof.
  induction 1 as [| e es He Hes IH].
  - cbn. lia.
  - rewrite !entries_of_party_cons. cbn [map]. rewrite sum_cons.
    destruct (String.eqb_spec (fst (fst e)) "DEM") as [E | E].
    + rewrite E. cbn [String.eqb Ascii.eqb Bool.eqb].
      cbn [map snd]. rewrite sum_cons. lia.
    + destruct (String.eqb (fst (fst e)) "REP");
        cbn [map snd]; rewrite ?sum_cons; lia.
Qed.

Section CountyResult.

Variables (cn y c : string) (es : list entry).
Let r := county_result cn y c es.

Lemma county_result_other_votes :
  other_votes r = Z.max 0 (total_votes r - two_party_total r).
Proof. reflexivity. Qed.

Lemma county_result_two_party :
  two_party_total r = dem_votes r + rep_votes r /\
  margin r = dem_votes r - rep_votes r.
Proof. split; reflexivity. Qed.

Lemma county_result_sum :
  dem_votes r + rep_votes r + other_votes r
    = Z.max (total_votes r) (two_party_total r).
Proof. unfold r. cbn. lia. Qed.

Lemma county_result_nonneg :
  nonneg_entries es ->
  0 <= dem_votes r /\ 0 <= rep_votes r /\ two_party_total r <= total_votes r.
Proof. intros H. unfold r. cbn. apply party_sums_nonneg, H. Qed.

Lemma county_result_winner :
  (winner r = "DEM" <-> margin r > 0) /\
  (winner r = "REP" <-> margin r < 0) /\
  (winner r = "TIE" <-> margin r = 0).
Proof.
  unfold r. cbn.
  set (d := sum (map snd (entries_of_party "DEM" es))).
  set (p := sum (map snd (entries_of_party "REP" es))).
  destruct (Z.ltb_spec p d); [ | destruct (Z.ltb_spec d p) ];
    repeat split; intros; try discriminate; try reflexivity; lia.
Qed.

Lemma county_result_margin_pct_zero :
  two_party_total r = 0 -> margin_pct r = PyFloat.literal "0.00".
Proof.
  unfold r. cbn [two_party_total margin_pct county_result]. intros ->.
  reflexivity.
Qed.

End CountyResult.

(* ================================================================== *)
(** * From the grouping to the county results of the output *)
(* ================================================================== *)

Section OutputValues.

Variable E : list entry -> Prop.
Hypothesis E_nil : E [].

Lemma county_results_of_values (names : dict string) (cn y : string)
  (county_rows : dict (list entry)) :
  all_values E county_rows ->
  all_values (from_entries E) (county_results_of names cn y county_rows).
Proof.
  intros H. unfold county_results_of.
  apply fold_left_invariant; [ | apply all_values_nil ].
  intros acc ckey _ Hacc. apply all_values_set; [ exact Hacc | ].
  do 4 eexists. split; [ reflexivity | ].
  apply all_values_get_default; assumption.
Qed.

Lemma results_for_year_values (n : Z) (st : state) (y : string)
  (year_grouped : dict (dict (list entry))) :
  all_values (all_values E) year_grouped ->
  all_values (fun b => all_values (from_entries E) (results b))
             (results_for_year_of n st y year_grouped).
Proof.
  intros H. unfold results_for_year_of.
  apply fold_left_invariant; [ | apply all_values_nil ].
  intros acc [ct rows] Hin Hacc. cbn [fst snd].
  destruct (Z.of_nat (List.length rows) <? n); [ exact Hacc | ].
  apply all_values_set; [ exact Hacc | ]. cbn [results].
  apply county_results_of_values.
  apply in_sort_with in Hin.
  apply (all_values_in _ ct rows year_grouped H Hin).
Qed.

Lemma results_by_year_values (n : Z) (st : state) :
  all_entries E (grouped_by_year st) ->
  all_values (all_values (fun b => all_values (from_entries E) (results b)))
             (results_by_year_of n st).
Proof.
  intros H. unfold results_by_year_of.
  apply fold_left_invariant; [ | apply all_values_nil ].
  intros acc yr _ Hacc.
  destruct (is_empty (D.get_default yr [] (grouped_by_year st)));
    [ exact Hacc | ].
  destruct (is_empty (results_for_year_of n st yr _)); [ exact Hacc | ].
  apply all_values_set; [ exact Hacc | ].
  apply results_for_year_values.
  apply all_values_get_default; [ exact H | apply all_values_nil ].
Qed.

(** Every county result of the output is computed from a list of entries
    of the grouping. *)
Lemma in_output_from_entries (n : Z) (st : state) (r : CountyContestResult) :
  all_entries E (grouped_by_year st) ->
  in_output r (aggregate n st) -> from_entries E r.
Proof.
  intros H (yr & ct & b & k & Hb & Hr).
  unfold aggregate in Hb. cbn [results_by_year] in Hb. unfold block_of in Hb.
  pose proof (results_by_year_values n st H) as Hall.
  destruct (D.get yr (results_by_year_of n st)) as [rfy |] eqn:Ey;
    [ | discriminate ].
  pose proof (all_values_get _ _ _ _ Hall Ey) as Hrfy.
  pose proof (all_values_get _ _ _ _ Hrfy Hb) as Hblock.
  apply (all_values_get _ _ _ _ Hblock Hr).
Qed.

(** Accepting a record keeps [E] when appending an entry does. *)
Lemma accept_entries (yr : string) (st : state) (v : vote_record) :
  (forall l, E l -> E (l ++ [(vr_party v, vr_candidate v, vr_votes v)])) ->
  all_entries E (grouped_by_year st) ->
  all_entries E (grouped_by_year (accept yr st v)).
Proof.
  intros Happ H. unfold accept.
  destruct (seen (key_of yr v) (seen_entries st)); cbn [grouped_by_year];
    [ exact H | ].
  apply all_values_update; [ exact H | apply all_values_nil | ].
  intros yg Hyg.
  apply all_values_update; [ exact Hyg | apply all_values_nil | ].
  intros rows Hrows.
  apply all_values_update; [ exact Hrows | exact E_nil | exact Happ ].
Qed.

End OutputValues.

Lemma all_entries_trivial (g : dict (dict (dict (list entry)))) :
  all_entries (fun _ => True) g.
Proof.
  unfold all_entries, all_values.
  apply Forall_forall. intros ? _. apply Forall_forall. intros ? _.
  apply Forall_forall. intros ? _. exact I.
Qed.

Lemma ingest_row_votes (lookup : dict string) (name : string) (r : row)
  (v : vote_record) :
  ingest_row lookup name r = Ok (Some v) -> extract_votes r = Ok (vr_votes v).
Proof.
  unfold ingest_row. destruct (extract_votes r) as [z | e]; cbn [bind];
    [ | discriminate ].
  repeat match goal with
         | |- context [if ?c then _ else _] => destruct c; [ discriminate | ]
         | |- context [match D.get ?a ?b with _ => _ end] =>
             destruct (D.get a b) as [[ct cname] |]; [ | discriminate ]
         end.
  intros H. injection H as <-. reflexivity.
Qed.

(** A property of the state kept by [accept] on the records of the rows
    holds after the ingestion. *)
Lemma ingest_invariant (I : state -> Prop) (lookup : dict string)
  (paths : list input_file) :
  I initial_state ->
  (forall f r v yr st,
     In f paths -> In r (file_rows f) ->
     ingest_row lookup (path_name f) r = Ok (Some v) ->
     I st -> I (accept yr st v)) ->
  forall st, ingest lookup paths = Ok st -> I st.
Proof.
  intros Hinit Hstep st. unfold ingest.
  apply for_each_invariant; [ | exact Hinit ].
  intros s f s' Hf Hs. unfold process_file.
  destruct (path_exists f); [ | discriminate ]. cbn [negb].
  destruct (infer_year_from_filename f) as [yr | e]; [ | discriminate ].
  cbn [bind]. apply for_each_invariant; [ | exact Hs ].
  intros s1 r s2 Hr Hs1. unfold process_row.
  destruct (ingest_row lookup (path_name f) r) as [[v |] | e] eqn:Ev;
    cbn [bind]; intros H; try discriminate; injection H as <-.
  - apply (Hstep f r v yr s1 Hf Hr Ev Hs1).
  - exact Hs1.
Qed.

Lemma ingest_nonneg (lookup : dict string) (paths : list input_file)
  (st : state) :
  nonneg_inputs paths -> ingest lookup paths = Ok st ->
  all_entries nonneg_entries (grouped_by_year st).
Proof.
  intros Hnn. apply (ingest_invariant
                       (fun st => all_entries nonneg_entries (grouped_by_year st))).
  - apply all_values_nil.
  - intros f r v yr s Hf Hr Hv Hs.
    apply accept_entries; [ constructor | | exact Hs ].
    intros l Hl. apply Forall_app. split; [ exact Hl | ].
    constructor; [ | constructor ]. cbn [snd].
    apply (Hnn f r _ Hf Hr (ingest_row_votes _ _ _ _ Hv)).
Qed.

Lemma main_ok (args : Args) (paths : list input_file) (out : Output) :
  main args paths = Ok out ->
  exists st,
    ingest (load_county_lookup (counties_geojson args)) paths = Ok st /\
    out = aggregate (min_counties_per_contest args) st.
Proof.
  unfold main. destruct (is_empty paths); [ discriminate | ].
  destruct (ingest _ paths) as [st | e]; cbn [bind]; [ | discriminate ].
  intros H. injection H as <-. exists st. split; reflexivity.
Qed.

(* ================================================================== *)
(** * C1, C5: the invariants of a county result *)
(* ================================================================== *)

(** C1, as stated, fails: a minor-party row with the votes field -5 gives a
    county result with 100 + 50 + 0 votes against a total of 145. *)
Lemma negative_votes_break_the_sum :
  exists out r,
    main (args_min 1)
      [file_2020 [mkrow "Kanawha" "PRESIDENT" "DEM" "Jane Doe" "100";
                  mkrow "Kanawha" "PRESIDENT" "REP" "John Roe" "50";
                  mkrow "Kanawha" "PRESIDENT" "LIB" "Jo Poe" "-5"]] = Ok out /\
    in_output r out /\
    (dem_votes r, rep_votes r, other_votes r, total_votes r) = (100, 50, 0, 145) /\
    dem_votes r + rep_votes r + other_votes r <> total_votes r.
Proof.
  eexists. eexists. split; [ vm_compute; reflexivity | ].
  split.
  - exists "2020", "president". eexists. exists "Kanawha".
    split; vm_compute; reflexivity.
  - split; [ vm_compute; reflexivity | vm_compute; discriminate ].
Qed.

(** C1, amended.  In every county result of the output, the other votes are
    the difference of the total and the two-party total clamped at zero, and
    the Democratic, Republican and other votes add up to the greater of the
    total and the two-party total; they add up to the total when no vote
    field of the input is negative. *)
Theorem votes_sum_invariant (args : Args) (paths : list input_file)
  (out : Output) (r : CountyContestResult) :
  main args paths = Ok out ->
  in_output r out ->
  other_votes r = Z.max 0 (total_votes r - two_party_total r) /\
  dem_votes r + rep_votes r + other_votes r
    = Z.max (total_votes r) (two_party_total r) /\
  (nonneg_inputs paths ->
   dem_votes r + rep_votes r + other_votes r = total_votes r).
Proof.
  intros Hmain Hin.
  destruct (main_ok _ _ _ Hmain) as (st & Hst & ->).
  split; [ | split ].
  - destruct (in_output_from_entries (fun _ => True) I _ _ _
                (all_entries_trivial _) Hin) as (cn & y & c & es & -> & _).
    apply county_result_other_votes.
  - destruct (in_output_from_entries (fun _ => True) I _ _ _
                (all_entries_trivial _) Hin) as (cn & y & c & es & -> & _).
    apply county_result_sum.
  - intros Hnn.
    destruct (in_output_from_entries nonneg_entries (Forall_nil _) _ _ _
                (ingest_nonneg _ _ _ Hnn Hst) Hin)
      as (cn & y & c & es & -> & Hes).
    rewrite county_result_sum.
    pose proof (county_result_nonneg cn y c es Hes). lia.
Qed.

Lemma votes_sum_invariant_witness :
  exists out r,
    main (args_min 1)
      [file_2020 [mkrow "Kanawha" "PRESIDENT" "DEM" "Jane Doe" "100";
                  mkrow "Kanawha" "PRESIDENT" "REP" "John Roe" "50";
                  mkrow "Kanawha" "PRESIDENT" "LIB" "Jo Poe" "5"]] = Ok out /\
    in_output r out /\
    dem_votes r + rep_votes r + other_votes r = total_votes r.
Proof.
  eexists. eexists. split; [ vm_compute; reflexivity | ].
  split; [ exists "2020", "president"; eexists; exists "Kanawha";
           split; vm_compute; reflexivity | ].
  refine (proj2 (proj2 (votes_sum_invariant (args_min 1)
      [file_2020 [mkrow "Kanawha" "PRESIDENT" "DEM" "Jane Doe" "100";
                  mkrow "Kanawha" "PRESIDENT" "REP" "John Roe" "50";
                  mkrow "Kanawha" "PRESIDENT" "LIB" "Jo Poe" "5"]] _ _ _ _)) _).
  - vm_compute. reflexivity.
  - exists "2020", "president". eexists. exists "Kanawha".
    split; vm_compute; reflexivity.
  - intros f r z [<- | []] Hr. cbn [file_rows file_2020] in Hr.
    destruct Hr as [<- | [<- | [<- | []]]]; intros H; vm_compute in H;
      injection H as H; subst z; lia.
Defined.

(** C5, as stated, fails: with 5 Democratic votes and the Republican votes
    field -5 the two-party total is zero and the winner is DEM, not TIE. *)
Lemma zero_two_party_total_with_a_winner :
  exists out r,
    main (args_min 1)
      [file_2020 [mkrow "Kanawha" "PRESIDENT" "DEM" "Jane Doe" "5";
                  mkrow "Kanawha" "PRESIDENT" "REP" "John Roe" "-5"]] = Ok out /\
    in_output r out /\
    two_party_total r = 0 /\ winner r = "DEM".
Proof.
  eexists. eexists. split; [ vm_compute; reflexivity | ].
  split.
  - exists "2020", "president". eexists. exists "Kanawha".
    split; vm_compute; reflexivity.
  - split; vm_compute; reflexivity.
Qed.

(** C5, amended.  In every county result of the output the margin is the
    Democratic votes minus the Republican votes and the winner follows its
    sign: DEM exactly when it is positive, REP exactly when it is negative,
    TIE exactly when it is zero.  When the two-party total is zero the
    margin percentage is 0.00, and the winner is TIE when no vote field of
    the input is negative. *)
Theorem winner_follows_margin (args : Args) (paths : list input_file)
  (out : Output) (r : CountyContestResult) :
  main args paths = Ok out ->
  in_output r out ->
  margin r = dem_votes r - rep_votes r /\
  (winner r = "DEM" <-> margin r > 0) /\
  (winner r = "REP" <-> margin r < 0) /\
  (winner r = "TIE" <-> margin r = 0) /\
  (two_party_total r = 0 -> margin_pct r = PyFloat.literal "0.00") /\
  (nonneg_inputs paths -> two_party_total r = 0 -> winner r = "TIE").
Proof.
  intros Hmain Hin.
  destruct (main_ok _ _ _ Hmain) as (st & Hst & ->).
  assert (Hgen : forall E (HE : E []),
             all_entries E (grouped_by_year st) -> from_entries E r).
  { intros E HE Hall. apply (in_output_from_entries E HE _ _ _ Hall Hin). }
  destruct (Hgen (fun _ => True) I (all_entries_trivial _))
    as (cn & y & c & es & Er & _).
  pose proof (county_result_winner cn y c es) as (Wd & Wr & Wt).
  pose proof (county_result_two_party cn y c es) as (Etp & Em).
  pose proof (county_result_margin_pct_zero cn y c es) as Hpct.
  rewrite <- Er in Wd, Wr, Wt, Etp, Em, Hpct.
  repeat split; try tauto; try (apply Wd); try (apply Wr); try (apply Wt).
  intros Hnn Hz.
  destruct (Hgen nonneg_entries (Forall_nil _) (ingest_nonneg _ _ _ Hnn Hst))
    as (cn' & y' & c' & es' & Er' & Hes).
  pose proof (county_result_nonneg cn' y' c' es' Hes) as (Hd & Hp & _).
  rewrite <- Er' in Hd, Hp.
  apply Wt. lia.
Qed.

Lemma winner_follows_margin_witness :
  exists out r,
    main (args_min 1)
      [file_2020 [mkrow "Kanawha" "PRESIDENT" "DEM" "Jane Doe" "0";
                  mkrow "Kanawha" "PRESIDENT" "LIB" "Jo Poe" "7"]] = Ok out /\
    in_output r out /\
    two_party_total r = 0 /\
    margin_pct r = PyFloat.literal "0.00" /\
    winner r = "TIE".
Proof.
  eexists. eexists. split; [ vm_compute; reflexivity | ].
  split; [ exists "2020", "president"; eexists; exists "Kanawha";
           split; vm_compute; reflexivity | ].
  split; [ vm_compute; reflexivity | ].
  pose proof (winner_follows_margin (args_min 1)
      [file_2020 [mkrow "Kanawha" "PRESIDENT" "DEM" "Jane Doe" "0";
                  mkrow "Kanawha" "PRESIDENT" "LIB" "Jo Poe" "7"]]) as T.
  refine ((fun T0 => conj (proj1 (proj2 (proj2 (proj2 (proj2 T0)))) _)
                          (proj2 (proj2 (proj2 (proj2 (proj2 T0)))) _ _))
            (T _ _ _ _)).
  - vm_compute. reflexivity.
  - intros f r z [<- | []] Hr. cbn [file_rows file_2020] in Hr.
    destruct Hr as [<- | [<- | []]]; intros H; vm_compute in H;
      injection H as H; subst z; lia.
  - vm_compute. reflexivity.
  - vm_compute. reflexivity.
  - exists "2020", "president". eexists. exists "Kanawha".
    split; vm_compute; reflexivity.
Defined.

(* ================================================================== *)
(** * C4, C10: deduplication *)
(* ================================================================== *)

Lemma dedupe_key_eqb_refl (k : dedupe_key) : dedupe_key_eqb k k = true.
Proof.
  destruct k as [[[[[y t] c] p] n] v]. unfold dedupe_key_eqb.
  rewrite !String.eqb_refl, Z.eqb_refl. reflexivity.
Qed.

Lemma seen_head (k : dedupe_key) (s : list dedupe_key) : seen k (k :: s) = true.
Proof. unfold seen. simpl. rewrite dedupe_key_eqb_refl. reflexivity. Qed.

Lemma seen_tail (k k' : dedupe_key) (s : list dedupe_key) :
  seen k s = true -> seen k (k' :: s) = true.
Proof. unfold seen. simpl. intros ->. apply orb_true_r. Qed.

(** A recorded record is dropped and leaves the state as it is. *)
Lemma accept_recorded (yr : string) (st : state) (v : vote_record) :
  recorded yr st v -> accept yr st v = st.
Proof.
  intros [Hseen Hmem]. unfold accept. rewrite Hseen.
  rewrite (setdefault_present _ _ _ Hmem). destruct st; reflexivity.
Qed.

Lemma accept_records (yr : string) (st : state) (v : vote_record) :
  recorded yr (accept yr st v) v.
Proof.
  unfold recorded, accept.
  destruct (seen (key_of yr v) (seen_entries st)) eqn:E;
    cbn [seen_entries county_name_by_key].
  - split; [ exact E | apply mem_setdefault_same ].
  - split; [ apply seen_head | apply mem_setdefault_same ].
Qed.

Lemma accept_extends (yr : string) (st : state) (v : vote_record) :
  extends st (accept yr st v).
Proof.
  intros yr' v' [Hseen Hmem]. unfold recorded, accept.
  destruct (seen (key_of yr v) (seen_entries st));
    cbn [seen_entries county_name_by_key];
    (split; [ | apply mem_setdefault, Hmem ]).
  - exact Hseen.
  - apply seen_tail, Hseen.
Qed.

Lemma extends_refl (st : state) : extends st st.
Proof. intros yr v H. exact H. Qed.

Lemma extends_trans (s1 s2 s3 : state) :
  extends s1 s2 -> extends s2 s3 -> extends s1 s3.
Proof. intros H12 H23 yr v H. apply H23, H12, H. Qed.

(** Two records with the same identity are recorded together. *)
Lemma recorded_same_identity (yr : string) (st : state) (v1 v2 : vote_record) :
  identity_of v1 = identity_of v2 -> recorded yr st v1 -> recorded yr st v2.
Proof.
  unfold identity_of, recorded, key_of. intros E.
  injection E as E1 E2 E3 E4 E5. rewrite E1, E2, E3, E4, E5. auto.
Qed.

Section Rows.

Variables (lookup : dict string) (yr name : string).

Let body := process_row lookup yr name.

Lemma process_row_extends (st st' : state) (r : row) :
  body st r = Ok st' -> extends st st'.
Proof.
  unfold body, process_row.
  destruct (ingest_row lookup name r) as [[v |] | e]; cbn [bind];
    intros H; try discriminate; injection H as <-.
  - apply accept_extends.
  - apply extends_refl.
Qed.

Lemma process_row_done (st st' : state) (r : row) :
  body st r = Ok st' -> row_done lookup yr name st' r.
Proof.
  unfold body, process_row, row_done.
  destruct (ingest_row lookup name r) as [[v |] | e]; cbn [bind];
    intros H; try discriminate; injection H as <-.
  - apply accept_records.
  - exact I.
Qed.

Lemma row_done_fixed (st : state) (r : row) :
  row_done lookup yr name st r -> body st r = Ok st.
Proof.
  unfold body, process_row, row_done.
  destruct (ingest_row lookup name r) as [[v |] | e]; cbn [bind];
    intros H; try contradiction.
  - rewrite (accept_recorded _ _ _ H). reflexivity.
  - reflexivity.
Qed.

Lemma row_done_extends (st st' : state) (r : row) :
  extends st st' -> row_done lookup yr name st r -> row_done lookup yr name st' r.
Proof.
  unfold row_done. intros Hext.
  destruct (ingest_row lookup name r) as [[v |] | e]; auto.
Qed.

Lemma rows_extend (rows : list row) (st st' : state) :
  for_each body rows st = Ok st' -> extends st st'.
Proof.
  apply (for_each_invariant (fun s => extends st s)); [ | apply extends_refl ].
  intros s r s' _ Hs Hr.
  apply (extends_trans _ _ _ Hs (process_row_extends _ _ _ Hr)).
Qed.

(** After the loop over the rows, every row is done. *)
Lemma rows_done (rows : list row) (st st' : state) :
  for_each body rows st = Ok st' ->
  forall r, In r rows -> row_done lookup yr name st' r.
Proof.
  revert st. induction rows as [| r0 rows IH]; intros st H r Hin;
    [ contradiction | ].
  cbn [for_each] in H.
  destruct (body st r0) as [s1 | e] eqn:E; cbn [bind] in H; [ | discriminate ].
  destruct Hin as [<- | Hin].
  - apply (row_done_extends s1 st' r0 (rows_extend _ _ _ H)).
    apply (process_row_done _ _ _ E).
  - apply (IH s1 H r Hin).
Qed.

Lemma rows_fixed (rows : list row) (st : state) :
  (forall r, In r rows -> row_done lookup yr name st r) ->
  for_each body rows st = Ok st.
Proof.
  intros H. apply for_each_fixed. intros r Hr. apply row_done_fixed, H, Hr.
Qed.

(** C10 on the rows of one file: a row whose record has the identity of the
    record of an earlier row changes nothing. *)
Lemma duplicate_row_dropped (pre mid post : list row) (r1 r2 : row)
  (v1 v2 : vote_record) (st : state) :
  ingest_row lookup name r1 = Ok (Some v1) ->
  ingest_row lookup name r2 = Ok (Some v2) ->
  identity_of v1 = identity_of v2 ->
  for_each body (pre ++ r1 :: mid ++ r2 :: post) st
  = for_each body (pre ++ r1 :: mid ++ post) st.
Proof.
  intros H1 H2 Hid.
  rewrite !for_each_app.
  destruct (for_each body pre st) as [s0 | e]; cbn [bind]; [ | reflexivity ].
  cbn [for_each].
  destruct (body s0 r1) as [s1 | e] eqn:E1; cbn [bind]; [ | reflexivity ].
  rewrite !for_each_app.
  destruct (for_each body mid s1) as [s2 | e] eqn:E2; cbn [bind];
    [ | reflexivity ].
  cbn [for_each].
  assert (Hdone : row_done lookup yr name s2 r2).
  { pose proof (process_row_done _ _ _ E1) as D1.
    apply (row_done_extends _ _ _ (rows_extend _ _ _ E2)) in D1.
    unfold row_done in *. rewrite H1 in D1. rewrite H2.
    apply (recorded_same_identity _ _ _ _ Hid D1). }
  rewrite (row_done_fixed _ _ Hdone). reflexivity.
Qed.

End Rows.

Section Files.

Variable lookup : dict string.

Lemma process_file_extends (st st' : state) (f : input_file) :
  process_file lookup st f = Ok st' -> extends st st'.
Proof.
  unfold process_file. destruct (path_exists f); [ | discriminate ].
  cbn [negb]. destruct (infer_year_from_filename f) as [yr | e];
    [ | discriminate ].
  cbn [bind]. apply rows_extend.
Qed.

Lemma process_file_done (st st' : state) (f : input_file) :
  process_file lookup st f = Ok st' -> file_done lookup st' f.
Proof.
  unfold process_file, file_done.
  destruct (path_exists f); [ | discriminate ].
  cbn [negb]. destruct (infer_year_from_filename f) as [yr | e];
    [ | discriminate ].
  cbn [bind]. intros H. split; [ reflexivity | ].
  exists yr. split; [ reflexivity | ]. apply (rows_done _ _ _ _ _ _ H).
Qed.

Lemma file_done_fixed (st : state) (f : input_file) :
  file_done lookup st f -> process_file lookup st f = Ok st.
Proof.
  intros (Hex & yr & Hyr & Hrows). unfold process_file.
  rewrite Hex, Hyr. cbn [negb bind]. apply rows_fixed, Hrows.
Qed.

Lemma file_done_extends (st st' : state) (f : input_file) :
  extends st st' -> file_done lookup st f -> file_done lookup st' f.
Proof.
  intros Hext (Hex & yr & Hyr & Hrows). split; [ exact Hex | ].
  exists yr. split; [ exact Hyr | ].
  intros r Hr. apply (row_done_extends _ _ _ _ _ _ Hext), Hrows, Hr.
Qed.

Lemma files_extend (fs : list input_file) (st st' : state) :
  for_each (process_file lookup) fs st = Ok st' -> extends st st'.
Proof.
  apply (for_each_invariant (fun s => extends st s)); [ | apply extends_refl ].
  intros s f s' _ Hs Hf.
  apply (extends_trans _ _ _ Hs (process_file_extends _ _ _ Hf)).
Qed.

(** A file that was read earlier in the run is read again without effect. *)
Lemma second_reading_fixed (f : input_file) (fs : list input_file)
  (s1 s2 s3 : state) :
  process_file lookup s1 f = Ok s2 ->
  for_each (process_file lookup) fs s2 = Ok s3 ->
  process_file lookup s3 f = Ok s3.
Proof.
  intros Hf Hfs. apply file_done_fixed.
  apply (file_done_extends s2 s3 f (files_extend _ _ _ Hfs)).
  apply (process_file_done _ _ _ Hf).
Qed.

End Files.

Lemma is_empty_app_cons {A : Type} (xs ys : list A) (x : A) :
  is_empty (xs ++ x :: ys) = false.
Proof. destruct xs; reflexivity. Qed.

(** C4.  A run that reads the file [f] a second time, after it has read all
    of it once, gives the result of the run that reads it once: the
    same output, or the same exception. *)
Theorem reingesting_a_file_changes_nothing (args : Args)
  (fs1 fs2 fs3 : list input_file) (f : input_file) :
  main args (fs1 ++ f :: fs2 ++ f :: fs3) = main args (fs1 ++ f :: fs2 ++ fs3).
Proof.
  unfold main. rewrite !is_empty_app_cons. f_equal.
  unfold ingest. set (body := process_file _).
  rewrite !for_each_app.
  destruct (for_each body fs1 initial_state) as [s0 | e]; cbn [bind];
    [ | reflexivity ].
  cbn [for_each].
  destruct (body s0 f) as [s1 | e] eqn:E1; cbn [bind]; [ | reflexivity ].
  rewrite !for_each_app.
  destruct (for_each body fs2 s1) as [s2 | e] eqn:E2; cbn [bind];
    [ | reflexivity ].
  cbn [for_each].
  unfold body. rewrite (second_reading_fixed _ f fs2 s0 s1 s2 E1 E2).
  reflexivity.
Qed.

(** C10.  In one file, a row whose normalised record has the contest type,
    county key, party, candidate and votes of the record of an earlier row
    contributes nothing: the run gives the result it gives without the
    row. *)
Theorem duplicate_rows_within_a_file (args : Args)
  (fs1 fs2 : list input_file) (f : input_file) (pre mid post : list row)
  (r1 r2 : row) (v1 v2 : vote_record) :
  let lookup := load_county_lookup (counties_geojson args) in
  ingest_row lookup (path_name f) r1 = Ok (Some v1) ->
  ingest_row lookup (path_name f) r2 = Ok (Some v2) ->
  identity_of v1 = identity_of v2 ->
  main args (fs1 ++ with_rows f (pre ++ r1 :: mid ++ r2 :: post) :: fs2)
  = main args (fs1 ++ with_rows f (pre ++ r1 :: mid ++ post) :: fs2).
Proof.
  intros lookup H1 H2 Hid.
  unfold main. rewrite !is_empty_app_cons. f_equal. fold lookup.
  unfold ingest. rewrite !for_each_app.
  destruct (for_each (process_file lookup) fs1 initial_state) as [s0 | e];
    cbn [bind]; [ | reflexivity ].
  cbn [for_each]. f_equal.
  unfold process_file. cbn [path_exists with_rows path_name file_rows].
  destruct (path_exists f); [ | reflexivity ]. cbn [negb].
  change (infer_year_from_filename (with_rows f (pre ++ r1 :: mid ++ r2 :: post)))
    with (infer_year_from_filename f).
  change (infer_year_from_filename (with_rows f (pre ++ r1 :: mid ++ post)))
    with (infer_year_from_filename f).
  destruct (infer_year_from_filename f) as [yr | e]; cbn [bind];
    [ | reflexivity ].
  apply (duplicate_row_dropped lookup yr (path_name f) pre mid post r1 r2 v1 v2
           s0 H1 H2 Hid).
Qed.

(** Two precincts of Kanawha report 40 votes for the same candidate: the
    second row is dropped, and the county has 40 votes, not 80. *)
Lemma duplicate_rows_within_a_file_witness :
  main (args_min 1)
    [file_2020
       [precinct_row "Precinct 1" "Kanawha" "President" "DEM" "Jane Doe" "40";
        precinct_row "Precinct 2" "Kanawha" "President" "DEM" "Jane Doe" "40"]]
  = main (args_min 1)
      [file_2020
         [precinct_row "Precinct 1" "Kanawha" "President" "DEM" "Jane Doe" "40"]]
  /\
  match main (args_min 1)
          [file_2020
             [precinct_row "Precinct 1" "Kanawha" "President" "DEM" "Jane Doe" "40";
              precinct_row "Precinct 2" "Kanawha" "President" "DEM" "Jane Doe" "40"]]
  with
  | Ok out => map total_votes (county_results_list out) = [40]
  | Err _ => False
  end.
Proof.
  split; [ | vm_compute; reflexivity ].
  refine (duplicate_rows_within_a_file (args_min 1) [] [] (file_2020 [])
            [] [] []
            (precinct_row "Precinct 1" "Kanawha" "President" "DEM" "Jane Doe" "40")
            (precinct_row "Precinct 2" "Kanawha" "President" "DEM" "Jane Doe" "40")
            _ _ _ _ _).
  - vm_compute. reflexivity.
  - vm_compute. reflexivity.
  - vm_compute. reflexivity.
Defined.

(** The same file listed twice gives the output of the file listed once. *)
Lemma reingesting_a_file_changes_nothing_witness :
  main (args_min 1)
    [file_2020 [mkrow "Kanawha" "PRESIDENT" "DEM" "Jane Doe" "100";
                mkrow "Kanawha" "PRESIDENT" "REP" "John Roe" "50"];
     file_2020 [mkrow "Kanawha" "PRESIDENT" "DEM" "Jane Doe" "100";
                mkrow "Kanawha" "PRESIDENT" "REP" "John Roe" "50"]]
  = main (args_min 1)
      [file_2020 [mkrow "Kanawha" "PRESIDENT" "DEM" "Jane Doe" "100";
                  mkrow "Kanawha" "PRESIDENT" "REP" "John Roe" "50"]].
Proof.
  exact (reingesting_a_file_changes_nothing (args_min 1) [] [] []
           (file_2020 [mkrow "Kanawha" "PRESIDENT" "DEM" "Jane Doe" "100";
                       mkrow "Kanawha" "PRESIDENT" "REP" "John Roe" "50"])).
Defined.

(* ================================================================== *)
(** * C9: contests with too few counties *)
(* ================================================================== *)

Lemma accept_well_formed (yr : string) (st : state) (v : vote_record) :
  well_formed st -> well_formed (accept yr st v).
Proof.
  intros [Hd Hall]. unfold well_formed, accept.
  destruct (seen (key_of yr v) (seen_entries st)); cbn [grouped_by_year];
    [ split; assumption | ].
  split; [ apply distinct_keys_update, Hd | ].
  apply all_values_update; [ exact Hall | | ].
  - split; [ constructor | apply all_values_nil ].
  - intros yg [Hyg Hrows]. split; [ apply distinct_keys_update, Hyg | ].
    apply all_values_update; [ exact Hrows | constructor | ].
    intros rows Hr. apply distinct_keys_update, Hr.
Qed.

Lemma ingest_well_formed (lookup : dict string) (paths : list input_file)
  (st : state) :
  ingest lookup paths = Ok st -> well_formed st.
Proof.
  apply (ingest_invariant well_formed).
  - split; [ constructor | apply all_values_nil ].
  - intros f r v yr s _ _ _ Hs. apply accept_well_formed, Hs.
Qed.

Section FoldLookup.

Context {V W : Type}.

(** A loop over keys that sets, or leaves, the entry of each key. *)
Lemma get_fold_keys (f : string -> option W) (step : dict W -> string -> dict W)
  (ks : list string) :
  (forall acc y,
     step acc y = match f y with Some w => D.set y w acc | None => acc end) ->
  forall acc k,
    D.get k (fold_left step ks acc) =
      if existsb (String.eqb k) ks
      then match f k with Some w => Some w | None => D.get k acc end
      else D.get k acc.
Proof.
  intros Hstep. induction ks as [| y ks IH]; intros acc k; [ reflexivity | ].
  cbn [fold_left existsb]. rewrite IH, Hstep.
  destruct (String.eqb_spec k y) as [-> | Hne]; cbn [orb].
  - destruct (f y) as [w |];
      [ rewrite get_set_same | ]; destruct (existsb _ ks); reflexivity.
  - destruct (f y) as [w |]; [ rewrite (get_set_other _ _ _ _ Hne) | ];
      reflexivity.
Qed.

(** A loop over the items of a dictionary with distinct keys. *)
Lemma get_fold_items (f : string -> V -> option W)
  (step : dict W -> string * V -> dict W) (items : dict V) :
  (forall acc it,
     step acc it = match f (fst it) (snd it) with
                   | Some w => D.set (fst it) w acc
                   | None => acc
                   end) ->
  distinct_keys items ->
  forall acc k,
    D.get k (fold_left step items acc) =
      match D.get k items with
      | Some v => match f k v with Some w => Some w | None => D.get k acc end
      | None => D.get k acc
      end.
Proof.
  intros Hstep. unfold distinct_keys.
  induction items as [| [k0 v0] items IH]; intros Hnd acc k; [ reflexivity | ].
  inversion Hnd as [| ? ? Hnin Hnd']; subst.
  cbn [fold_left D.get]. rewrite (IH Hnd'), Hstep. cbn [fst snd].
  destruct (String.eqb_spec k k0) as [-> | Hne].
  - destruct (D.get k0 items) as [v |] eqn:E.
    + exfalso. apply Hnin. apply (get_some_in_keys _ _ _ E).
    + destruct (f k0 v0) as [w |]; [ apply get_set_same | reflexivity ].
  - destruct (f k0 v0) as [w |]; [ rewrite (get_set_other _ _ _ _ Hne) | ];
      reflexivity.
Qed.

End FoldLookup.

(** Sorting the items of a dictionary keeps its keys distinct and its
    bindings. *)
Lemma sorted_items_distinct {V : Type} (f : string * V -> string) (d : dict V) :
  distinct_keys d -> distinct_keys (D.sorted_by f d).
Proof.
  unfold distinct_keys, D.keys. intros H.
  apply (Permutation_NoDup (l := map fst d)); [ | exact H ].
  apply Permutation_map, Permutation_sym, sort_with_perm.
Qed.

Lemma get_sorted_items {V : Type} (f : string * V -> string) (d : dict V)
  (k : string) :
  distinct_keys d -> D.get k (D.sorted_by f d) = D.get k d.
Proof.
  intros H. pose proof (sorted_items_distinct f d H) as Hs.
  destruct (D.get k d) as [v |] eqn:E.
  - apply (in_items_get _ _ _ Hs). apply in_sort_with.
    apply (in_items_get _ _ _ H), E.
  - destruct (D.get k (D.sorted_by f d)) as [v |] eqn:E'; [ | reflexivity ].
    apply (in_items_get _ _ _ Hs) in E'. apply in_sort_with in E'.
    apply (in_items_get _ _ _ H) in E'. congruence.
Qed.

Lemma existsb_eqb_in (k : string) (ks : list string) :
  In k ks -> existsb (String.eqb k) ks = true.
Proof.
  intros H. apply existsb_exists. exists k. split; [ exact H | ].
  apply String.eqb_refl.
Qed.

(** The block of a contest type in the results of a year. *)
Lemma results_for_year_get (n : Z) (st : state) (y c : string)
  (year_grouped : dict (dict (list entry))) :
  distinct_keys year_grouped ->
  D.get c (results_for_year_of n st y year_grouped) =
    match D.get c year_grouped with
    | Some rows =>
        if Z.of_nat (List.length rows) <? n then None
        else
          let name :=
            D.get_default c ""
              (D.get_default y [] (contest_labels_by_year st)) in
          Some {| contest_key := c ++ "_" ++ y;
                  contest_name := name;
                  results :=
                    county_results_of (county_name_by_key st) name y rows |}
    | None => None
    end.
Proof.
  intros H. unfold results_for_year_of.
  rewrite (get_fold_items
             (fun ct rows =>
                if Z.of_nat (List.length rows) <? n then None
                else
                  let name :=
                    D.get_default ct ""
                      (D.get_default y [] (contest_labels_by_year st)) in
                  Some {| contest_key := ct ++ "_" ++ y;
                          contest_name := name;
                          results :=
                            county_results_of (county_name_by_key st) name y
                                              rows |})).
  - rewrite (get_sorted_items _ _ _ H).
    destruct (D.get c year_grouped) as [rows |]; [ | reflexivity ].
    destruct (Z.of_nat (List.length rows) <? n); reflexivity.
  - intros acc [ct rows]. cbn [fst snd].
    destruct (Z.of_nat (List.length rows) <? n); reflexivity.
  - apply sorted_items_distinct, H.
Qed.

(** The results of a year in the output. *)
Lemma results_by_year_get (n : Z) (st : state) (y : string)
  (year_grouped : dict (dict (list entry))) :
  D.get y (grouped_by_year st) = Some year_grouped ->
  D.get y (results_by_year_of n st) =
    if is_empty year_grouped then None
    else if is_empty (results_for_year_of n st y year_grouped) then None
    else Some (results_for_year_of n st y year_grouped).
Proof.
  intros H. unfold results_by_year_of.
  rewrite (get_fold_keys
             (fun yr =>
                let yg := D.get_default yr [] (grouped_by_year st) in
                if is_empty yg then None
                else if is_empty (results_for_year_of n st yr yg) then None
                else Some (results_for_year_of n st yr yg))).
  - rewrite existsb_eqb_in.
    + cbv beta zeta. unfold D.get_default, PyDict.dict in *. rewrite H.
      cbn [D.get].
      destruct (is_empty year_grouped); [ reflexivity | ].
      destruct (is_empty (results_for_year_of n st y year_grouped)); reflexivity.
    + apply in_sort_with. apply (get_some_in_keys _ _ _ H).
  - intros acc yr. cbn zeta.
    destruct (is_empty (D.get_default yr [] (grouped_by_year st)));
      [ reflexivity | ].
    destruct (is_empty (results_for_year_of n st yr _)); reflexivity.
Qed.

(** C9.  For a year and contest type with records in [rows] counties (the
    county keys of [rows] are distinct): with fewer counties than the
    minimum the output has no block for them, and with the minimum or more
    it has the block of the contest.  The minimum is 20 by default. *)
Theorem sparse_contests_are_dropped (args : Args) (paths : list input_file)
  (st : state) (out : Output) (y c : string) (rows : dict (list entry)) :
  let lookup := load_county_lookup (counties_geojson args) in
  let n := min_counties_per_contest args in
  let counties := Z.of_nat (List.length rows) in
  ingest lookup paths = Ok st ->
  main args paths = Ok out ->
  group_of st y c = Some rows ->
  NoDup (D.keys rows) /\
  (counties < n -> block_of (results_by_year out) y c = None) /\
  (counties = n -> exists b, block_of (results_by_year out) y c = Some b) /\
  (n <= counties ->
   exists b, block_of (results_by_year out) y c = Some b /\
             contest_key b = c ++ "_" ++ y) /\
  default_min_counties_per_contest = 20.
Proof.
  intros lookup n counties Hst Hmain Hg.
  assert (Eout : out = aggregate n st).
  { destruct (main_ok _ _ _ Hmain) as (st' & Hst' & ->).
    fold lookup in Hst'. rewrite Hst in Hst'. injection Hst' as <-.
    reflexivity. }
  subst out.
  pose proof (ingest_well_formed _ _ _ Hst) as [Hd Hall].
  unfold group_of in Hg.
  destruct (D.get y (grouped_by_year st)) as [yg |] eqn:Ey; [ | discriminate ].
  pose proof (all_values_get _ _ _ _ Hall Ey) as [Hyg Hrows].
  pose proof (all_values_get _ _ _ _ Hrows Hg) as Hkeys.
  assert (Hne : is_empty yg = false) by (destruct yg; [ discriminate | reflexivity ]).
  pose proof (results_for_year_get n st y c yg Hyg) as Hc. rewrite Hg in Hc.
  pose proof (results_by_year_get n st y yg Ey) as Hy. rewrite Hne in Hy.
  assert (Hpresent : n <= counties ->
            exists b, block_of (results_by_year (aggregate n st)) y c = Some b /\
                      contest_key b = c ++ "_" ++ y).
  { intros Hle. fold counties in Hc.
    destruct (Z.ltb_spec counties n) as [Hlt | _]; [ lia | ].
    cbv zeta in Hc. eexists. split.
    - unfold block_of, aggregate. cbn [results_by_year]. rewrite Hy.
      destruct (results_for_year_of n st y yg) as [| item rfy] eqn:Er;
        [ discriminate | ].
      cbn [is_empty]. exact Hc.
    - reflexivity. }
  split; [ exact Hkeys | ]. split; [ | split; [ | split ] ].
  - intros Hlt. fold counties in Hc.
    destruct (Z.ltb_spec counties n) as [_ | Hge]; [ | lia ].
    unfold block_of, aggregate. cbn [results_by_year]. rewrite Hy.
    destruct (is_empty (results_for_year_of n st y yg)); [ reflexivity | ].
    exact Hc.
  - intros Heq. destruct (Hpresent ltac:(lia)) as (b & Hb & _).
    exists b. exact Hb.
  - exact Hpresent.
  - reflexivity.
Qed.

(** With a minimum of two counties: the presidential contest has records in
    two counties and is kept, the contest for governor has records in one
    county and is dropped. *)
Lemma sparse_contests_are_dropped_witness :
  exists out,
    main (args_min 2)
      [file_2020 [mkrow "Kanawha" "PRESIDENT" "DEM" "Jane Doe" "100";
                  mkrow "Cabell" "PRESIDENT" "DEM" "Jane Doe" "70";
                  mkrow "Kanawha" "GOVERNOR" "REP" "John Roe" "50"]] = Ok out /\
    block_of (results_by_year out) "2020" "governor" = None /\
    exists b, block_of (results_by_year out) "2020" "president" = Some b.
Proof.
  eexists. split; [ vm_compute; reflexivity | ].
  split.
  - unshelve refine
      (proj1 (proj2
         (sparse_contests_are_dropped (args_min 2)
            [file_2020 [mkrow "Kanawha" "PRESIDENT" "DEM" "Jane Doe" "100";
                        mkrow "Cabell" "PRESIDENT" "DEM" "Jane Doe" "70";
                        mkrow "Kanawha" "GOVERNOR" "REP" "John Roe" "50"]]
            _ _ "2020" "governor" [("KANAWHA", [("REP", "John Roe", 50)])]
            _ _ _)) _);
      [ | vm_compute; reflexivity .. ].
  - unshelve refine
      (proj1 (proj2 (proj2
         (sparse_contests_are_dropped (args_min 2)
            [file_2020 [mkrow "Kanawha" "PRESIDENT" "DEM" "Jane Doe" "100";
                        mkrow "Cabell" "PRESIDENT" "DEM" "Jane Doe" "70";
                        mkrow "Kanawha" "GOVERNOR" "REP" "John Roe" "50"]]
            _ _ "2020" "president"
            [("KANAWHA", [("DEM", "Jane Doe", 100)]);
             ("CABELL", [("DEM", "Jane Doe", 70)])] _ _ _))) _);
      [ | vm_compute; reflexivity .. ].
Defined.

(* ================================================================== *)
(** * Further properties: the leading candidate *)
(* ================================================================== *)

Lemma max_by_votes_split (best : string * Z) (l : list (string * Z)) :
  exists pre post,
    best :: l = (pre ++ max_by_votes best l :: post)%list /\
    (forall e, In e pre -> snd e < snd (max_by_votes best l)) /\
    (forall e, In e post -> snd e <= snd (max_by_votes best l)).
Proof.
  revert best. induction l as [| x l IH]; intros best.
  - exists [], []. cbn. repeat split; intros e [].
  - cbn [max_by_votes]. destruct (Z.ltb_spec (snd best) (snd x)) as [Hlt | Hge].
    + destruct (IH x) as (pre & post & E & Hpre & Hpost).
      exists (best :: pre), post. split; [ cbn; f_equal; exact E | ].
      split; [ | exact Hpost ].
      intros e [<- | He]; [ | apply Hpre, He ].
      destruct pre as [| x' pre'].
      * cbn in E. injection E as E _. rewrite <- E. exact Hlt.
      * cbn in E. injection E as E _. subst x'.
        pose proof (Hpre x (or_introl eq_refl)). lia.
    + destruct (IH best) as (pre & post & E & Hpre & Hpost).
      destruct pre as [| b' pre'].
      * cbn in E. injection E as E1 E2.
        exists [], (x :: post). split; [ cbn; congruence | ].
        split; [ intros e [] | ].
        intros e [<- | He]; [ rewrite <- E1; exact Hge | apply Hpost, He ].
      * cbn in E. injection E as E1 E2. subst b'.
        exists (best :: x :: pre'), post.
        split; [ cbn; do 2 f_equal; exact E2 | ].
        split; [ | exact Hpost ].
        pose proof (Hpre best (or_introl eq_refl)) as Hb.
        intros e [<- | [<- | He]]; [ exact Hb | lia | ].
        apply Hpre. right. exact He.
Qed.

(** [pick_top_candidate] gives the empty string for no entry; otherwise it
    gives the candidate of an entry whose votes are the greatest, and of
    the first such entry: every entry before it has fewer votes. *)
Theorem pick_top_candidate_first_maximum (entries : list (string * Z)) :
  match entries with
  | [] => pick_top_candidate entries = ""
  | _ =>
      exists pre v post,
        entries = (pre ++ (pick_top_candidate entries, v) :: post)%list /\
        (forall e, In e pre -> snd e < v) /\
        (forall e, In e post -> snd e <= v)
  end.
Proof.
  destruct entries as [| x l]; [ reflexivity | ].
  destruct (max_by_votes_split x l) as (pre & post & E & Hpre & Hpost).
  exists pre, (snd (max_by_votes x l)), post.
  cbn [pick_top_candidate]. rewrite <- surjective_pairing.
  repeat split; assumption.
Qed.

(* ================================================================== *)
(** * Further properties: the classifier *)
(* ================================================================== *)

(** The party field follows the sign of the margin, whatever the tier. *)
Lemma party_of_margin (x : PyFloat.float) :
  party (compute_competitiveness x) =
    if PyFloat.ltb zero x then "Democratic"
    else if PyFloat.ltb x zero then "Republican"
    else "Tossup".
Proof.
  unfold compute_competitiveness.
  destruct (PyFloat.ltb zero x); destruct (PyFloat.ltb x zero);
    destruct (PyFloat.leb (PyFloat.literal "40") (PyFloat.abs x));
    destruct (PyFloat.leb (PyFloat.literal "30") (PyFloat.abs x));
    destruct (PyFloat.leb (PyFloat.literal "20") (PyFloat.abs x));
    destruct (PyFloat.leb (PyFloat.literal "10") (PyFloat.abs x));
    destruct (PyFloat.ltb (PyFloat.literal "5.5") (PyFloat.abs x));
    destruct (PyFloat.ltb (PyFloat.literal "0.99") (PyFloat.abs x));
    destruct (PyFloat.leb (PyFloat.literal "0.5") (PyFloat.abs x));
    reflexivity.
Qed.

(** The classifier returns one of seventeen fixed classifications, and among
    these the code, the category and the colour determine one another. *)
Theorem classifier_range (x y : PyFloat.float) :
  let a := compute_competitiveness x in
  let b := compute_competitiveness y in
  In a classifications /\
  (code a = code b <-> category a = category b) /\
  (code a = code b <-> color a = color b).
Proof.
  assert (R : forall z, In (compute_competitiveness z) classifications).
  { intros z. unfold compute_competitiveness, classifications, classification.
    destruct (PyFloat.ltb zero z); destruct (PyFloat.ltb z zero);
      destruct (PyFloat.leb (PyFloat.literal "40") (PyFloat.abs z));
      destruct (PyFloat.leb (PyFloat.literal "30") (PyFloat.abs z));
      destruct (PyFloat.leb (PyFloat.literal "20") (PyFloat.abs z));
      destruct (PyFloat.leb (PyFloat.literal "10") (PyFloat.abs z));
      destruct (PyFloat.ltb (PyFloat.literal "5.5") (PyFloat.abs z));
      destruct (PyFloat.ltb (PyFloat.literal "0.99") (PyFloat.abs z));
      destruct (PyFloat.leb (PyFloat.literal "0.5") (PyFloat.abs z));
      cbn; tauto. }
  intros a b. split; [ apply R | ].
  pose proof (R x) as Ha. pose proof (R y) as Hb. fold a in Ha. fold b in Hb.
  clearbody a b. unfold classifications, classification in Ha, Hb.
  cbn [In] in Ha, Hb.
  repeat (destruct Ha as [<- | Ha]; [ | ]); try contradiction;
    repeat (destruct Hb as [<- | Hb]; [ | ]); try contradiction;
    cbn [code category color]; split; split; intros E;
    first [ reflexivity | discriminate E ].
Qed.

Lemma abs_opp (x : PyFloat.float) : PyFloat.abs (SFopp x) = PyFloat.abs x.
Proof. destruct x; reflexivity. Qed.

Lemma ltb_opp (x : PyFloat.float) :
  PyFloat.ltb zero (SFopp x) = PyFloat.ltb x zero /\
  PyFloat.ltb (SFopp x) zero = PyFloat.ltb zero x.
Proof. destruct x as [s | s | | s m e]; try destruct s; split; reflexivity. Qed.

(** Negating the margin keeps the tier and exchanges the parties. *)
Theorem classifier_mirror (x : PyFloat.float) :
  let a := compute_competitiveness x in
  let b := compute_competitiveness (SFopp x) in
  tier (SFopp x) = tier x /\
  (party b = "Republican" <-> party a = "Democratic") /\
  (party b = "Democratic" <-> party a = "Republican") /\
  (party b = "Tossup" <-> party a = "Tossup").
Proof.
  cbv zeta. split.
  - rewrite !tier_cases. cbv zeta. rewrite abs_opp. reflexivity.
  - rewrite !party_of_margin. destruct (ltb_opp x) as [-> ->].
    destruct (PyFloat.ltb zero x) eqn:Ep; destruct (PyFloat.ltb x zero) eqn:En;
      repeat split; intros E; first [ reflexivity | discriminate E | idtac ].
    (* a margin is not both above and below zero *)
    all: exfalso; destruct x as [s | s | | s m e]; try destruct s;
      cbn in Ep, En; discriminate.
Qed.

(** *** Signs of the floats of a county result *)

Lemma binary_round_aux_sign (sx : bool) (mx ex : Z) (lx : location) :
  has_sign sx (binary_round_aux PyFloat.prec PyFloat.emax sx mx ex lx).
Proof.
  unfold binary_round_aux.
  destruct (shr_fexp PyFloat.prec PyFloat.emax mx ex lx) as [mrs e'].
  destruct (shr_fexp PyFloat.prec PyFloat.emax _ e' loc_Exact) as [mrs' e''].
  destruct (shr_m mrs') as [| m | m];
    [ reflexivity | | exact I ].
  match goal with
  | |- context [if ?t then _ else _] => destruct t
  end; reflexivity.
Qed.

Lemma of_ratio_sign (neg : bool) (p q : positive) :
  has_sign neg (PyFloat.of_ratio neg p q).
Proof.
  unfold PyFloat.of_ratio.
  destruct (SFdiv_core_binary _ _ _ _ _ _) as [[mz ez] lz].
  apply binary_round_aux_sign.
Qed.

Lemma truediv_sign (a b : Z) :
  has_sign (xorb (a <? 0) (b <? 0)) (PyFloat.truediv a b).
Proof.
  unfold PyFloat.truediv.
  destruct (Z.abs a); destruct (Z.abs b);
    first [ apply of_ratio_sign | cbn; reflexivity ].
Qed.

Lemma truediv_zero (b : Z) : is_zero (PyFloat.truediv 0 b).
Proof. unfold PyFloat.truediv. cbn. exact I. Qed.

Lemma hundred_value :
  PyFloat.literal "100.0" = S754_finite false 7036874417766400 (-46).
Proof. vm_compute. reflexivity. Qed.

Lemma mul_hundred_sign (neg : bool) (x : PyFloat.float) :
  has_sign neg x -> has_sign neg (PyFloat.mul x (PyFloat.literal "100.0")).
Proof.
  rewrite hundred_value. unfold PyFloat.mul.
  destruct x as [s | s | | s m e]; cbn [SFmul has_sign]; intros H;
    try (subst; destruct neg; reflexivity); try exact I.
  subst s. replace neg with (xorb neg false) at 1 by (destruct neg; reflexivity).
  apply binary_round_aux_sign.
Qed.

Lemma mul_hundred_zero (x : PyFloat.float) :
  is_zero x -> is_zero (PyFloat.mul x (PyFloat.literal "100.0")).
Proof.
  rewrite hundred_value. destruct x; cbn; intros H; try contradiction.
  exact I.
Qed.

Lemma round2_sign (neg : bool) (x : PyFloat.float) :
  has_sign neg x -> has_sign neg (PyFloat.round2 x).
Proof.
  destruct x as [s | s | | s m e]; cbn [PyFloat.round2]; auto.
  cbn [has_sign]. intros ->.
  destruct (if 0 <=? e then _ else _); try reflexivity.
  apply of_ratio_sign.
Qed.

Lemma round2_zero (x : PyFloat.float) : is_zero x -> is_zero (PyFloat.round2 x).
Proof. destruct x; cbn; intros H; try contradiction; exact I. Qed.

Lemma not_below_zero (x : PyFloat.float) :
  has_sign false x -> PyFloat.ltb x zero = false.
Proof. destruct x as [s | s | | s m e]; cbn; try intros ->; reflexivity. Qed.

Lemma not_above_zero (x : PyFloat.float) :
  has_sign true x -> PyFloat.ltb zero x = false.
Proof. destruct x as [s | s | | s m e]; cbn; try intros ->; reflexivity. Qed.

Lemma zero_is_tossup (x : PyFloat.float) :
  is_zero x ->
  compute_competitiveness x = classification "Tossup" "Tossup" "T_TOSSUP" "#f7f7f7".
Proof. destruct x as [s | | |]; try contradiction. intros _. destruct s; reflexivity. Qed.

Section CountyResultSigns.

Variables (cn y c : string) (es : list entry).
Let r := county_result cn y c es.

(** The margin percentage has the sign of the quotient of the margin by the
    two-party total. *)
Lemma margin_pct_sign :
  two_party_total r <> 0 ->
  has_sign (xorb (margin r <? 0) (two_party_total r <? 0)) (margin_pct r).
Proof.
  unfold r. cbn [two_party_total margin margin_pct county_result].
  intros H. apply Z.eqb_neq in H. rewrite H. cbn [negb].
  apply round2_sign, mul_hundred_sign, truediv_sign.
Qed.

Lemma margin_pct_of_tie : margin r = 0 -> is_zero (margin_pct r).
Proof.
  unfold r. cbn [margin margin_pct county_result]. intros ->.
  destruct (negb _); [ | exact I ].
  apply round2_zero, mul_hundred_zero, truediv_zero.
Qed.

Lemma competitiveness_of_margin_pct :
  competitiveness r = compute_competitiveness (margin_pct r).
Proof. reflexivity. Qed.

End CountyResultSigns.

(* ================================================================== *)
(** * Further properties: the winner and the classification *)
(* ================================================================== *)

(** With no negative vote field, the classification of a county never names
    the party that lost it: a county won by DEM is not classified
    Republican and a county won by REP is not classified Democratic. *)
Theorem classification_agrees_with_winner (args : Args)
  (paths : list input_file) (out : Output) (r : CountyContestResult) :
  main args paths = Ok out ->
  in_output r out ->
  nonneg_inputs paths ->
  (winner r = "DEM" -> party (competitiveness r) <> "Republican") /\
  (winner r = "REP" -> party (competitiveness r) <> "Democratic").
Proof.
  intros Hmain Hin Hnn.
  destruct (main_ok _ _ _ Hmain) as (st & Hst & ->).
  destruct (in_output_from_entries nonneg_entries (Forall_nil _) _ _ _
              (ingest_nonneg _ _ _ Hnn Hst) Hin)
    as (cn & y & c & es & -> & Hes).
  pose proof (county_result_nonneg cn y c es Hes) as (Hd & Hp & _).
  pose proof (county_result_winner cn y c es) as (Wd & Wr & _).
  pose proof (county_result_two_party cn y c es) as (Etp & Em).
  pose proof (margin_pct_sign cn y c es) as Hsign.
  rewrite competitiveness_of_margin_pct, party_of_margin.
  set (r := county_result cn y c es) in *.
  split; intros W.
  - apply Wd in W.
    assert (Hs : has_sign false (margin_pct r)).
    { replace false with (xorb (margin r <? 0) (two_party_total r <? 0)).
      - apply Hsign. lia.
      - destruct (Z.ltb_spec (margin r) 0); [ lia | ].
        destruct (Z.ltb_spec (two_party_total r) 0); [ lia | reflexivity ]. }
    rewrite (not_below_zero _ Hs).
    destruct (PyFloat.ltb zero (margin_pct r)); discriminate.
  - apply Wr in W.
    assert (Hs : has_sign true (margin_pct r)).
    { replace true with (xorb (margin r <? 0) (two_party_total r <? 0)).
      - apply Hsign. lia.
      - destruct (Z.ltb_spec (margin r) 0); [ | lia ].
        destruct (Z.ltb_spec (two_party_total r) 0); [ lia | reflexivity ]. }
    rewrite (not_above_zero _ Hs).
    destruct (PyFloat.ltb (margin_pct r) zero); discriminate.
Qed.

Lemma classification_agrees_with_winner_witness :
  exists out r,
    main (args_min 1)
      [file_2020 [mkrow "Kanawha" "PRESIDENT" "DEM" "Jane Doe" "100";
                  mkrow "Kanawha" "PRESIDENT" "REP" "John Roe" "50"]] = Ok out /\
    in_output r out /\
    winner r = "DEM" /\
    party (competitiveness r) <> "Republican".
Proof.
  eexists. eexists. split; [ vm_compute; reflexivity | ].
  split; [ exists "2020", "president"; eexists; exists "Kanawha";
           split; vm_compute; reflexivity | ].
  split; [ vm_compute; reflexivity | ].
  refine (proj1 (classification_agrees_with_winner (args_min 1)
      [file_2020 [mkrow "Kanawha" "PRESIDENT" "DEM" "Jane Doe" "100";
                  mkrow "Kanawha" "PRESIDENT" "REP" "John Roe" "50"]]
      _ _ _ _ _) _).
  - vm_compute. reflexivity.
  - exists "2020", "president". eexists. exists "Kanawha".
    split; vm_compute; reflexivity.
  - intros f r z [<- | []] Hr. cbn [file_rows file_2020] in Hr.
    destruct Hr as [<- | [<- | []]]; intros H; vm_compute in H;
      injection H as H; subst z; lia.
  - vm_compute. reflexivity.
Defined.

(** The hypothesis is needed: with the Republican votes field -10 against 5
    Democratic votes, the winner is DEM and the classification is
    Republican. *)
Example negative_votes_flip_the_classification :
  match main (args_min 1)
          [file_2020 [mkrow "Kanawha" "PRESIDENT" "DEM" "Jane Doe" "5";
                      mkrow "Kanawha" "PRESIDENT" "REP" "John Roe" "-10"]] with
  | Ok out =>
      map (fun r => (winner r, code (competitiveness r)))
          (county_results_list out) = [("DEM", "R_ANNIHILATION")]
  | Err _ => False
  end.
Proof. vm_compute. reflexivity. Qed.

(** A tied county is a tossup, whatever the votes: its margin percentage is
    a zero and its classification is the tossup with the party Tossup. *)
Theorem tie_is_tossup (args : Args) (paths : list input_file) (out : Output)
  (r : CountyContestResult) :
  main args paths = Ok out ->
  in_output r out ->
  winner r = "TIE" ->
  is_zero (margin_pct r) /\
  competitiveness r = classification "Tossup" "Tossup" "T_TOSSUP" "#f7f7f7".
Proof.
  intros Hmain Hin W.
  destruct (main_ok _ _ _ Hmain) as (st & Hst & ->).
  destruct (in_output_from_entries (fun _ => True) I _ _ _
              (all_entries_trivial _) Hin) as (cn & y & c & es & -> & _).
  pose proof (county_result_winner cn y c es) as (_ & _ & Wt).
  apply Wt in W.
  pose proof (margin_pct_of_tie cn y c es W) as Hz.
  split; [ exact Hz | ].
  rewrite competitiveness_of_margin_pct. apply zero_is_tossup, Hz.
Qed.

Lemma tie_is_tossup_witness :
  exists out r,
    main (args_min 1)
      [file_2020 [mkrow "Kanawha" "PRESIDENT" "DEM" "Jane Doe" "10";
                  mkrow "Kanawha" "PRESIDENT" "REP" "John Roe" "10"]] = Ok out /\
    in_output r out /\
    competitiveness r = classification "Tossup" "Tossup" "T_TOSSUP" "#f7f7f7".
Proof.
  eexists. eexists. split; [ vm_compute; reflexivity | ].
  split; [ exists "2020", "president"; eexists; exists "Kanawha";
           split; vm_compute; reflexivity | ].
  refine (proj2 (tie_is_tossup (args_min 1)
      [file_2020 [mkrow "Kanawha" "PRESIDENT" "DEM" "Jane Doe" "10";
                  mkrow "Kanawha" "PRESIDENT" "REP" "John Roe" "10"]]
      _ _ _ _ _)).
  - vm_compute. reflexivity.
  - exists "2020", "president". eexists. exists "Kanawha".
    split; vm_compute; reflexivity.
  - vm_compute. reflexivity.
Defined.

(* ================================================================== *)
(** * Further properties: rows and records *)
(* ================================================================== *)

Lemma nonempty_true (s : string) : nonempty s = true -> s <> "".
Proof. destruct s; [ discriminate | intros _; discriminate ]. Qed.

Lemma negb_nonempty_false (s : string) : negb (nonempty s) = false -> s <> "".
Proof. intros H. apply nonempty_true. destruct (nonempty s); [ reflexivity | discriminate ]. Qed.

(** What a kept row tells of its record. *)
Lemma ingest_row_fields (lookup : dict string) (name : string) (r : row)
  (v : vote_record) :
  ingest_row lookup name r = Ok (Some v) ->
  let raw := if nonempty (strip (field "county" r))
             then strip (field "county" r)
             else infer_county_from_filename name in
  vr_county v = canonicalize_county_name raw lookup /\
  vr_county v <> "" /\
  vr_ckey v = county_key (vr_county v) /\
  vr_ckey v <> "" /\
  D.get (normalize_office (field "office" r)) OFFICE_MAP
    = Some (vr_contest_type v, vr_contest_name v) /\
  vr_party v = normalize_party (field "party" r) /\
  vr_candidate v = normalize_candidate_name (field "candidate" r) /\
  vr_candidate v <> "" /\
  extract_votes r = Ok (vr_votes v).
Proof.
  unfold ingest_row. destruct (extract_votes r) as [z | e]; cbn [bind];
    [ | discriminate ].
  destruct (negb (nonempty (canonicalize_county_name _ lookup))) eqn:E1;
    [ discriminate | ].
  destruct (D.get (normalize_office (field "office" r)) OFFICE_MAP)
    as [[ct cname] |] eqn:E2; [ | discriminate ].
  destruct (negb (nonempty (normalize_candidate_name (field "candidate" r))))
    eqn:E3; [ discriminate | ].
  destruct (negb (nonempty (county_key _))) eqn:E4; [ discriminate | ].
  intros H. injection H as <-. cbn.
  repeat split; try reflexivity; apply negb_nonempty_false; assumption.
Qed.

Lemma canonical_from_lookup (raw : string) (lookup : dict string) :
  lookup <> [] ->
  canonicalize_county_name raw lookup <> "" ->
  exists token, D.get token lookup = Some (canonicalize_county_name raw lookup).
Proof.
  unfold canonicalize_county_name. intros Hl.
  destruct (negb (nonempty (normalize_county_name raw))); [ congruence | ].
  destruct lookup as [| kv lookup']; [ congruence | ].
  set (l := kv :: lookup'). set (t := D.get_default _ _ COUNTY_ALIASES).
  unfold D.get_default. destruct (D.get t l) as [n |] eqn:E; [ | congruence ].
  intros _. exists t. exact E.
Qed.

(** A record kept by [ingest_row] has a county, a county key and a
    candidate that are not empty, the county key is the key of its county,
    its contest type and name are those of an entry of [OFFICE_MAP], and
    with a county reference its county is a name of the reference, never
    the spelling of the row. *)
Theorem kept_records_are_complete (lookup : dict string) (name : string)
  (r : row) (v : vote_record) :
  ingest_row lookup name r = Ok (Some v) ->
  vr_county v <> "" /\
  vr_candidate v <> "" /\
  vr_ckey v <> "" /\
  vr_ckey v = county_key (vr_county v) /\
  In (vr_contest_type v, vr_contest_name v) (map snd OFFICE_MAP) /\
  (lookup <> [] -> exists token, D.get token lookup = Some (vr_county v)).
Proof.
  intros H.
  destruct (ingest_row_fields _ _ _ _ H)
    as (Ec & Hc & Ek & Hk & Ho & _ & _ & Hn & _).
  repeat split; try assumption.
  - apply get_some_in in Ho. apply (in_map snd) in Ho. exact Ho.
  - intros Hl. rewrite Ec in Hc |- *. apply canonical_from_lookup; assumption.
Qed.

Lemma kept_records_are_complete_witness :
  exists v,
    ingest_row [("kanawha", "Kanawha")] "20201103__wv__general__county.csv"
      (mkrow "KANAWHA COUNTY" "U.S. Senate" "D" "jane  doe" "1,200") = Ok (Some v) /\
    vr_county v = "Kanawha" /\
    In (vr_contest_type v, vr_contest_name v) (map snd OFFICE_MAP) /\
    exists token, D.get token [("kanawha", "Kanawha")] = Some (vr_county v).
Proof.
  eexists. split; [ vm_compute; reflexivity | ].
  split; [ reflexivity | ].
  refine ((fun T => conj (proj1 (proj2 (proj2 (proj2 (proj2 T))))) 
                         (proj2 (proj2 (proj2 (proj2 (proj2 T)))) _))
            (kept_records_are_complete [("kanawha", "Kanawha")]
               "20201103__wv__general__county.csv"
               (mkrow "KANAWHA COUNTY" "U.S. Senate" "D" "jane  doe" "1,200")
               _ _)).
  - discriminate.
  - vm_compute. reflexivity.
Defined.

(** *** The votes column *)

Lemma get_lowered_from (k : string) (r : row) (d : dict string) :
  D.get k (fold_left (fun d kv => D.set (lower (strip (fst kv))) (snd kv) d) r d)
  = fold_left (fun acc kv => if String.eqb k (header (fst kv)) then Some (snd kv) else acc)
              r (D.get k d).
Proof.
  revert d. induction r as [| [k0 v0] r IH]; intros d; [ reflexivity | ].
  cbn [fold_left fst snd]. rewrite IH, get_set. reflexivity.
Qed.

Lemma get_lowered (k : string) (r : row) :
  D.get k (lowered r) = last_field k r.
Proof. apply (get_lowered_from k r []). Qed.

Lemma last_field_from (k : string) (r : row) (acc : option string) :
  let pick := fun acc kv =>
                if String.eqb k (header (fst kv)) then Some (snd kv) else acc in
  (fold_left pick r acc = acc /\ forall kv, In kv r -> header (fst kv) <> k) \/
  (exists kv, In kv r /\ header (fst kv) = k /\
              fold_left pick r acc = Some (snd kv)).
Proof.
  cbv zeta. revert acc. induction r as [| [k0 v0] r IH]; intros acc.
  - left. split; [ reflexivity | intros kv [] ].
  - cbn [fold_left fst snd].
    destruct (String.eqb_spec k (header k0)) as [E | Hne].
    + destruct (IH (Some v0)) as [[E' Hno] | (kv & Hin & Hk & E')].
      * right. exists (k0, v0). split; [ left; reflexivity | ].
        split; [ symmetry; exact E | exact E' ].
      * right. exists kv. split; [ right; exact Hin | ]. split; assumption.
    + destruct (IH acc) as [[E' Hno] | (kv & Hin & Hk & E')].
      * left. split; [ exact E' | ].
        intros kv [<- | Hin]; [ | apply Hno, Hin ].
        cbn [fst]. intros E. apply Hne. symmetry. exact E.
      * right. exists kv. split; [ right; exact Hin | ]. split; assumption.
Qed.

Lemma last_field_none (k : string) (r : row) :
  (forall kv, In kv r -> header (fst kv) <> k) -> last_field k r = None.
Proof.
  intros H. unfold last_field.
  destruct (last_field_from k r None) as [[E _] | (kv & Hin & Hk & _)];
    [ exact E | ].
  exfalso. apply (H kv Hin Hk).
Qed.

Lemma last_field_some (k : string) (r : row) (kv : string * string) :
  In kv r -> header (fst kv) = k ->
  exists kv', In kv' r /\ header (fst kv') = k /\ last_field k r = Some (snd kv').
Proof.
  intros Hin Hk. unfold last_field.
  destruct (last_field_from k r None) as [[_ Hno] | H]; [ | exact H ].
  exfalso. apply (Hno kv Hin Hk).
Qed.

(** [extract_votes] reads the column whose header, trimmed and lower-cased,
    is votes, else the column total votes, else the column total_votes; a
    row with none of the three has zero votes and raises nothing. *)
Theorem extract_votes_columns (r : row) :
  ((forall kv, In kv r ->
      header (fst kv) <> "votes" /\ header (fst kv) <> "total votes" /\
      header (fst kv) <> "total_votes") ->
   extract_votes r = Ok 0) /\
  (forall k v,
     In (k, v) r -> header k = "votes" ->
     (forall k' v', In (k', v') r -> header k' = "votes" -> v' = v) ->
     extract_votes r = to_int v) /\
  (forall k v,
     (forall kv, In kv r -> header (fst kv) <> "votes") ->
     In (k, v) r -> header k = "total votes" ->
     (forall k' v', In (k', v') r -> header k' = "total votes" -> v' = v) ->
     extract_votes r = to_int v) /\
  (forall k v,
     (forall kv, In kv r ->
        header (fst kv) <> "votes" /\ header (fst kv) <> "total votes") ->
     In (k, v) r -> header k = "total_votes" ->
     (forall k' v', In (k', v') r -> header k' = "total_votes" -> v' = v) ->
     extract_votes r = to_int v).
Proof.
  unfold extract_votes. rewrite !get_lowered. split; [ | split; [ | split ] ].
  - intros H.
    rewrite !last_field_none; [ reflexivity | | | ]; intros kv Hin;
      apply (H kv Hin).
  - intros k v Hin Hk Hall.
    destruct (last_field_some "votes" r (k, v) Hin Hk)
      as ([k' v'] & Hin' & Hk' & ->).
    cbn [snd]. rewrite (Hall k' v' Hin' Hk'). reflexivity.
  - intros k v Hno Hin Hk Hall.
    rewrite (last_field_none "votes" r Hno).
    destruct (last_field_some "total votes" r (k, v) Hin Hk)
      as ([k' v'] & Hin' & Hk' & ->).
    cbn [snd]. rewrite (Hall k' v' Hin' Hk'). reflexivity.
  - intros k v Hno Hin Hk Hall.
    rewrite (last_field_none "votes" r (fun kv H => proj1 (Hno kv H))).
    rewrite (last_field_none "total votes" r (fun kv H => proj2 (Hno kv H))).
    destruct (last_field_some "total_votes" r (k, v) Hin Hk)
      as ([k' v'] & Hin' & Hk' & ->).
    cbn [snd]. rewrite (Hall k' v' Hin' Hk'). reflexivity.
Qed.

Lemma extract_votes_columns_witness :
  extract_votes [("county", "Kanawha"); ("office", "Governor")] = Ok 0 /\
  extract_votes [("county", "Kanawha"); (" Votes ", "1,234"); ("total votes", "9")]
    = to_int "1,234" /\
  extract_votes [("county", "Kanawha"); ("TOTAL VOTES", "77"); ("total_votes", "9")]
    = to_int "77" /\
  extract_votes [("county", "Kanawha"); ("Total_Votes ", "1,050"); ("vote", "9")]
    = to_int "1,050".
Proof.
  split; [ | split; [ | split ] ].
  - apply (proj1 (extract_votes_columns _)).
    intros kv [<- | [<- | []]]; repeat split; discriminate.
  - apply (proj1 (proj2 (extract_votes_columns _)) " Votes " "1,234").
    + right. left. reflexivity.
    + reflexivity.
    + intros k' v' [E | [E | [E | []]]]; injection E as <- <-;
        intros H; first [ reflexivity | discriminate H ].
  - apply (proj1 (proj2 (proj2 (extract_votes_columns _))) "TOTAL VOTES" "77").
    + intros kv [<- | [<- | [<- | []]]]; discriminate.
    + right. left. reflexivity.
    + reflexivity.
    + intros k' v' [E | [E | [E | []]]]; injection E as <- <-;
        intros H; first [ reflexivity | discriminate H ].
  - apply (proj2 (proj2 (proj2 (extract_votes_columns _))) "Total_Votes " "1,050").
    + intros kv [<- | [<- | [<- | []]]]; split; discriminate.
    + right. left. reflexivity.
    + reflexivity.
    + intros k' v' [E | [E | [E | []]]]; injection E as <- <-;
        intros H; first [ reflexivity | discriminate H ].
Defined.

(* ================================================================== *)
(** * Further properties: the state after the ingestion *)
(* ================================================================== *)

Section UpdateFacts.

Context {V : Type}.

Lemma get_update (k k' : string) (default : V) (f : V -> V) (d : dict V) :
  D.get k (update k' default f d) =
    if String.eqb k k' then Some (f (D.get_default k' default d))
    else D.get k d.
Proof. unfold update. apply get_set. Qed.

Lemma get_default_nil (k : string) (default : V) :
  D.get_default k default ([] : dict V) = default.
Proof. reflexivity. Qed.

Lemma get_default_some (k : string) (default v : V) (d : dict V) :
  D.get k d = Some v -> D.get_default k default d = v.
Proof. unfold D.get_default. intros ->. reflexivity. Qed.

Lemma get_default_none (k : string) (default : V) (d : dict V) :
  D.get k d = None -> D.get_default k default d = default.
Proof. unfold D.get_default. intros ->. reflexivity. Qed.

End UpdateFacts.

(** The entries of a grouping after an entry is appended at [(y0, c0, k0)]. *)
Lemma entries_at_append (g : dict (dict (dict (list entry))))
  (y0 c0 k0 : string) (e : entry) (y c k : string) :
  entries_at
    (update y0 [] (update c0 [] (update k0 [] (fun l => (l ++ [e])%list))) g)
    y c k =
  if (String.eqb y y0 && String.eqb c c0 && String.eqb k k0)%bool
  then Some ((match entries_at g y0 c0 k0 with Some l => l | None => [] end)
               ++ [e])%list
  else entries_at g y c k.
Proof.
  unfold entries_at. rewrite get_update.
  destruct (String.eqb_spec y y0) as [-> | Hy]; cbn [andb]; [ | reflexivity ].
  rewrite get_update.
  destruct (D.get y0 g) as [yg |] eqn:Ey.
  - rewrite (get_default_some _ _ _ _ Ey).
    destruct (String.eqb_spec c c0) as [-> | Hc]; cbn [andb]; [ | reflexivity ].
    rewrite get_update.
    destruct (D.get c0 yg) as [rows |] eqn:Ec.
    + rewrite (get_default_some _ _ _ _ Ec).
      destruct (String.eqb_spec k k0) as [-> | Hk]; [ | reflexivity ].
      unfold D.get_default. destruct (D.get k0 rows); reflexivity.
    + rewrite (get_default_none _ _ _ Ec).
      destruct (String.eqb_spec k k0) as [-> | Hk]; reflexivity.
  - rewrite (get_default_none _ _ _ Ey).
    destruct (String.eqb_spec c c0) as [-> | Hc]; cbn [andb]; [ | reflexivity ].
    rewrite get_update. cbn.
    destruct (String.eqb_spec k k0) as [-> | Hk]; reflexivity.
Qed.

Lemma seen_false_not_in (k : dedupe_key) (s : list dedupe_key) :
  seen k s = false -> seen k s <> true.
Proof. intros ->. discriminate. Qed.

Lemma accept_deduplicated (yr : string) (st : state) (v : vote_record) :
  deduplicated st -> deduplicated (accept yr st v).
Proof.
  intros J. unfold deduplicated in *. unfold accept.
  destruct (seen (key_of yr v) (seen_entries st)) eqn:Es;
    cbn [grouped_by_year seen_entries]; [ exact J | ].
  intros y c k es. rewrite entries_at_append.
  destruct (String.eqb_spec y yr) as [-> | Hy]; cbn [andb].
  2:{ intros H. destruct (J y c k es H) as [Hnd Hin].
      split; [ exact Hnd | ]. intros p n z Hp. apply seen_tail, Hin, Hp. }
  destruct (String.eqb_spec c (vr_contest_type v)) as [-> | Hc]; cbn [andb].
  2:{ intros H. destruct (J yr c k es H) as [Hnd Hin].
      split; [ exact Hnd | ]. intros p n z Hp. apply seen_tail, Hin, Hp. }
  destruct (String.eqb_spec k (vr_ckey v)) as [-> | Hk].
  2:{ intros H. destruct (J yr _ k es H) as [Hnd Hin].
      split; [ exact Hnd | ]. intros p n z Hp. apply seen_tail, Hin, Hp. }
  intros H. injection H as <-.
  assert (Hold : NoDup (match entries_at (grouped_by_year st) yr
                                (vr_contest_type v) (vr_ckey v) with
                        | Some l => l | None => [] end) /\
                 forall p n z,
                   In (p, n, z) (match entries_at (grouped_by_year st) yr
                                       (vr_contest_type v) (vr_ckey v) with
                                 | Some l => l | None => [] end) ->
                   seen (yr, vr_contest_type v, vr_ckey v, p, n, z)
                        (seen_entries st) = true).
  { destruct (entries_at (grouped_by_year st) yr (vr_contest_type v) (vr_ckey v))
      as [old |] eqn:Eo.
    - apply (J _ _ _ _ Eo).
    - split; [ constructor | intros p n z [] ]. }
  destruct Hold as [Hnd Hin]. split.
  - apply NoDup_app; [ exact Hnd | constructor; [ intros [] | constructor ] | ].
    intros [[p n] z] Hp [E | []]. injection E as <- <- <-.
    apply Hin in Hp. unfold key_of in Es. congruence.
  - intros p n z Hp. apply in_app_or in Hp. destruct Hp as [Hp | [E | []]].
    + apply seen_tail, Hin, Hp.
    + injection E as <- <- <-. apply seen_head.
Qed.

Lemma ingest_deduplicated (lookup : dict string) (paths : list input_file)
  (st : state) :
  ingest lookup paths = Ok st -> deduplicated st.
Proof.
  apply (ingest_invariant deduplicated).
  - intros y c k es H. discriminate.
  - intros f r v yr s _ _ _ Hs. apply accept_deduplicated, Hs.
Qed.

Lemma get_default_update {V : Type} (k k' : string) (f : V -> V) (default : V)
  (d : dict V) :
  D.get_default k default (update k' default f d) =
    if String.eqb k k' then f (D.get_default k' default d)
    else D.get_default k default d.
Proof.
  unfold D.get_default at 1. rewrite get_update.
  destruct (String.eqb k k'); reflexivity.
Qed.

(** The county rows of a grouping after an update at [(y0, c0)]. *)
Lemma group_after_update (g : dict (dict (dict (list entry))))
  (y0 c0 : string) (F : dict (list entry) -> dict (list entry)) (y c : string) :
  (String.eqb y y0 && String.eqb c c0)%bool = false ->
  match D.get y (update y0 [] (update c0 [] F) g) with
  | Some yg => D.get c yg
  | None => None
  end =
  match D.get y g with
  | Some yg => D.get c yg
  | None => None
  end.
Proof.
  intros H. rewrite get_update.
  destruct (String.eqb_spec y y0) as [-> | Hy]; [ | reflexivity ].
  cbn [andb] in H. rewrite get_update, H.
  destruct (D.get y0 g) as [yg |] eqn:E0;
    [ rewrite (get_default_some _ _ _ _ E0)
    | rewrite (get_default_none _ _ _ E0) ]; reflexivity.
Qed.

Lemma accept_labelled (lookup : dict string) (name yr : string) (r : row)
  (st : state) (v : vote_record) :
  ingest_row lookup name r = Ok (Some v) ->
  labelled st -> labelled (accept yr st v).
Proof.
  intros Hv L. unfold labelled, group_of, label_of in *. unfold accept.
  destruct (seen (key_of yr v) (seen_entries st));
    cbn [grouped_by_year contest_labels_by_year]; [ exact L | ].
  intros y c rows Hg. rewrite get_default_update.
  destruct (String.eqb y yr && String.eqb c (vr_contest_type v))%bool eqn:E.
  - apply andb_true_iff in E. destruct E as [Ey Ec].
    apply String.eqb_eq in Ey, Ec. subst y c.
    rewrite String.eqb_refl, get_set_same.
    exists (vr_contest_name v). split; [ reflexivity | ].
    destruct (ingest_row_fields _ _ _ _ Hv) as (_ & _ & _ & _ & Ho & _).
    apply get_some_in in Ho. apply (in_map snd) in Ho. exact Ho.
  - rewrite (group_after_update _ _ _ _ _ _ E) in Hg.
    destruct (L y c rows Hg) as (nm & Hl & Hin).
    exists nm. split; [ | exact Hin ].
    destruct (String.eqb_spec y yr) as [-> | Hy]; [ | exact Hl ].
    cbn [andb] in E. rewrite get_set, E. exact Hl.
Qed.

Lemma ingest_labelled (lookup : dict string) (paths : list input_file)
  (st : state) :
  ingest lookup paths = Ok st -> labelled st.
Proof.
  apply (ingest_invariant labelled).
  - intros y c rows H. discriminate.
  - intros f r v yr s _ _ Hv Hs. apply (accept_labelled _ _ _ _ _ _ Hv Hs).
Qed.

Lemma accept_named (yr : string) (st : state) (v : vote_record) :
  named st -> named (accept yr st v).
Proof.
  intros N. unfold named in *. unfold accept.
  assert (Hkeep : forall k nm,
            D.get k (county_name_by_key st) = Some nm ->
            exists nm',
              D.get k (D.setdefault (vr_ckey v)
                         (display_county_name (vr_county v))
                         (county_name_by_key st)) = Some nm').
  { intros k nm H. unfold D.setdefault.
    destruct (D.mem (vr_ckey v) (county_name_by_key st)); [ eauto | ].
    rewrite get_set. destruct (String.eqb k (vr_ckey v)); eauto. }
  assert (Hnew : exists nm',
            D.get (vr_ckey v)
              (D.setdefault (vr_ckey v) (display_county_name (vr_county v))
                 (county_name_by_key st)) = Some nm').
  { pose proof (mem_setdefault_same (vr_ckey v)
                  (display_county_name (vr_county v)) (county_name_by_key st)) as M.
    unfold D.mem in M.
    destruct (D.get (vr_ckey v) (D.setdefault _ _ _)) as [nm |]; eauto.
    discriminate. }
  destruct (seen (key_of yr v) (seen_entries st));
    cbn [grouped_by_year county_name_by_key].
  - intros y c k es H. destruct (N y c k es H) as (Hne & nm & Hnm).
    split; [ exact Hne | apply (Hkeep k nm Hnm) ].
  - intros y c k es. rewrite entries_at_append.
    destruct (String.eqb y yr && String.eqb c (vr_contest_type v)
              && String.eqb k (vr_ckey v))%bool eqn:E.
    + apply andb_true_iff in E. destruct E as [_ Ek].
      apply String.eqb_eq in Ek. subst k.
      intros H. injection H as <-. split; [ | exact Hnew ].
      intros Happ. apply app_eq_nil in Happ. destruct Happ. discriminate.
    + intros H. destruct (N y c k es H) as (Hne & nm & Hnm).
      split; [ exact Hne | apply (Hkeep k nm Hnm) ].
Qed.

Lemma ingest_named (lookup : dict string) (paths : list input_file)
  (st : state) :
  ingest lookup paths = Ok st -> named st.
Proof.
  apply (ingest_invariant named).
  - intros y c k es H. discriminate.
  - intros f r v yr s _ _ _ Hs. apply accept_named, Hs.
Qed.

(* ================================================================== *)
(** * Further properties: the blocks of the output *)
(* ================================================================== *)

Lemma all_items_get {V : Type} (P : string -> V -> Prop) (k : string) (v : V)
  (d : dict V) :
  all_items P d -> D.get k d = Some v -> P k v.
Proof.
  unfold all_items. rewrite Forall_forall. intros H E.
  apply (H (k, v)). apply get_some_in, E.
Qed.

Lemma all_items_set {V : Type} (P : string -> V -> Prop) (k : string) (v : V)
  (d : dict V) :
  all_items P d -> P k v -> all_items P (D.set k v d).
Proof.
  unfold all_items. intros Hd Hv.
  induction d as [| [k0 v0] d IH]; cbn [D.set].
  - constructor; [ exact Hv | constructor ].
  - inversion Hd; subst.
    destruct (String.eqb_spec k k0) as [<- | Hne]; constructor; auto.
Qed.

(** The results of a year that is in the output. *)
Lemma results_by_year_get_some (n : Z) (st : state) (y : string)
  (rfy : dict ContestYearBlock) :
  D.get y (results_by_year_of n st) = Some rfy ->
  exists yg,
    D.get y (grouped_by_year st) = Some yg /\
    rfy = results_for_year_of n st y yg.
Proof.
  destruct (D.get y (grouped_by_year st)) as [yg |] eqn:Ey.
  - rewrite (results_by_year_get n st y yg Ey).
    destruct (is_empty yg); [ discriminate | ].
    destruct (is_empty (results_for_year_of n st y yg)); [ discriminate | ].
    intros H. injection H as <-. exists yg. split; reflexivity.
  - unfold results_by_year_of.
    rewrite (get_fold_keys
               (fun yr =>
                  let yg := D.get_default yr [] (grouped_by_year st) in
                  if is_empty yg then None
                  else if is_empty (results_for_year_of n st yr yg) then None
                  else Some (results_for_year_of n st yr yg))).
    + cbv beta zeta. rewrite (get_default_none _ _ _ Ey). cbn [is_empty D.get].
      destruct (existsb _ _); discriminate.
    + intros acc yr. cbn zeta.
      destruct (is_empty (D.get_default yr [] (grouped_by_year st)));
        [ reflexivity | ].
      destruct (is_empty (results_for_year_of n st yr _)); reflexivity.
Qed.

(** What a block of the output is. *)
Lemma block_inversion (n : Z) (st : state) (y c : string) (b : ContestYearBlock) :
  well_formed st -> labelled st ->
  block_of (results_by_year_of n st) y c = Some b ->
  exists rows name,
    group_of st y c = Some rows /\
    n <= Z.of_nat (List.length rows) /\
    label_of st y c = Some name /\
    In (c, name) (map snd OFFICE_MAP) /\
    b = {| contest_key := c ++ "_" ++ y;
           contest_name := name;
           results := county_results_of (county_name_by_key st) name y rows |}.
Proof.
  intros [Hd Hall] L. unfold block_of.
  destruct (D.get y (results_by_year_of n st)) as [rfy |] eqn:Ey;
    [ | discriminate ].
  destruct (results_by_year_get_some _ _ _ _ Ey) as (yg & Eg & ->).
  pose proof (all_values_get _ _ _ _ Hall Eg) as [Hyg _].
  rewrite (results_for_year_get n st y c yg Hyg).
  destruct (D.get c yg) as [rows |] eqn:Ec; [ | discriminate ].
  destruct (Z.ltb_spec (Z.of_nat (List.length rows)) n) as [Hlt | Hge];
    [ discriminate | ].
  cbv zeta. intros H. injection H as <-.
  assert (Hg : group_of st y c = Some rows).
  { unfold group_of. rewrite Eg. exact Ec. }
  destruct (L y c rows Hg) as (name & Hl & Hin).
  exists rows, name. repeat split; try assumption.
  unfold label_of in Hl. unfold PyDict.dict in *.
  rewrite !(get_default_some _ "" _ _ Hl). reflexivity.
Qed.

(** Every block of the output comes from a group of the ingestion with at
    least the minimum of counties; its key is the contest type and the year
    joined by an underscore, and its name is the name of its contest type
    in [OFFICE_MAP] (the label lookup never misses). *)
Theorem blocks_come_from_groups (args : Args) (paths : list input_file)
  (st : state) (out : Output) (y c : string) (b : ContestYearBlock) :
  ingest (load_county_lookup (counties_geojson args)) paths = Ok st ->
  main args paths = Ok out ->
  block_of (results_by_year out) y c = Some b ->
  exists rows,
    group_of st y c = Some rows /\
    min_counties_per_contest args <= Z.of_nat (List.length rows) /\
    contest_key b = c ++ "_" ++ y /\
    In (c, contest_name b) (map snd OFFICE_MAP) /\
    results b = county_results_of (county_name_by_key st) (contest_name b) y rows.
Proof.
  intros Hst Hmain Hb.
  destruct (main_ok _ _ _ Hmain) as (st' & Hst' & ->).
  rewrite Hst in Hst'. injection Hst' as <-.
  destruct (block_inversion _ _ _ _ _ (ingest_well_formed _ _ _ Hst)
              (ingest_labelled _ _ _ Hst) Hb)
    as (rows & name & Hg & Hn & _ & Hin & ->).
  exists rows. repeat split; assumption.
Qed.

Lemma blocks_come_from_groups_witness :
  exists st out b,
    ingest []
      [file_2020 [mkrow "Kanawha" "PRESIDENT" "DEM" "Jane Doe" "100";
                  mkrow "Cabell" "PRESIDENT" "DEM" "Jane Doe" "70";
                  mkrow "Kanawha" "GOVERNOR" "REP" "John Roe" "50"]] = Ok st /\
    main (args_min 2)
      [file_2020 [mkrow "Kanawha" "PRESIDENT" "DEM" "Jane Doe" "100";
                  mkrow "Cabell" "PRESIDENT" "DEM" "Jane Doe" "70";
                  mkrow "Kanawha" "GOVERNOR" "REP" "John Roe" "50"]] = Ok out /\
    block_of (results_by_year out) "2020" "president" = Some b /\
    exists rows,
      group_of st "2020" "president" = Some rows /\
      2 <= Z.of_nat (List.length rows) /\
      contest_key b = "president" ++ "_" ++ "2020" /\
      In ("president", contest_name b) (map snd OFFICE_MAP) /\
      results b
      = county_results_of (county_name_by_key st) (contest_name b) "2020" rows.
Proof.
  eexists. eexists. eexists.
  split; [ vm_compute; reflexivity | ].
  split; [ vm_compute; reflexivity | ].
  split; [ vm_compute; reflexivity | ].
  refine (blocks_come_from_groups (args_min 2)
      [file_2020 [mkrow "Kanawha" "PRESIDENT" "DEM" "Jane Doe" "100";
                  mkrow "Cabell" "PRESIDENT" "DEM" "Jane Doe" "70";
                  mkrow "Kanawha" "GOVERNOR" "REP" "John Roe" "50"]]
      _ _ "2020" "president" _ _ _ _); vm_compute; reflexivity.
Defined.

Lemma county_results_of_items (names : dict string) (cn y : string)
  (rows : dict (list entry)) :
  all_items
    (fun k r =>
       exists ckey,
         In ckey (D.keys rows) /\
         k = D.get_default ckey (title ckey) names /\
         r = county_result cn y k (D.get_default ckey [] rows))
    (county_results_of names cn y rows).
Proof.
  unfold county_results_of.
  apply fold_left_invariant; [ | constructor ].
  intros acc ckey Hin Hacc. apply all_items_set; [ exact Hacc | ].
  exists ckey. split; [ | split; reflexivity ].
  apply in_sort_with in Hin. exact Hin.
Qed.

(** Every county result of the output is filed under its own county name
    and carries the year and the contest name of its block; it is computed
    from the entries of one county key of the group, which are not empty,
    and its county name is the display name recorded for that key. *)
Theorem county_results_are_filed_consistently (args : Args)
  (paths : list input_file) (st : state) (out : Output) (y c k : string)
  (b : ContestYearBlock) (r : CountyContestResult) :
  ingest (load_county_lookup (counties_geojson args)) paths = Ok st ->
  main args paths = Ok out ->
  block_of (results_by_year out) y c = Some b ->
  D.get k (results b) = Some r ->
  county r = k /\ year r = y /\ contest r = contest_name b /\
  exists ckey es,
    entries_at (grouped_by_year st) y c ckey = Some es /\
    es <> [] /\
    D.get ckey (county_name_by_key st) = Some k /\
    r = county_result (contest_name b) y k es.
Proof.
  intros Hst Hmain Hb Hr.
  destruct (main_ok _ _ _ Hmain) as (st' & Hst' & ->).
  rewrite Hst in Hst'. injection Hst' as <-.
  destruct (block_inversion _ _ _ _ _ (ingest_well_formed _ _ _ Hst)
              (ingest_labelled _ _ _ Hst) Hb)
    as (rows & name & Hg & _ & _ & _ & ->).
  cbn [results contest_name] in *.
  destruct (all_items_get _ _ _ _ (county_results_of_items _ _ _ _) Hr)
    as (ckey & Hin & Ek & Er).
  destruct (in_keys_get _ _ Hin) as [es Hes].
  assert (Hat : entries_at (grouped_by_year st) y c ckey = Some es).
  { unfold group_of in Hg. unfold entries_at.
    destruct (D.get y (grouped_by_year st)) as [yg |]; [ | discriminate ].
    rewrite Hg. exact Hes. }
  destruct (ingest_named _ _ _ Hst y c ckey es Hat) as (Hne & nm & Hnm).
  rewrite (get_default_some _ _ _ _ Hnm) in Ek.
  rewrite (get_default_some _ _ _ _ Hes) in Er.
  subst k. subst r. cbn [county year contest county_result].
  repeat split.
  exists ckey, es. repeat split; assumption.
Qed.

Lemma county_results_are_filed_consistently_witness :
  exists st out b r,
    ingest []
      [file_2020 [mkrow "KANAWHA" "PRESIDENT" "DEM" "Jane Doe" "100";
                  mkrow "Kanawha county" "PRESIDENT" "REP" "John Roe" "50"]]
      = Ok st /\
    main (args_min 1)
      [file_2020 [mkrow "KANAWHA" "PRESIDENT" "DEM" "Jane Doe" "100";
                  mkrow "Kanawha county" "PRESIDENT" "REP" "John Roe" "50"]]
      = Ok out /\
    block_of (results_by_year out) "2020" "president" = Some b /\
    D.get "Kanawha" (results b) = Some r /\
    county r = "Kanawha" /\ year r = "2020" /\ contest r = contest_name b /\
    exists ckey es,
      entries_at (grouped_by_year st) "2020" "president" ckey = Some es /\
      es <> [] /\
      D.get ckey (county_name_by_key st) = Some "Kanawha" /\
      r = county_result (contest_name b) "2020" "Kanawha" es.
Proof.
  eexists. eexists. eexists. eexists.
  split; [ vm_compute; reflexivity | ].
  split; [ vm_compute; reflexivity | ].
  split; [ vm_compute; reflexivity | ].
  split; [ vm_compute; reflexivity | ].
  refine (county_results_are_filed_consistently (args_min 1)
      [file_2020 [mkrow "KANAWHA" "PRESIDENT" "DEM" "Jane Doe" "100";
                  mkrow "Kanawha county" "PRESIDENT" "REP" "John Roe" "50"]]
      _ _ "2020" "president" "Kanawha" _ _ _ _ _ _); vm_compute; reflexivity.
Defined.

(** The deduplicator's guarantee.  After the ingestion every list of
    entries of a year, contest type and county key is without repetition,
    and the key of each of its entries is in the set of seen keys; each
    county result of the output is computed from one of these lists, so no
    (party, candidate, votes) triple is counted twice in a county of a
    contest and year. *)
Theorem no_entry_is_counted_twice (args : Args) (paths : list input_file)
  (st : state) (out : Output) :
  ingest (load_county_lookup (counties_geojson args)) paths = Ok st ->
  main args paths = Ok out ->
  (forall y c ckey es,
     entries_at (grouped_by_year st) y c ckey = Some es ->
     NoDup es /\
     forall p n z,
       In (p, n, z) es -> seen (y, c, ckey, p, n, z) (seen_entries st) = true) /\
  (forall y c b k r,
     block_of (results_by_year out) y c = Some b ->
     D.get k (results b) = Some r ->
     exists ckey es,
       entries_at (grouped_by_year st) y c ckey = Some es /\
       NoDup es /\
       r = county_result (contest_name b) y k es).
Proof.
  intros Hst Hmain.
  pose proof (ingest_deduplicated _ _ _ Hst) as Hd.
  split; [ exact Hd | ].
  intros y c b k r Hb Hr.
  destruct (main_ok _ _ _ Hmain) as (st' & Hst' & ->).
  rewrite Hst in Hst'. injection Hst' as <-.
  destruct (block_inversion _ _ _ _ _ (ingest_well_formed _ _ _ Hst)
              (ingest_labelled _ _ _ Hst) Hb)
    as (rows & name & Hg & _ & _ & _ & ->).
  cbn [results contest_name] in *.
  destruct (all_items_get _ _ _ _ (county_results_of_items _ _ _ _) Hr)
    as (ckey & Hin & Ek & Er).
  destruct (in_keys_get _ _ Hin) as [es Hes].
  assert (Hat : entries_at (grouped_by_year st) y c ckey = Some es).
  { unfold group_of in Hg. unfold entries_at.
    destruct (D.get y (grouped_by_year st)) as [yg |]; [ | discriminate ].
    rewrite Hg. exact Hes. }
  rewrite (get_default_some _ _ _ _ Hes) in Er.
  exists ckey, es. split; [ exact Hat | ].
  split; [ apply (Hd y c ckey es Hat) | ].
  rewrite Er, Ek. reflexivity.
Qed.

Lemma no_entry_is_counted_twice_witness :
  exists st out,
    ingest []
      [file_2020 [mkrow "Kanawha" "PRESIDENT" "DEM" "Jane Doe" "40";
                  mkrow "Kanawha" "PRESIDENT" "DEM" "Jane Doe" "40";
                  mkrow "Kanawha" "PRESIDENT" "DEM" "Jane Doe" "41"]] = Ok st /\
    main (args_min 1)
      [file_2020 [mkrow "Kanawha" "PRESIDENT" "DEM" "Jane Doe" "40";
                  mkrow "Kanawha" "PRESIDENT" "DEM" "Jane Doe" "40";
                  mkrow "Kanawha" "PRESIDENT" "DEM" "Jane Doe" "41"]] = Ok out /\
    entries_at (grouped_by_year st) "2020" "president" "KANAWHA"
      = Some [("DEM", "Jane Doe", 40); ("DEM", "Jane Doe", 41)] /\
    NoDup [("DEM", "Jane Doe", 40); ("DEM", "Jane Doe", 41)].
Proof.
  eexists. eexists.
  split; [ vm_compute; reflexivity | ].
  split; [ vm_compute; reflexivity | ].
  split; [ vm_compute; reflexivity | ].
  refine (proj1 (proj1 (no_entry_is_counted_twice (args_min 1)
      [file_2020 [mkrow "Kanawha" "PRESIDENT" "DEM" "Jane Doe" "40";
                  mkrow "Kanawha" "PRESIDENT" "DEM" "Jane Doe" "40";
                  mkrow "Kanawha" "PRESIDENT" "DEM" "Jane Doe" "41"]]
      _ _ _ _) "2020" "president" "KANAWHA" _ _));
    vm_compute; reflexivity.
Defined.

(* ================================================================== *)
(** * Further properties: the totals by party *)
(* ================================================================== *)

Lemma sum_app (l l' : list Z) : sum (l ++ l') = sum l + sum l'.
Proof.
  induction l as [| x l IH]; [ rewrite sum_nil; reflexivity | ].
  cbn [app]. rewrite !sum_cons, IH. lia.
Qed.

Lemma sum_perm (l l' : list Z) : Permutation l l' -> sum l = sum l'.
Proof.
  induction 1; rewrite ?sum_cons; lia.
Qed.

Lemma sum_values_set (k : string) (x : Z) (d : dict Z) :
  sum (map snd (D.set k x d)) = sum (map snd d) - D.get_default k 0 d + x.
Proof.
  unfold D.get_default.
  induction d as [| [k0 v0] d IH]; cbn [D.set D.get map snd].
  - rewrite sum_cons, sum_nil. lia.
  - destruct (String.eqb k k0); cbn [map snd]; rewrite !sum_cons; lia.
Qed.

Lemma party_totals_step (e : entry) (totals : dict Z) :
  (let p := fst (fst e) in
   update (if nonempty p then p else "NONPARTISAN") 0 (fun t => t + snd e) totals)
  = update (party_key (fst (fst e))) 0 (fun t => t + snd e) totals.
Proof. reflexivity. Qed.

Lemma entries_under_cons (k : string) (e : entry) (es : list entry) :
  entries_under k (e :: es) =
    if String.eqb (party_key (fst (fst e))) k then e :: entries_under k es
    else entries_under k es.
Proof. reflexivity. Qed.

(** The totals after a loop over entries, from the totals before. *)
Lemma party_totals_from (es : list entry) (acc : dict Z) :
  let totals :=
    fold_left
      (fun totals e =>
         let p := fst (fst e) in
         update (if nonempty p then p else "NONPARTISAN") 0
                (fun t => t + snd e) totals)
      es acc in
  sum (map snd totals) = sum (map snd acc) + sum (map snd es) /\
  (distinct_keys acc -> distinct_keys totals) /\
  forall k,
    D.get k totals =
      if is_empty (entries_under k es) then D.get k acc
      else Some (D.get_default k 0 acc + sum (map snd (entries_under k es))).
Proof.
  cbv zeta. revert acc. induction es as [| e es IH]; intros acc.
  - cbn [fold_left map]. rewrite sum_nil.
    split; [ lia | split; [ auto | intros k; reflexivity ] ].
  - cbn [fold_left]. rewrite party_totals_step.
    destruct (IH (update (party_key (fst (fst e))) 0 (fun t => t + snd e) acc))
      as (Hs & Hd & Hg).
    split; [ | split ].
    + rewrite Hs. unfold update. rewrite sum_values_set.
      cbn [map]. rewrite sum_cons. lia.
    + intros Ha. apply Hd, distinct_keys_update, Ha.
    + intros k. rewrite Hg, entries_under_cons.
      rewrite get_update, get_default_update.
      destruct (String.eqb_spec k (party_key (fst (fst e)))) as [-> | Hne].
      * rewrite String.eqb_refl.
        destruct (entries_under (party_key (fst (fst e))) es) as [| e' l'];
          cbn [is_empty map]; rewrite ?sum_cons, ?sum_nil; f_equal; lia.
      * assert (E : String.eqb (party_key (fst (fst e))) k = false)
          by (apply String.eqb_neq; congruence).
        rewrite E. reflexivity.
Qed.

Lemma party_totals_of_spec (es : list entry) :
  sum (map snd (party_totals_of es)) = sum (map snd es) /\
  distinct_keys (party_totals_of es) /\
  forall k,
    D.get k (party_totals_of es) =
      if is_empty (entries_under k es) then None
      else Some (sum (map snd (entries_under k es))).
Proof.
  destruct (party_totals_from es []) as (Hs & Hd & Hg).
  split; [ | split ].
  - transitivity (sum (map snd ([] : dict Z)) + sum (map snd es));
      [ exact Hs | cbn [map]; rewrite sum_nil; lia ].
  - exact (Hd (NoDup_nil _)).
  - intros k.
    transitivity
      (if is_empty (entries_under k es) then D.get k ([] : dict Z)
       else Some (D.get_default k 0 ([] : dict Z)
                  + sum (map snd (entries_under k es))));
      [ exact (Hg k) | ].
    destruct (is_empty (entries_under k es)); reflexivity.
Qed.

Lemma entries_under_party (p : string) (es : list entry) :
  nonempty p = true -> p <> "NONPARTISAN" ->
  map snd (entries_under p es) = map snd (entries_of_party p es).
Proof.
  intros Hp Hn. unfold entries_under, entries_of_party.
  induction es as [| e es IH]; [ reflexivity | ]. cbn [filter].
  assert (E : String.eqb (party_key (fst (fst e))) p
              = String.eqb (fst (fst e)) p).
  { unfold party_key. destruct (nonempty (fst (fst e))) eqn:En; [ reflexivity | ].
    destruct (fst (fst e)); [ | discriminate ].
    destruct (String.eqb_spec "NONPARTISAN" p); [ congruence | ].
    destruct p; [ discriminate | reflexivity ]. }
  rewrite E. destruct (String.eqb (fst (fst e)) p); cbn [map]; rewrite IH;
    reflexivity.
Qed.

Lemma total_under_party (p : string) (es : list entry) :
  nonempty p = true -> p <> "NONPARTISAN" ->
  (if is_empty (entries_under p es) then None
   else Some (sum (map snd (entries_under p es))))
  = (if is_empty (entries_of_party p es) then None
     else Some (sum (map snd (entries_of_party p es)))).
Proof.
  intros Hp Hn. pose proof (entries_under_party p es Hp Hn) as E.
  destruct (entries_under p es) as [| e l];
    destruct (entries_of_party p es) as [| e' l'];
    cbn [is_empty]; try discriminate E; [ reflexivity | ].
  rewrite E. reflexivity.
Qed.

(** The mapping all_parties of a county result: its keys are distinct, its
    values add up to the total votes, the value of a key is the sum of the
    votes of the entries counted under it (an empty party under
    NONPARTISAN), and the values of DEM and REP, when present, are the
    Democratic and Republican votes. *)
Theorem all_parties_totals (cn y c : string) (es : list entry) :
  let r := county_result cn y c es in
  NoDup (D.keys (all_parties r)) /\
  sum (map snd (all_parties r)) = total_votes r /\
  (forall k,
     D.get k (all_parties r) =
       if is_empty (entries_under k es) then None
       else Some (sum (map snd (entries_under k es)))) /\
  D.get "DEM" (all_parties r) =
    (if is_empty (entries_of_party "DEM" es) then None else Some (dem_votes r)) /\
  D.get "REP" (all_parties r) =
    (if is_empty (entries_of_party "REP" es) then None else Some (rep_votes r)).
Proof.
  cbv zeta. cbn [all_parties total_votes dem_votes rep_votes county_result].
  destruct (party_totals_of_spec es) as (Hs & Hdist & Hg).
  assert (Hget : forall k,
            D.get k (D.sorted_by fst (party_totals_of es)) =
              if is_empty (entries_under k es) then None
              else Some (sum (map snd (entries_under k es)))).
  { intros k. rewrite (get_sorted_items _ _ _ Hdist). apply Hg. }
  split; [ apply sorted_items_distinct, Hdist | ].
  split; [ | split; [ exact Hget | split ] ].
  - rewrite (sum_perm _ (map snd (party_totals_of es))).
    + exact Hs.
    + apply Permutation_map, sort_with_perm.
  - rewrite Hget. apply total_under_party; [ reflexivity | discriminate ].
  - rewrite Hget. apply total_under_party; [ reflexivity | discriminate ].
Qed.

(* ================================================================== *)
(** * Further properties: when the run succeeds *)
(* ================================================================== *)

Lemma for_each_ok_iff {A S : Type} (body : S -> A -> result S)
  (P : A -> Prop) (xs : list A) :
  (forall s x, In x xs -> ((exists s', body s x = Ok s') <-> P x)) ->
  forall s, (exists s', for_each body xs s = Ok s') <-> Forall P xs.
Proof.
  induction xs as [| x xs IH]; intros H s.
  - split; [ constructor | intros _; exists s; reflexivity ].
  - cbn [for_each]. split.
    + intros [s' E].
      destruct (body s x) as [s1 | e] eqn:Eb; cbn [bind] in E; [ | discriminate ].
      constructor.
      * apply (H s x (or_introl eq_refl)). exists s1. exact Eb.
      * apply (IH (fun s x Hin => H s x (or_intror Hin)) s1). exists s'. exact E.
    + intros HF. inversion HF as [| ? ? Hx Hxs]; subst.
      destruct (proj2 (H s x (or_introl eq_refl)) Hx) as [s1 Eb].
      rewrite Eb. cbn [bind].
      apply (IH (fun s x Hin => H s x (or_intror Hin)) s1). exact Hxs.
Qed.

(** A row is processed exactly when its votes parse. *)
Lemma process_row_ok_iff (lookup : dict string) (yr name : string)
  (st : state) (r : row) :
  (exists st', process_row lookup yr name st r = Ok st') <->
  (exists n, extract_votes r = Ok n).
Proof.
  unfold process_row, ingest_row.
  destruct (extract_votes r) as [n | e]; cbn [bind].
  - split; [ intros _; exists n; reflexivity | intros _ ].
    repeat match goal with
           | |- context [if ?b then _ else _] => destruct b
           | |- context [match D.get ?a ?b with _ => _ end] =>
               destruct (D.get a b) as [[? ?] |]
           end; cbn [bind]; eexists; reflexivity.
  - split; intros [x E]; discriminate E.
Qed.

Lemma process_file_ok_iff (lookup : dict string) (st : state) (f : input_file) :
  (exists st', process_file lookup st f = Ok st') <-> readable f.
Proof.
  unfold process_file, readable.
  destruct (path_exists f); cbn [negb].
  - destruct (infer_year_from_filename f) as [y | e]; cbn [bind].
    + rewrite (for_each_ok_iff _ (fun r => exists n, extract_votes r = Ok n)).
      * split; [ intros H | intros (_ & _ & H); exact H ].
        split; [ reflexivity | split; [ exists y; reflexivity | exact H ] ].
      * intros s r _. apply process_row_ok_iff.
    + split; [ intros [x E]; discriminate E | ].
      intros (_ & [y E] & _). discriminate E.
  - split; [ intros [x E]; discriminate E | intros (E & _); discriminate E ].
Qed.

Lemma main_ingest_ok (args : Args) (paths : list input_file) (out : Output) :
  main args paths = Ok out ->
  paths <> [] /\
  exists st, ingest (load_county_lookup (counties_geojson args)) paths = Ok st.
Proof.
  unfold main. destruct paths as [| f paths]; cbn [is_empty]; [ discriminate | ].
  destruct (ingest _ (f :: paths)) as [st | e]; cbn [bind]; [ | discriminate ].
  intros _. split; [ discriminate | exists st; reflexivity ].
Qed.

(** The ingestion loop of the run ends without an exception exactly when
    every input file exists, has a year that can be inferred, and has votes
    that parse in each of its rows, kept or skipped.  A run that returns an
    output had at least one input file and only such files; a run without
    input files raises [FileNotFoundError], and one missing file, one file
    without a year or one malformed votes cell makes the run raise. *)
Theorem ingestion_succeeds_iff (args : Args) (paths : list input_file) :
  ((exists st,
      ingest (load_county_lookup (counties_geojson args)) paths = Ok st) <->
   Forall readable paths) /\
  (forall out, main args paths = Ok out ->
               paths <> [] /\ Forall readable paths) /\
  (paths = [] -> main args paths = Err FileNotFoundError) /\
  (forall f, In f paths -> ~ readable f -> exists e, main args paths = Err e).
Proof.
  pose proof (for_each_ok_iff
                (process_file (load_county_lookup (counties_geojson args)))
                readable paths
                (fun s f _ => process_file_ok_iff _ s f) initial_state) as H.
  fold (ingest (load_county_lookup (counties_geojson args)) paths) in H.
  assert (Hmain : forall out, main args paths = Ok out ->
                              paths <> [] /\ Forall readable paths).
  { intros out E. destruct (main_ingest_ok _ _ _ E) as [Hne Hst].
    split; [ exact Hne | apply H, Hst ]. }
  split; [ exact H | ].
  split; [ exact Hmain | ].
  split; [ intros ->; reflexivity | ].
  intros f Hin Hf.
  destruct (main args paths) as [out | e] eqn:E; [ | exists e; reflexivity ].
  exfalso. apply Hf.
  destruct (Hmain out eq_refl) as [_ Hall].
  rewrite Forall_forall in Hall. apply Hall, Hin.
Qed.

(* ================================================================== *)
(** * Further properties: the county reference *)
(* ================================================================== *)


(** One step of the loop of [load_county_lookup]. *)
Lemma lookup_step_keys (lookup : dict string) (n token : string) :
  let name := display_county_name n in
  In token
     (D.keys (if negb (nonempty name) then lookup
              else D.set (county_norm_token name) name lookup)) <->
  In token (D.keys lookup) \/
  (name <> "" /\ token = county_norm_token name).
Proof.
  cbv zeta. destruct (nonempty (display_county_name n)) eqn:E; cbn [negb].
  - rewrite in_keys_set. apply nonempty_true in E. tauto.
  - destruct (display_county_name n); [ | discriminate ].
    split; [ tauto | intros [H | [H _]]; [ exact H | congruence ] ].
Qed.

Lemma lookup_keys_from (names : list string) (acc : dict string)
  (token : string) :
  In token
     (D.keys
        (fold_left
           (fun lookup name =>
              let name := display_county_name name in
              if negb (nonempty name) then lookup
              else D.set (county_norm_token name) name lookup)
           names acc)) <->
  In token (D.keys acc) \/ filed_under names token.
Proof.
  revert acc. induction names as [| n names IH]; intros acc; cbn [fold_left].
  - split; [ tauto | intros [H | (n & [] & _)]; exact H ].
  - rewrite IH. cbv zeta. rewrite (lookup_step_keys acc n token). cbv zeta.
    unfold filed_under. split.
    + intros [[H | [Hn Ht]] | (m & Hm & Hd & Ht)].
      * left. exact H.
      * right. exists n. split; [ left; reflexivity | split; assumption ].
      * right. exists m. split; [ right; exact Hm | split; assumption ].
    + intros [H | (m & [<- | Hm] & Hd & Ht)].
      * left. left. exact H.
      * left. right. split; assumption.
      * right. exists m. split; [ exact Hm | split; assumption ].
Qed.

Lemma lookup_items (names : list string) :
  distinct_keys (load_county_lookup names) /\
  all_items
    (fun token name =>
       name <> "" /\ token = county_norm_token name /\
       exists n, In n names /\ name = display_county_name n)
    (load_county_lookup names).
Proof.
  unfold load_county_lookup.
  apply (fold_left_invariant
           (fun d : dict string =>
              distinct_keys d /\
              all_items
                (fun token name =>
                   name <> "" /\ token = county_norm_token name /\
                   exists n, In n names /\ name = display_county_name n) d)).
  - intros d n Hin [Hd Hi]. cbv zeta.
    destruct (nonempty (display_county_name n)) eqn:E; cbn [negb];
      [ | split; assumption ].
    split; [ apply distinct_keys_set, Hd | ].
    apply all_items_set; [ exact Hi | ].
    split; [ apply nonempty_true, E | ].
    split; [ reflexivity | exists n; split; [ exact Hin | reflexivity ] ].
  - split; constructor.
Qed.

(** The county lookup built from a reference has one key for each token of
    a feature whose display name is not empty, and no other key; the name
    stored under a token is the display name of a feature, is not empty, and
    has that token. *)
Theorem county_lookup_of_reference (names : list string) :
  NoDup (D.keys (load_county_lookup names)) /\
  (forall token,
     In token (D.keys (load_county_lookup names)) <-> filed_under names token) /\
  (forall token name,
     D.get token (load_county_lookup names) = Some name ->
     name <> "" /\ county_norm_token name = token /\
     exists n, In n names /\ display_county_name n = name).
Proof.
  destruct (lookup_items names) as [Hd Hi].
  split; [ exact Hd | split ].
  - intros token. unfold load_county_lookup.
    rewrite lookup_keys_from. cbn [D.keys map In]. tauto.
  - intros token name E.
    destruct (all_items_get _ _ _ _ Hi E) as (Hn & Ht & n & Hin & En).
    split; [ exact Hn | split; [ symmetry; exact Ht | ] ].
    exists n. split; [ exact Hin | symmetry; exact En ].
Qed.

(** With a reference that names a county, a canonical name that is not
    empty is the display name of a feature of the reference, and its token
    is the token of the raw name after the aliases: the spelling of the row
    never reaches the output. *)
Theorem canonical_names_come_from_the_reference (names : list string)
  (raw : string) :
  load_county_lookup names <> [] ->
  canonicalize_county_name raw (load_county_lookup names) <> "" ->
  (exists n,
     In n names /\
     canonicalize_county_name raw (load_county_lookup names)
       = display_county_name n) /\
  county_norm_token (canonicalize_county_name raw (load_county_lookup names))
    = lookup_token raw.
Proof.
  intros Hl Hc. destruct (lookup_items names) as [_ Hi].
  assert (E : D.get (lookup_token raw) (load_county_lookup names)
              = Some (canonicalize_county_name raw (load_county_lookup names))).
  { revert Hc. unfold canonicalize_county_name, lookup_token. cbv zeta.
    destruct (negb (nonempty (normalize_county_name raw))); [ congruence | ].
    destruct (load_county_lookup names) as [| kv l]; [ congruence | ].
    set (d := kv :: l). set (t := D.get_default _ _ COUNTY_ALIASES).
    unfold D.get_default.
    destruct (D.get t d) as [v |]; [ reflexivity | congruence ]. }
  destruct (all_items_get _ _ _ _ Hi E) as (_ & Ht & n & Hin & En).
  split; [ exists n; split; assumption | symmetry; exact Ht ].
Qed.

Lemma canonical_names_come_from_the_reference_witness :
  (exists n,
     In n ["Kanawha County"; "McDowell"; "Pocahontas"] /\
     canonicalize_county_name "POCOHONTAS county"
       (load_county_lookup ["Kanawha County"; "McDowell"; "Pocahontas"])
       = display_county_name n) /\
  county_norm_token
    (canonicalize_county_name "POCOHONTAS county"
       (load_county_lookup ["Kanawha County"; "McDowell"; "Pocahontas"]))
    = lookup_token "POCOHONTAS county".
Proof.
  apply (canonical_names_come_from_the_reference
           ["Kanawha County"; "McDowell"; "Pocahontas"] "POCOHONTAS county");
    vm_compute; discriminate.
Defined.

(* ================================================================== *)
(** * Further properties: the token of a county name *)
(* ================================================================== *)

(** Deleting every match of a one-character class keeps the other
    characters. *)
Lemma sub_from_class (p : ascii -> bool) (s : string) :
  forall (fuel : nat) (prev : option ascii),
    (String.length s <= fuel)%nat ->
    sub_from fuel (Chr p) (fun _ => "") prev s = keep (fun c => negb (p c)) s.
Proof.
  induction s as [| c r IH]; intros fuel prev Hf.
  - destruct fuel; reflexivity.
  - destruct fuel as [| fuel]; [ cbn [String.length] in Hf; lia | ].
    cbn [String.length] in Hf.
    cbn [sub_from match_here run m_rest m_taken m_prev m_groups keep].
    destruct (p c); cbn [negb m_taken m_rest m_prev append];
      rewrite IH by lia; reflexivity.
Qed.

Lemma re_sub_class (p : ascii -> bool) (s : string) :
  re_sub (Chr p) (fun _ => "") s = keep (fun c => negb (p c)) s.
Proof. unfold re_sub. apply sub_from_class. lia. Qed.

Lemma keep_ext (p q : ascii -> bool) (s : string) :
  (forall c, p c = q c) -> keep p s = keep q s.
Proof.
  intros H. induction s as [| c r IH]; cbn [keep]; [ reflexivity | ].
  rewrite H, IH. reflexivity.
Qed.

Lemma keep_lstrip (p : ascii -> bool) (s : string) :
  (forall c, is_space c = true -> p c = false) ->
  keep p (lstrip s) = keep p s.
Proof.
  intros H. induction s as [| c r IH]; cbn [lstrip keep]; [ reflexivity | ].
  destruct (is_space c) eqn:E; [ rewrite (H c E); exact IH | reflexivity ].
Qed.

Lemma keep_rstrip (p : ascii -> bool) (s : string) :
  (forall c, is_space c = true -> p c = false) ->
  keep p (rstrip s) = keep p s.
Proof.
  intros H. induction s as [| c r IH]; cbn [rstrip keep]; [ reflexivity | ].
  rewrite <- IH. destruct (rstrip r) as [| c' r'].
  - destruct (is_space c) eqn:E; [ rewrite (H c E); reflexivity | ].
    cbn [keep]. reflexivity.
  - cbn [keep]. reflexivity.
Qed.

Lemma keep_strip (p : ascii -> bool) (s : string) :
  (forall c, is_space c = true -> p c = false) ->
  keep p (strip s) = keep p s.
Proof.
  intros H. unfold strip. rewrite keep_rstrip, keep_lstrip by exact H.
  reflexivity.
Qed.

Lemma is_lower_to_lower (c : ascii) : is_lower (to_lower c) = is_alpha c.
Proof.
  destruct c as [[] [] [] [] [] [] [] []]; vm_compute; reflexivity.
Qed.

Lemma space_not_alpha (c : ascii) : is_space c = true -> is_alpha c = false.
Proof.
  destruct c as [[] [] [] [] [] [] [] []]; vm_compute; intros H;
    first [ reflexivity | discriminate H ].
Qed.

Lemma to_lower_lower (c : ascii) : is_lower c = true -> to_lower c = c.
Proof.
  destruct c as [[] [] [] [] [] [] [] []]; vm_compute; intros H;
    first [ reflexivity | discriminate H ].
Qed.

Lemma keep_lower (s : string) :
  keep is_lower (lower s) = lower (keep is_alpha s).
Proof.
  unfold lower. induction s as [| c r IH]; cbn [map_chars keep]; [ reflexivity | ].
  rewrite is_lower_to_lower. destruct (is_alpha c); cbn [map_chars];
    rewrite IH; reflexivity.
Qed.

Lemma county_norm_token_closed (v : string) :
  county_norm_token v = lower (keep is_alpha v).
Proof.
  unfold county_norm_token. rewrite re_sub_class.
  rewrite (keep_ext _ is_lower) by (intros c; apply negb_involutive).
  rewrite keep_lower, keep_strip by exact space_not_alpha. reflexivity.
Qed.

Lemma lower_letters (s : string) :
  forallb_chars is_lower (lower (keep is_alpha s)) = true.
Proof.
  unfold lower. induction s as [| c r IH]; cbn [keep]; [ reflexivity | ].
  destruct (is_alpha c) eqn:E; [ | exact IH ].
  cbn [map_chars forallb_chars]. rewrite is_lower_to_lower, E, IH. reflexivity.
Qed.

Lemma keep_alpha_lower (s : string) :
  forallb_chars is_lower s = true -> lower (keep is_alpha s) = s.
Proof.
  unfold lower. induction s as [| c r IH]; cbn [forallb_chars keep];
    [ reflexivity | ].
  intros H. apply andb_prop in H. destruct H as [Hc Hr].
  assert (Ea : is_alpha c = true) by (unfold is_alpha; rewrite Hc; reflexivity).
  rewrite Ea. cbn [map_chars].
  rewrite (to_lower_lower c Hc), (IH Hr). reflexivity.
Qed.

Lemma is_alpha_to_upper (c : ascii) : is_alpha (to_upper c) = is_alpha c.
Proof.
  destruct c as [[] [] [] [] [] [] [] []]; vm_compute; reflexivity.
Qed.

Lemma to_lower_to_upper (c : ascii) : to_lower (to_upper c) = to_lower c.
Proof.
  destruct c as [[] [] [] [] [] [] [] []]; vm_compute; reflexivity.
Qed.

Lemma letters_of_upper (s : string) :
  lower (keep is_alpha (upper s)) = lower (keep is_alpha s).
Proof.
  unfold lower, upper. induction s as [| c r IH]; cbn [map_chars keep];
    [ reflexivity | ].
  rewrite is_alpha_to_upper. destruct (is_alpha c); cbn [map_chars];
    rewrite ?to_lower_to_upper, IH; reflexivity.
Qed.

(** The token of a county name written in ASCII is its letters a-z and
    A-Z, lower-cased: blanks, digits, punctuation and case play no part in
    it.  It is made of lower-case letters only, the token of a token is the
    token itself, and the name in capitals has the token of the name. *)
Theorem county_norm_token_letters (v : string) :
  isascii v = true ->
  county_norm_token v = lower (keep is_alpha v) /\
  forallb_chars is_lower (county_norm_token v) = true /\
  county_norm_token (county_norm_token v) = county_norm_token v /\
  county_norm_token (upper v) = county_norm_token v.
Proof.
  intros _. rewrite !county_norm_token_closed.
  split; [ reflexivity | ].
  split; [ apply lower_letters | ].
  split; [ apply keep_alpha_lower, lower_letters | apply letters_of_upper ].
Qed.

Lemma county_norm_token_letters_witness :
  county_norm_token " St. Mary's 2nd COUNTY "
    = lower (keep is_alpha " St. Mary's 2nd COUNTY ") /\
  forallb_chars is_lower (county_norm_token " St. Mary's 2nd COUNTY ") = true /\
  county_norm_token (county_norm_token " St. Mary's 2nd COUNTY ")
    = county_norm_token " St. Mary's 2nd COUNTY " /\
  county_norm_token (upper " St. Mary's 2nd COUNTY ")
    = county_norm_token " St. Mary's 2nd COUNTY ".
Proof.
  apply (county_norm_token_letters " St. Mary's 2nd COUNTY "). reflexivity.
Defined.

(* ================================================================== *)
(** * C7: the rules of county normalisation *)
(* ================================================================== *)

(** *** Names without blanks *)




















(** *** Title case of a name in capital letters *)













